(** * Shioaji HTTP facade (app.py): login, fetch_all and quote

    A shallow embedding of the three Flask handlers of [app.py] and of the
    two module globals they share ([api] and [contract_cache]).  The
    brokerage SDK, Flask, [os], [psutil] and [time] are external: their
    answers for one request are collected in a [world] record, and every
    call made to them is appended to a trace kept next to the globals.
    Handlers run in a state-and-exception monad in which a raised error
    keeps the state reached so far, as a Python [except] clause sees it.
    Log records are not part of the model. *)

From Stdlib Require Import ZArith List String Ascii Bool Lia DecimalString.
Import ListNotations.
Local Open Scope string_scope.
Local Open Scope Z_scope.

Set Warnings "-register-all".
Set Warnings "-automation".

(** ** Python values the handlers touch *)

(** A Python [float]: a finite binary float is [mantissa * 2 ^ exponent]. *)
Inductive pyfloat :=
| Finite (mantissa exponent : Z)
| Infinite (negative : bool)
| NaN.

(** The object [request.get_json()] returns. *)
Inductive json :=
| JNull
| JBool (b : bool)
| JInt (n : Z)
| JFloat (f : pyfloat)
| JStr (s : string)
| JArr (items : list json)
| JObj (fields : list (string * json)).

(** [bool(x)], as [not x] and [if x] use it. *)
Definition truthy (j : json) : bool :=
  match j with
  | JNull => false
  | JBool b => b
  | JInt n => negb (n =? 0)
  | JFloat (Finite m _) => negb (m =? 0)
  | JFloat _ => true
  | JStr s => negb (String.eqb s "")
  | JArr l => match l with [] => false | _ => true end
  | JObj l => match l with [] => false | _ => true end
  end.

Definition type_name (j : json) : string :=
  match j with
  | JNull => "NoneType"
  | JBool _ => "bool"
  | JInt _ => "int"
  | JFloat _ => "float"
  | JStr _ => "str"
  | JArr _ => "list"
  | JObj _ => "dict"
  end.

(** Exceptions, by class where a handler tells them apart. *)
Inductive exn :=
| KeyError (key : string)
| AttributeError (msg : string)
| IndexError (msg : string)
| OverflowError (msg : string)
| Raised (msg : string).

Inductive result (A : Type) :=
| Ok (a : A)
| Raise (e : exn).
Arguments Ok {A} a.
Arguments Raise {A} e.

(** ** Dictionaries

    A Python [dict] keeps its keys in insertion order, and assigning to a
    key that is present keeps the key where it is. *)
Definition dict (V : Type) := list (string * V).

Fixpoint dict_get {V} (d : dict V) (k : string) : option V :=
  match d with
  | [] => None
  | (k', v) :: rest => if String.eqb k' k then Some v else dict_get rest k
  end.

Fixpoint dict_set {V} (d : dict V) (k : string) (v : V) : dict V :=
  match d with
  | [] => [(k, v)]
  | (k', v') :: rest =>
      if String.eqb k' k then (k', v) :: rest else (k', v') :: dict_set rest k v
  end.

(** [d.get(k, default)] *)
Definition get_default {V} (d : dict V) (k : string) (default : V) : V :=
  match dict_get d k with
  | Some v => v
  | None => default
  end.

(** [s.endswith(suffix)] *)
Definition endswith (s suffix : string) : bool :=
  let n := String.length s in
  let m := String.length suffix in
  (m <=? n)%nat && String.eqb (String.substring (n - m) m s) suffix.

(** ** The collaborator's objects *)

(** A contract handle of the SDK: [c_id] stands for the object's identity,
    the two optional fields for what [hasattr] finds. *)
Record contract := Contract {
  c_id : nat;
  c_code : option string;
  c_category : option string
}.

(** What [contract_cache] holds, and what is passed on from it: contracts
    under the instrument keys, market labels under the [_market] keys. *)
Inductive value :=
| VContract (c : contract)
| VStr (s : string).

(** A snapshot returned by [api.snapshots]. *)
Record snapshot := Snapshot {
  q_code : string;
  q_close : option pyfloat;
  q_ts : option Z
}.

(** [api.usage()] *)
Record usage_status := UsageStatus {
  bytes : Z;
  limit_bytes : Z
}.

(** A contract directory such as [api.Contracts.Stocks.TSE]:
    [list(container)] and [container[code]].  A lookup returns a contract,
    returns [None], or raises. *)
Record directory := Directory {
  d_list : result (list contract);
  d_getitem : string -> result (option contract)
}.

(** A [sj.Shioaji] instance, by identity. *)
Definition session := nat.

Inductive accessor := TSE | OTC | OES | Futures | Options.

(** ** Binary64 arithmetic of the traffic gate

    [usage.bytes > 0.8 * usage.limit_bytes] converts [limit_bytes] to a
    float, multiplies by the double nearest to 0.8 and compares the
    integer [bytes] with the product exactly. *)

(** Round a non-negative [m * 2 ^ e] to 53 significant bits, ties to even. *)
Definition round53_pos (m e : Z) : Z * Z :=
  let n := Z.log2 m + 1 in
  if n <=? 53 then (m, e)
  else
    let sh := n - 53 in
    let q := Z.shiftr m sh in
    let r := Z.land m (Z.ones sh) in
    let half := Z.shiftl 1 (sh - 1) in
    let q' := if (half <? r) || ((r =? half) && Z.odd q) then q + 1 else q in
    (q', e + sh).

Definition round53 (m e : Z) : Z * Z :=
  if m <? 0 then let '(q, e') := round53_pos (- m) e in (- q, e')
  else round53_pos m e.

(** [float(n)] for a Python int; it overflows from [2^1024 - 2^970] on. *)
Definition float_of_int (n : Z) : result (Z * Z) :=
  if 2 ^ 1024 - 2 ^ 970 <=? Z.abs n
  then Raise (OverflowError "int too large to convert to float")
  else Ok (round53 n 0).

(** The double written [0.8]: [0x1.999999999999ap-1]. *)
Definition point_eight : Z * Z := (7205759403792794, -53).

(** The product of two finite doubles; here one factor is below 1 and the
    other is an integer or zero, so the product neither overflows nor
    falls in the subnormal range. *)
Definition float_mul (a b : Z * Z) : Z * Z :=
  round53 (fst a * fst b) (snd a + snd b).

(** [n > f] for an int [n] and a finite float [f]: Python compares the two
    exactly. *)
Definition int_gt_float (n : Z) (f : Z * Z) : bool :=
  let '(m, e) := f in
  if 0 <=? e then m * 2 ^ e <? n else m <? n * 2 ^ (- e).

(** [usage.bytes > 0.8 * usage.limit_bytes] *)
Definition over_traffic_limit (u : usage_status) : result bool :=
  match float_of_int (limit_bytes u) with
  | Raise e => Raise e
  | Ok l => Ok (int_gt_float (bytes u) (float_mul point_eight l))
  end.

(** [mem_info.rss > 12 * 1024**3] *)
Definition over_memory_limit (rss : Z) : bool := 12 * 1024 ^ 3 <? rss.

(** ** Requests, responses and the outside world *)

(** What Flask hands to a handler: [request.get_json()] and the query
    arguments [code] and [type]. *)
Record request := Request {
  req_json : result json;
  req_code : option string;
  req_type : option string
}.

(** One entry of the [quotes] list of /fetch_all. *)
Record quote_record := QuoteRecord {
  r_code : string;
  r_market : value;
  r_price : option pyfloat;
  r_timestamp : option Z
}.

(** The object each handler passes to [json.dumps] for [body].  Text that
    [str()] renders from a foreign object is kept as that object. *)
Inductive body :=
| BError (msg : string)
    (* {"error": msg} *)
| BCaNotFound (ca_path : json)
    (* {"error": f"CA file not found at {ca_path}"} *)
| BRaised (prefix : string) (e : exn)
    (* {"error": f"<prefix>{str(e)}"} *)
| BLogin (accounts : json)
    (* {"message": "Login successful", "accounts": accounts} *)
| BQuotes (quotes : list quote_record)
    (* {"message": "Quotes fetched", "quotes": quotes} *)
| BQuote (code : string) (price : pyfloat) (timestamp : Z)
         (market : string) (type_ : string).
    (* {"message": "Quote fetched", "quote": {...}, "market": ..., "type": ...} *)

Record response := Response {
  statusCode : Z;
  resp_body : body
}.

(** The answers of the collaborators during one request.  The methods of
    the SDK take the session they are called on; [w_snapshots s n batch] is
    the [n]-th call (from 0) of [api.snapshots] in the request. *)
Record world := World {
  w_path_exists : json -> result bool;
  w_Shioaji : json -> result session;
  w_activate_ca : session -> json -> json -> json -> result bool;
  w_login : session -> json -> json -> result json;
  w_fetch_contracts : session -> result unit;
  w_usage : session -> result usage_status;
  w_rss : result Z;
  w_TSE : session -> result (option directory);
  w_OTC : session -> result (option directory);
  w_OES : session -> result (option directory);
  w_Futures : session -> result directory;
  w_Options : session -> result directory;
  w_snapshots : session -> nat -> list value -> result (list snapshot)
}.

(** The calls a handler makes, in the order it makes them. *)
Inductive event :=
| EvPathExists (path : json)
| EvShioaji (simulation : json)
| EvActivateCa (s : session)
| EvLogin (s : session)
| EvFetchContracts (s : session)
| EvUsage (s : session)
| EvMemoryInfo
| EvContracts (s : session) (a : accessor)
| EvList (a : accessor)
| EvGetItem (a : accessor) (code : string)
| EvSnapshots (s : session) (batch : list value)
| EvSleep (seconds : Z).

(** The module globals [api] and [contract_cache], and the trace. *)
Record state := State {
  api : option session;
  contract_cache : dict value;
  trace : list event
}.

(** ** The handler monad *)

Definition M (A : Type) := state -> state * result A.

Definition ret {A} (a : A) : M A := fun st => (st, Ok a).

Definition raise {A} (e : exn) : M A := fun st => (st, Raise e).

Definition bind {A B} (m : M A) (k : A -> M B) : M B :=
  fun st =>
    match m st with
    | (st', Ok a) => k a st'
    | (st', Raise e) => (st', Raise e)
    end.

(** [try: m  except Exception as e: h e] *)
Definition try_except {A} (m : M A) (h : exn -> M A) : M A :=
  fun st =>
    match m st with
    | (st', Ok a) => (st', Ok a)
    | (st', Raise e) => h e st'
    end.

Declare Scope monad_scope.
Delimit Scope monad_scope with monad.
Notation "x <- m ;; k" := (bind m (fun x => k))
  (at level 100, m at next level, right associativity) : monad_scope.
Notation "m ;; k" := (bind m (fun _ => k))
  (at level 100, right associativity) : monad_scope.
Local Open Scope monad_scope.

Definition lift {A} (r : result A) : M A := fun st => (st, r).

Definition emit (e : event) : M unit :=
  fun st => (State (api st) (contract_cache st) (trace st ++ [e]), Ok tt).

(** A call to a collaborator: recorded, then it returns or raises. *)
Definition call {A} (e : event) (r : result A) : M A := emit e ;; lift r.

Definition get_api : M (option session) := fun st => (st, Ok (api st)).

Definition set_api (s : session) : M unit :=
  fun st => (State (Some s) (contract_cache st) (trace st), Ok tt).

Definition get_cache : M (dict value) := fun st => (st, Ok (contract_cache st)).

Definition modify_cache (f : dict value -> dict value) : M unit :=
  fun st => (State (api st) (f (contract_cache st)) (trace st), Ok tt).

(** [for x in l: f x] *)
Fixpoint for_each {A} (l : list A) (f : A -> M unit) : M unit :=
  match l with
  | [] => ret tt
  | x :: rest => f x ;; for_each rest f
  end.

(** A list comprehension whose element expression may raise. *)
Fixpoint map_m {A B} (f : A -> result B) (l : list A) : result (list B) :=
  match l with
  | [] => Ok []
  | x :: rest =>
      match f x with
      | Raise e => Raise e
      | Ok y =>
          match map_m f rest with
          | Raise e => Raise e
          | Ok ys => Ok (y :: ys)
          end
      end
  end.

(** A handler's outermost [try ... except Exception as e], which answers
    500 with the error's text after [prefix]. *)
Definition handle (prefix : string) (m : M response) : state -> state * response :=
  fun st =>
    match m st with
    | (st', Ok r) => (st', r)
    | (st', Raise e) => (st', Response 500 (BRaised prefix e))
    end.

(** ** POST /login *)

(** [data.get] on what [get_json] returned. *)
Definition as_dict (data : json) : result (dict json) :=
  match data with
  | JObj d => Ok d
  | _ => Raise (AttributeError
                  ("'" ++ type_name data ++ "' object has no attribute 'get'"))
  end.

Definition missing_params
    (api_key secret_key ca_password person_id simulation_mode : json) : list string :=
  (if truthy api_key then [] else ["api_key"]) ++
  (if truthy secret_key then [] else ["secret_key"]) ++
  (if truthy simulation_mode then []
   else (if truthy ca_password then [] else ["ca_password"]) ++
        (if truthy person_id then [] else ["person_id"])).

Definition login_body (w : world) (r : request) : M response :=
  data <- lift (req_json r) ;;
  if negb (truthy data) then ret (Response 400 (BError "Request body is empty"))
  else
    d <- lift (as_dict data) ;;
    let api_key := get_default d "api_key" JNull in
    let secret_key := get_default d "secret_key" JNull in
    let ca_path := get_default d "ca_path" (JStr "/app/Sinopac.pfx") in
    let ca_password := get_default d "ca_password" JNull in
    let person_id := get_default d "person_id" JNull in
    let simulation_mode := get_default d "simulation_mode" (JBool false) in
    let missing :=
      missing_params api_key secret_key ca_password person_id simulation_mode in
    match missing with
    | _ :: _ =>
        ret (Response 400
               (BError ("Missing parameters: " ++ String.concat ", " missing)))
    | [] =>
        ca_missing <-
          (if truthy simulation_mode then ret false
           else found <- call (EvPathExists ca_path) (w_path_exists w ca_path) ;;
                ret (negb found)) ;;
        if (ca_missing : bool) then ret (Response 500 (BCaNotFound ca_path))
        else
          s <- call (EvShioaji simulation_mode) (w_Shioaji w simulation_mode) ;;
          set_api s ;;
          activated <-
            (if truthy simulation_mode then ret true
             else call (EvActivateCa s)
                       (w_activate_ca w s ca_path ca_password person_id)) ;;
          if negb activated then ret (Response 500 (BError "Failed to activate CA"))
          else
            accounts <- call (EvLogin s) (w_login w s api_key secret_key) ;;
            call (EvFetchContracts s) (w_fetch_contracts w s) ;;
            ret (Response 200 (BLogin accounts))
    end.

Definition login (w : world) (r : request) : state -> state * response :=
  handle "Error in login: " (login_body w r).

(** ** GET /fetch_all *)

(** [hasattr(contract, 'category') and contract.category == "Warrant"] *)
Definition is_warrant (c : contract) : bool :=
  match c_category c with
  | Some cat => String.eqb cat "Warrant"
  | None => false
  end.

(** The body of the loop over one stock container. *)
Definition cache_stock (market : string) (cache : dict value) (c : contract)
  : dict value :=
  match c_code c with
  | None => cache
  | Some code =>
      let cache_key := "stock_" ++ code in
      let cache := dict_set cache cache_key (VContract c) in
      let cache := dict_set cache (cache_key ++ "_market") (VStr market) in
      if is_warrant c then
        let warrant_key := "warrant_" ++ code in
        let cache := dict_set cache warrant_key (VContract c) in
        dict_set cache (warrant_key ++ "_market") (VStr (market ++ "_Warrant"))
      else cache
  end.

(** The body of the loops over Futures ([prefix = "futures_"]) and Options. *)
Definition cache_derivative (prefix market : string) (cache : dict value)
    (c : contract) : dict value :=
  match c_code c with
  | None => cache
  | Some code =>
      let cache_key := prefix ++ code in
      let cache := dict_set cache cache_key (VContract c) in
      dict_set cache (cache_key ++ "_market") (VStr market)
  end.

Definition market_name (a : accessor) : string :=
  match a with
  | TSE => "TSE"
  | OTC => "OTC"
  | OES => "OES"
  | Futures => "Futures"
  | Options => "Options"
  end.

(** The three stock containers, read before the loop over them starts. *)
Definition stock_containers (w : world) (s : session)
  : M (list (accessor * option directory)) :=
  tse <- call (EvContracts s TSE) (w_TSE w s) ;;
  otc <- call (EvContracts s OTC) (w_OTC w s) ;;
  oes <- call (EvContracts s OES) (w_OES w s) ;;
  ret [(TSE, tse); (OTC, otc); (OES, oes)].

(** The block under [if not contract_cache:]. *)
Definition populate (w : world) (s : session) : M unit :=
  containers <- stock_containers w s ;;
  for_each containers (fun mc =>
    match snd mc with
    | None => ret tt
    | Some container =>
        l <- call (EvList (fst mc)) (d_list container) ;;
        modify_cache (fun cache => fold_left (cache_stock (market_name (fst mc))) l cache)
    end) ;;
  futures <- call (EvContracts s Futures) (w_Futures w s) ;;
  l <- call (EvList Futures) (d_list futures) ;;
  modify_cache (fun cache => fold_left (cache_derivative "futures_" "Futures") l cache) ;;
  options <- call (EvContracts s Options) (w_Options w s) ;;
  l <- call (EvList Options) (d_list options) ;;
  modify_cache (fun cache => fold_left (cache_derivative "options_" "Options") l cache).

Definition is_instrument_key (kv : string * value) : bool :=
  negb (endswith (fst kv) "_market").

(** [[v for k, v in contract_cache.items() if not k.endswith("_market")]] *)
Definition contracts_of (cache : dict value) : list value :=
  map snd (filter is_instrument_key cache).

(** [[contract_cache[k + "_market"] for k, v in ... if not k.endswith("_market")]] *)
Definition markets_of (cache : dict value) : result (list value) :=
  map_m (fun kv =>
           match dict_get cache (fst kv ++ "_market") with
           | Some v => Ok v
           | None => Raise (KeyError (fst kv ++ "_market"))
           end)
        (filter is_instrument_key cache).

Definition batch_size : nat := 200%nat.

(** [range(start, stop, step)] for a positive [step]. *)
Fixpoint range_from (fuel start stop step : nat) : list nat :=
  match fuel with
  | O => []
  | S fuel' =>
      if (start <? stop)%nat
      then start :: range_from fuel' (start + step) stop step
      else []
  end.

Definition range (start stop step : nat) : list nat :=
  range_from stop start stop step.

(** The batch loop, over the start indices still to visit. *)
Fixpoint batch_loop (w : world) (s : session) (contracts : list value)
    (starts : list nat) (quotes : list snapshot) : M (list snapshot) :=
  match starts with
  | [] => ret quotes
  | i :: rest =>
      let batch := firstn batch_size (skipn i contracts) in
      extended <-
        try_except
          (batch_quotes <- call (EvSnapshots s batch)
                                (w_snapshots w s (i / batch_size)%nat batch) ;;
           ret (Some (quotes ++ batch_quotes)%list))
          (fun _ => ret None) ;;
      match extended with
      | None => batch_loop w s contracts rest quotes
      | Some quotes' =>
          emit (EvSleep 1) ;;
          batch_loop w s contracts rest quotes'
      end
  end.

(** [enumerate(l)] *)
Definition enumerate {A} (l : list A) : list (nat * A) :=
  combine (seq 0 (List.length l)) l.

(** The comprehension that builds [result]. *)
Definition format_result (markets : list value) (quotes : list snapshot)
  : result (list quote_record) :=
  map_m (fun iq =>
           match nth_error markets (fst iq) with
           | None => Raise (IndexError "list index out of range")
           | Some market =>
               Ok (QuoteRecord (q_code (snd iq)) market
                               (q_close (snd iq)) (q_ts (snd iq)))
           end)
        (enumerate quotes).

(** From "Collect all contracts" to the answer: the batch query over
    the cached instruments and the formatting of the quotes. *)
Definition serve (w : world) (s : session) : M response :=
  cache <- get_cache ;;
  let contracts := contracts_of cache in
  markets <- lift (markets_of cache) ;;
  quotes <- batch_loop w s contracts
              (range 0 (List.length contracts) batch_size) [] ;;
  result <- lift (format_result markets quotes) ;;
  ret (Response 200 (BQuotes result)).

Definition fetch_all_body (w : world) : M response :=
  a <- get_api ;;
  match a with
  | None => ret (Response 500 (BError "Shioaji API not initialized"))
  | Some s =>
      usage <- call (EvUsage s) (w_usage w s) ;;
      over <- lift (over_traffic_limit usage) ;;
      if (over : bool)
      then ret (Response 429 (BError "Approaching traffic limit"))
      else
        rss <- call EvMemoryInfo (w_rss w) ;;
        if over_memory_limit rss
        then ret (Response 429 (BError "High memory usage"))
        else
          cache <- get_cache ;;
          match cache with
          | [] => populate w s
          | _ :: _ => ret tt
          end ;;
          serve w s
  end.

Definition fetch_all (w : world) : state -> state * response :=
  handle "Error in fetch_all: " (fetch_all_body w).

(** ** GET /quote *)

(** [contract] and [market] as a lookup that returned leaves them: a pair
    when the lookup gave a contract, [None] when it gave [None] ([market]
    is then set but never read again). *)
Definition found (market : string) (returned : option contract)
  : option (contract * string) :=
  match returned with
  | Some c => Some (c, market)
  | None => None
  end.

(** The loop over the stock venues: a venue that is [None] or whose lookup
    raises [KeyError] is passed over ([continue]); the first lookup that
    returns ends the loop ([break]), whether it returned a contract or
    [None]. *)
Fixpoint probe (venues : list (accessor * option directory)) (code : string)
  : M (option (contract * string)) :=
  match venues with
  | [] => ret None
  | (_, None) :: rest => probe rest code
  | (a, Some c) :: rest =>
      returned <-
        try_except
          (contract <- call (EvGetItem a code) (d_getitem c code) ;;
           ret (Some contract))
          (fun e => match e with
                    | KeyError _ => ret None
                    | _ => raise e
                    end) ;;
      match returned with
      | Some contract => ret (found (market_name a) contract)
      | None => probe rest code
      end
  end.

(** The warrant check after the loop. *)
Definition relabel (hit : contract * string) : contract * string :=
  if is_warrant (fst hit) then (fst hit, snd hit ++ "_Warrant") else hit.

(** The [if / elif / else] on [type_]: [None] for an unsupported type,
    otherwise the contract and market found, [Some None] when [contract]
    is [None] at the end. *)
Definition resolve (w : world) (s : session) (type_ code : string)
  : M (option (option (contract * string))) :=
  if String.eqb type_ "stock" then
    venues <- stock_containers w s ;;
    hit <- probe venues code ;;
    ret (Some (option_map relabel hit))
  else if String.eqb type_ "futures" then
    futures <- call (EvContracts s Futures) (w_Futures w s) ;;
    contract <- call (EvGetItem Futures code) (d_getitem futures code) ;;
    ret (Some (found "Futures" contract))
  else if String.eqb type_ "options" then
    options <- call (EvContracts s Options) (w_Options w s) ;;
    contract <- call (EvGetItem Options code) (d_getitem options code) ;;
    ret (Some (found "Options" contract))
  else ret None.

(** [obj.name] on a snapshot field that [hasattr] may not find. *)
Definition attribute {A} (name : string) (field : option A) : M A :=
  match field with
  | Some a => ret a
  | None => raise (AttributeError
                     ("'Snapshot' object has no attribute '" ++ name ++ "'"))
  end.

Definition quote_body (w : world) (r : request) : M response :=
  let type_ := match req_type r with Some t => t | None => "stock" end in
  match req_code r with
  | None | Some "" => ret (Response 400 (BError "Missing parameter: code"))
  | Some code =>
      a <- get_api ;;
      match a with
      | None => ret (Response 500 (BError "Shioaji API not initialized"))
      | Some s =>
          found <- resolve w s type_ code ;;
          match found with
          | None => ret (Response 400 (BError ("Unsupported type: " ++ type_)))
          | Some None =>
              ret (Response 500 (BError ("Contract not found for code=" ++ code)))
          | Some (Some (contract, market)) =>
              quotes <- call (EvSnapshots s [VContract contract])
                             (w_snapshots w s 0%nat [VContract contract]) ;;
              match quotes with
              | [] => raise (IndexError "list index out of range")
              | quote :: _ =>
                  price <- attribute "close" (q_close quote) ;;
                  ts <- attribute "ts" (q_ts quote) ;;
                  ret (Response 200 (BQuote (q_code quote) price ts market type_))
              end
          end
      end
  end.

Definition quote (w : world) (r : request) : state -> state * response :=
  handle "Error in quote: " (quote_body w r).

(** ** Reading a run *)

(** The events a handler added to the trace. *)
Definition new_events (before after : state) : list event :=
  skipn (List.length (trace before)) (trace after).

Definition is_contracts_access (e : event) : bool :=
  match e with
  | EvContracts _ _ | EvList _ | EvGetItem _ _ => true
  | _ => false
  end.

Definition is_snapshots (e : event) : bool :=
  match e with
  | EvSnapshots _ _ => true
  | _ => false
  end.

(** The batches passed to [api.snapshots], in call order. *)
Definition snapshot_batches (t : list event) : list (list value) :=
  flat_map (fun e => match e with
                     | EvSnapshots _ batch => [batch]
                     | _ => []
                     end) t.

(** What the batch loop adds to the trace: each start index gives one
    snapshot call, followed by the pause when the call returned. *)
Fixpoint batch_events (w : world) (s : session) (contracts : list value)
    (starts : list nat) : list event :=
  match starts with
  | [] => []
  | i :: rest =>
      let batch := firstn batch_size (skipn i contracts) in
      EvSnapshots s batch ::
      (match w_snapshots w s (i / batch_size)%nat batch with
       | Ok _ => [EvSleep 1]
       | Raise _ => []
       end ++ batch_events w s contracts rest)%list
  end.

(** The quotes the batch loop collects: those of the calls that returned,
    in call order. *)
Fixpoint batch_quotes (w : world) (s : session) (contracts : list value)
    (starts : list nat) : list snapshot :=
  match starts with
  | [] => []
  | i :: rest =>
      (match w_snapshots w s (i / batch_size)%nat
               (firstn batch_size (skipn i contracts)) with
       | Ok batch_quotes => batch_quotes
       | Raise _ => []
       end ++ batch_quotes w s contracts rest)%list
  end.

(** The snapshot a record of /fetch_all was built from. *)
Definition record_snapshot (r : quote_record) : snapshot :=
  Snapshot (r_code r) (r_price r) (r_timestamp r).

(** The [quotes] list of a response, when its body has one. *)
Definition response_quotes (r : response) : option (list quote_record) :=
  match resp_body r with
  | BQuotes quotes => Some quotes
  | _ => None
  end.

(** The [market] field of a response, when its body has one. *)
Definition response_market (r : response) : option string :=
  match resp_body r with
  | BQuote _ _ _ market _ => Some market
  | _ => None
  end.

(** A run of /fetch_all requests, one world per request. *)
Fixpoint fetch_all_run (ws : list world) (st : state) : state :=
  match ws with
  | [] => st
  | w :: rest => fetch_all_run rest (fst (fetch_all w st))
  end.

(** [runs I P m]: started with a cache that satisfies [I], the code [m]
    leaves [api] alone, extends the trace by events that satisfy [P] and
    ends with a cache that satisfies [I], whether it returns or raises. *)
Definition runs {A} (I : dict value -> Prop) (P : event -> Prop) (m : M A) : Prop :=
  forall st, I (contract_cache st) ->
    exists evs,
      trace (fst (m st)) = (trace st ++ evs)%list /\ Forall P evs /\
      api (fst (m st)) = api st /\ I (contract_cache (fst (m st))).

(** The contracts one stock venue lists, when its accessor and
    [list(container)] both return. *)
Definition stock_listing (r : result (option directory)) : list contract :=
  match r with
  | Ok (Some d) => match d_list d with Ok l => l | Raise _ => [] end
  | _ => []
  end.

(** Two stock codes whose cache keys meet: the codes are equal, or one is
    the other followed by [_market]. *)
Definition code_clash (x y : string) : bool :=
  String.eqb x y || String.eqb x (y ++ "_market") || String.eqb y (x ++ "_market").

(** [prepared w s st st1]: [st1] is the state in which a /fetch_all
    request that found [st] starts to collect the contracts, both gates
    passed and the cache populated if it was empty. *)
Definition prepared (w : world) (s : session) (st st1 : state) : Prop :=
  let gated := State (api st) (contract_cache st)
                     (trace st ++ [EvUsage s; EvMemoryInfo]) in
  match contract_cache st with
  | [] => populate w s gated = (st1, Ok tt)
  | _ :: _ => st1 = gated
  end.

(** The two entries of a warrant [c] with code [code] met in [venue]:
    the instrument and its label under the stock key and under the warrant
    key. *)
Definition warrant_aliased (venue : string) (cache : dict value)
    (c : contract) (code : string) : Prop :=
  dict_get cache ("stock_" ++ code) = Some (VContract c) /\
  dict_get cache (("stock_" ++ code) ++ "_market") = Some (VStr venue) /\
  dict_get cache ("warrant_" ++ code) = Some (VContract c) /\
  dict_get cache (("warrant_" ++ code) ++ "_market")
    = Some (VStr (venue ++ "_Warrant")).

(** The loop passes a stock venue over for [code]: the venue is [None], or
    its lookup raises [KeyError]. *)
Definition absent_from (code : string) (venue : option directory) : Prop :=
  match venue with
  | None => True
  | Some d => exists k, d_getitem d code = Raise (KeyError k)
  end.

(** ** Sample collaborators *)

Module Sample.

(** Decimal numeral of [n], used as an instrument code. *)
Definition code_of (n : nat) : string := NilEmpty.string_of_uint (Nat.to_uint n).

(** [count] plain contracts with identities and codes [first], [first+1], ... *)
Definition numbered (first count : nat) : list contract :=
  map (fun n => Contract n (Some (code_of n)) None) (seq first count).

Definition has_code (code : string) (c : contract) : bool :=
  match c_code c with
  | Some x => String.eqb x code
  | None => false
  end.

(** A directory that lists [l] and finds a contract by its code; like a
    dict, its lookup raises [KeyError] for a code it does not list. *)
Definition directory_of (l : list contract) : directory :=
  Directory (Ok l)
    (fun code => match find (has_code code) l with
                 | Some c => Ok (Some c)
                 | None => Raise (KeyError code)
                 end).

(** The snapshot of one instrument: same code, a price and a time. *)
Definition snapshot_of (v : value) : snapshot :=
  match v with
  | VContract c =>
      Snapshot (match c_code c with Some x => x | None => "" end)
               (Some (Finite 25 (-2))) (Some (Z.of_nat (c_id c)))
  | VStr s => Snapshot s None None
  end.

(** An SDK whose snapshot calls numbered in [failing] raise and whose
    other snapshot calls answer one snapshot per instrument, in order. *)
Definition sdk (usage : usage_status) (rss : Z)
    (tse otc futures options : list contract) (failing : list nat) : world :=
  World (fun _ => Ok true)
        (fun _ => Ok 7%nat)
        (fun _ _ _ _ => Ok true)
        (fun _ _ _ => Ok (JArr [JStr "account"]))
        (fun _ => Ok tt)
        (fun _ => Ok usage)
        (Ok rss)
        (fun _ => Ok (Some (directory_of tse)))
        (fun _ => Ok (Some (directory_of otc)))
        (fun _ => Ok None)
        (fun _ => Ok (directory_of futures))
        (fun _ => Ok (directory_of options))
        (fun _ n batch =>
           if existsb (Nat.eqb n) failing then Raise (Raised "snapshot timeout")
           else Ok (map snapshot_of batch)).

Definition light_usage : usage_status := UsageStatus 1000 500000000.

(** A fresh process, and one in which a login has set [api]. *)
Definition fresh : state := State None [] [].
Definition logged_in : state := State (Some 3%nat) [] [].

(** A session whose cache already holds the instruments [l] of TSE. *)
Definition warm (l : list contract) : state :=
  State (Some 3%nat) (fold_left (cache_stock "TSE") l []) [].

Definition post (data : json) : request := Request (Ok data) None None.
Definition quote_request (code type_ : string) : request :=
  Request (Ok JNull) (Some code) (Some type_).

(** 400 stocks of TSE and one future; the second snapshot call raises. *)
Definition txf : contract := Contract 1000 (Some "TXF") None.
Definition skipping_sdk : world :=
  sdk light_usage 0 (numbered 0 400) [] [txf] [] [1%nat].

(** One cached stock whose snapshot call raises. *)
Definition lone_failure : world := sdk light_usage 0 [] [] [] [] [0%nat].

(** 450 stocks of TSE; the second snapshot call raises. *)
Definition sdk_450 : world := sdk light_usage 0 (numbered 0 450) [] [] [] [1%nat].

(** The state of a first request on [sdk_450] once the cache is built. *)
Definition populated_450 : state :=
  fst (populate sdk_450 3%nat
         (State (Some 3%nat) [] [EvUsage 3%nat; EvMemoryInfo])).

(** A warrant of TSE and a stock of OTC that carry the same code. *)
Definition warrant_a : contract := Contract 1 (Some "A") (Some "Warrant").
Definition stock_a : contract := Contract 2 (Some "A") None.
Definition clashing_sdk : world := sdk light_usage 0 [warrant_a] [stock_a] [] [] [].
Definition warrant_sdk : world :=
  sdk light_usage 0 [warrant_a] (numbered 10 2) [] [] [].

(** A stock and a warrant listed in OTC only. *)
Definition otc_stock : contract := Contract 5 (Some "6488") None.
Definition otc_warrant : contract := Contract 6 (Some "70001") (Some "Warrant").
Definition otc_sdk : world :=
  sdk light_usage 0 (numbered 0 3) [otc_stock; otc_warrant] [] [] [].

(** An SDK on which certificate activation answers false. *)
Definition refusing_sdk : world :=
  World (fun _ => Ok true)
        (fun _ => Ok 8%nat)
        (fun _ _ _ _ => Ok false)
        (fun _ _ _ => Ok (JArr []))
        (fun _ => Ok tt)
        (fun _ => Ok light_usage)
        (Ok 0)
        (fun _ => Ok None)
        (fun _ => Ok None)
        (fun _ => Ok None)
        (fun _ => Raise (Raised "contracts not loaded"))
        (fun _ => Raise (Raised "contracts not loaded"))
        (fun _ _ _ => Raise (Raised "not logged in")).

Definition credential_fields : dict json :=
  [("api_key", JStr "k"); ("secret_key", JStr "s");
   ("ca_password", JStr "p"); ("person_id", JStr "A123456789")].
Definition credentials : json := JObj credential_fields.

End Sample.

(** ** Requests of a process, labelled caches *)

(** A cache in which every instrument key, a key that does not end with
    [_market], comes with its label key. *)
Definition labelled (cache : dict value) : Prop :=
  forall k, dict_get cache k <> None -> endswith k "_market" = false ->
            dict_get cache (k ++ "_market") <> None.

(** One HTTP request, with the answers the collaborators give during it. *)
Inductive http :=
| PostLogin (w : world) (r : request)
| GetFetchAll (w : world)
| GetQuote (w : world) (r : request).

Definition dispatch (q : http) : state -> state * response :=
  match q with
  | PostLogin w r => login w r
  | GetFetchAll w => fetch_all w
  | GetQuote w r => quote w r
  end.

(** The requests of a process, served one after the other. *)
Fixpoint process (qs : list http) (st : state) : state :=
  match qs with
  | [] => st
  | q :: rest => process rest (fst (dispatch q st))
  end.

(** [isinstance(data, dict)] *)
Definition is_object (data : json) : bool :=
  match data with
  | JObj _ => true
  | _ => false
  end.

Definition is_key_error (e : exn) : bool :=
  match e with
  | KeyError _ => true
  | _ => false
  end.

(** ** More sample collaborators *)

Module Cases.

(** The certificate file is not there. *)
Definition no_certificate : world :=
  World (fun _ => Ok false)
        (fun _ => Ok 9%nat)
        (fun _ _ _ _ => Ok true)
        (fun _ _ _ => Ok (JArr []))
        (fun _ => Ok tt)
        (fun _ => Ok Sample.light_usage)
        (Ok 0)
        (fun _ => Ok None)
        (fun _ => Ok None)
        (fun _ => Ok None)
        (fun _ => Ok (Sample.directory_of []))
        (fun _ => Ok (Sample.directory_of []))
        (fun _ _ batch => Ok (map Sample.snapshot_of batch)).

(** [sj.Shioaji(...)] raises. *)
Definition broken_constructor : world :=
  World (fun _ => Ok true)
        (fun _ => Raise (Raised "no network"))
        (fun _ _ _ _ => Ok true)
        (fun _ _ _ => Ok (JArr []))
        (fun _ => Ok tt)
        (fun _ => Ok Sample.light_usage)
        (Ok 0)
        (fun _ => Ok None)
        (fun _ => Ok None)
        (fun _ => Ok None)
        (fun _ => Ok (Sample.directory_of []))
        (fun _ => Ok (Sample.directory_of []))
        (fun _ _ batch => Ok (map Sample.snapshot_of batch)).

(** TSE lists two stocks; reading [api.Contracts.Futures] raises. *)
Definition interrupted : world :=
  World (fun _ => Ok true)
        (fun _ => Ok 9%nat)
        (fun _ _ _ _ => Ok true)
        (fun _ _ _ => Ok (JArr []))
        (fun _ => Ok tt)
        (fun _ => Ok Sample.light_usage)
        (Ok 0)
        (fun _ => Ok (Some (Sample.directory_of (Sample.numbered 0 2))))
        (fun _ => Ok None)
        (fun _ => Ok None)
        (fun _ => Raise (Raised "futures not loaded"))
        (fun _ => Ok (Sample.directory_of []))
        (fun _ _ batch => Ok (map Sample.snapshot_of batch)).

(** The TSE lookup fails with an error that is no [KeyError]; OTC lists
    the stock. *)
Definition tse_down : world :=
  World (fun _ => Ok true)
        (fun _ => Ok 9%nat)
        (fun _ _ _ _ => Ok true)
        (fun _ _ _ => Ok (JArr []))
        (fun _ => Ok tt)
        (fun _ => Ok Sample.light_usage)
        (Ok 0)
        (fun _ => Ok (Some (Directory (Ok []) (fun _ => Raise (Raised "timeout")))))
        (fun _ => Ok (Some (Sample.directory_of [Sample.otc_stock])))
        (fun _ => Ok None)
        (fun _ => Ok (Sample.directory_of []))
        (fun _ => Ok (Sample.directory_of []))
        (fun _ _ batch => Ok (map Sample.snapshot_of batch)).

(** A future whose category is "Warrant". *)
Definition odd_future : contract := Contract 20 (Some "TXFA") (Some "Warrant").

(** Snapshots come back without a closing price. *)
Definition priceless : world :=
  World (fun _ => Ok true)
        (fun _ => Ok 9%nat)
        (fun _ _ _ _ => Ok true)
        (fun _ _ _ => Ok (JArr []))
        (fun _ => Ok tt)
        (fun _ => Ok Sample.light_usage)
        (Ok 0)
        (fun _ => Ok None)
        (fun _ => Ok None)
        (fun _ => Ok None)
        (fun _ => Ok (Sample.directory_of [odd_future]))
        (fun _ => Ok (Sample.directory_of []))
        (fun _ _ batch => Ok (map (fun _ => Snapshot "TXFA" None (Some 1)) batch)).

(** Each snapshot call answers one quote too many. *)
Definition talkative : world :=
  World (fun _ => Ok true)
        (fun _ => Ok 9%nat)
        (fun _ _ _ _ => Ok true)
        (fun _ _ _ => Ok (JArr []))
        (fun _ => Ok tt)
        (fun _ => Ok Sample.light_usage)
        (Ok 0)
        (fun _ => Ok (Some (Sample.directory_of (Sample.numbered 0 2))))
        (fun _ => Ok None)
        (fun _ => Ok None)
        (fun _ => Ok (Sample.directory_of []))
        (fun _ => Ok (Sample.directory_of []))
        (fun _ _ batch =>
           Ok (Snapshot "extra" None None :: map Sample.snapshot_of batch)).

Definition simulation_fields : dict json :=
  [("api_key", JStr "k"); ("secret_key", JStr "s");
   ("simulation_mode", JBool true)].

(** TSE lists three stocks; everything else is empty. *)
Definition small_sdk : world :=
  Sample.sdk Sample.light_usage 0 (Sample.numbered 0 3) [] [] [] [].

(** The states in which population by [small_sdk] and by [talkative] ends,
    from [Sample.logged_in] with both gates passed. *)
Definition small_populated : state :=
  fst (populate small_sdk 3%nat
         (State (Some 3%nat) [] [EvUsage 3%nat; EvMemoryInfo])).

Definition talkative_populated : state :=
  fst (populate talkative 3%nat
         (State (Some 3%nat) [] [EvUsage 3%nat; EvMemoryInfo])).

(** No TSE directory; OTC lists three stocks; OES lists one warrant. *)
Definition oes_warrant : contract := Contract 30 (Some "7001W") (Some "Warrant").
Definition emerging : world :=
  World (fun _ => Ok true)
        (fun _ => Ok 9%nat)
        (fun _ _ _ _ => Ok true)
        (fun _ _ _ => Ok (JArr []))
        (fun _ => Ok tt)
        (fun _ => Ok Sample.light_usage)
        (Ok 0)
        (fun _ => Ok None)
        (fun _ => Ok (Some (Sample.directory_of (Sample.numbered 0 3))))
        (fun _ => Ok (Some (Sample.directory_of [oes_warrant])))
        (fun _ => Ok (Sample.directory_of []))
        (fun _ => Ok (Sample.directory_of []))
        (fun _ _ batch => Ok (map Sample.snapshot_of batch)).

(** A directory that lists [l] and whose lookup returns [None] for a code
    it does not list, as the containers of the SDK do. *)
Definition container_of (l : list contract) : directory :=
  Directory (Ok l) (fun code => Ok (find (Sample.has_code code) l)).

(** TSE lists the stocks 0, 1, 2; OTC lists the stock 6488 and a warrant;
    one future; lookups of codes that are not listed return [None]. *)
Definition lenient : world :=
  World (fun _ => Ok true)
        (fun _ => Ok 9%nat)
        (fun _ _ _ _ => Ok true)
        (fun _ _ _ => Ok (JArr []))
        (fun _ => Ok tt)
        (fun _ => Ok Sample.light_usage)
        (Ok 0)
        (fun _ => Ok (Some (container_of (Sample.numbered 0 3))))
        (fun _ => Ok (Some (container_of [Sample.otc_stock; Sample.otc_warrant])))
        (fun _ => Ok None)
        (fun _ => Ok (container_of [Sample.txf]))
        (fun _ => Ok (container_of []))
        (fun _ _ batch => Ok (map Sample.snapshot_of batch)).

(** A warrant of TSE followed by a stock whose code is the warrant's code
    with [_market] appended: two instruments of one class with two
    codes. *)
Definition stock_a_market : contract := Contract 2 (Some "A_market") None.
Definition suffix_sdk : world :=
  Sample.sdk Sample.light_usage 0 [Sample.warrant_a; stock_a_market] [] [] [] [].

End Cases.

(** ** Predicates of the further properties *)

(** The events /quote can add: directory accesses and lookups of the
    code asked for, and the snapshot of one contract. *)
Definition quote_event (s : session) (code : string) (e : event) : Prop :=
  match e with
  | EvContracts s' _ => s' = s
  | EvGetItem _ code' => code' = code
  | EvSnapshots s' [VContract _] => s' = s
  | _ => False
  end.

(** The lookups the loop makes in the venues it passes over. *)
Definition lookups (code : string) (venues : list (accessor * option directory))
  : list event :=
  flat_map (fun v => match snd v with
                     | Some _ => [EvGetItem (fst v) code]
                     | None => []
                     end) venues.

(** What /quote answers once a contract is resolved. *)
Definition quote_answer (w : world) (s : session) (c : contract)
    (market type_ : string) : response :=
  match w_snapshots w s 0%nat [VContract c] with
  | Raise e => Response 500 (BRaised "Error in quote: " e)
  | Ok [] =>
      Response 500 (BRaised "Error in quote: "
                      (IndexError "list index out of range"))
  | Ok (q :: _) =>
      match q_close q, q_ts q with
      | Some price, Some ts =>
          Response 200 (BQuote (q_code q) price ts market type_)
      | None, _ =>
          Response 500
            (BRaised "Error in quote: "
               (AttributeError "'Snapshot' object has no attribute 'close'"))
      | Some _, None =>
          Response 500
            (BRaised "Error in quote: "
               (AttributeError "'Snapshot' object has no attribute 'ts'"))
      end
  end.

(** A cache whose instrument keys hold contracts. *)
Definition typed (cache : dict value) : Prop :=
  forall k v, In (k, v) cache -> endswith k "_market" = false ->
              exists c, v = VContract c.

(** [answers Q m]: whenever [m] returns a response, it satisfies [Q]. *)
Definition answers (Q : response -> Prop) (m : M response) : Prop :=
  forall st, match snd (m st) with Ok r => Q r | Raise _ => True end.

Definition login_answer (a : response) : Prop :=
  (statusCode a = 200 /\ exists accounts, resp_body a = BLogin accounts) \/
  (statusCode a = 400 /\ exists msg, resp_body a = BError msg) \/
  (statusCode a = 500 /\
   (resp_body a = BError "Failed to activate CA" \/
    (exists ca_path, resp_body a = BCaNotFound ca_path) \/
    exists e, resp_body a = BRaised "Error in login: " e)).

Definition fetch_all_answer_shape (a : response) : Prop :=
  (statusCode a = 200 /\ exists records, resp_body a = BQuotes records) \/
  (statusCode a = 429 /\
   (resp_body a = BError "Approaching traffic limit" \/
    resp_body a = BError "High memory usage")) \/
  (statusCode a = 500 /\
   (resp_body a = BError "Shioaji API not initialized" \/
    exists e, resp_body a = BRaised "Error in fetch_all: " e)).

Definition quote_answer_shape (a : response) : Prop :=
  (statusCode a = 200 /\
   exists code price ts market type_,
     resp_body a = BQuote code price ts market type_) \/
  (statusCode a = 400 /\ exists msg, resp_body a = BError msg) \/
  (statusCode a = 500 /\
   ((exists msg, resp_body a = BError msg) \/
    exists e, resp_body a = BRaised "Error in quote: " e)).

(** * Properties *)

(** ** The gate arithmetic and the loop indices on examples *)

Example point_eight_times_100 : float_mul point_eight (100, 0) = (80 * 2 ^ 46, -46).
Proof. reflexivity. Qed.

Example point_eight_times_3 :
  float_mul point_eight (3, 0) = (5404319552844596, -51).
Proof. reflexivity. Qed.

Example traffic_81_of_100 : over_traffic_limit (UsageStatus 81 100) = Ok true.
Proof. reflexivity. Qed.

Example traffic_80_of_100 : over_traffic_limit (UsageStatus 80 100) = Ok false.
Proof. reflexivity. Qed.

Example traffic_limit_too_large :
  over_traffic_limit (UsageStatus 0 (2 ^ 1024))
    = Raise (OverflowError "int too large to convert to float").
Proof. reflexivity. Qed.

Example range_450 : range 0 450 batch_size = [0; 200; 400]%nat.
Proof. reflexivity. Qed.

Example range_400 : range 0 400 batch_size = [0; 200]%nat.
Proof. reflexivity. Qed.

Example endswith_market :
  endswith "stock_2330_market" "_market" = true /\
  endswith "stock_2330" "_market" = false /\
  endswith "ket" "_market" = false.
Proof. repeat split; reflexivity. Qed.

(** An integer below [2^53] is a double. *)
Lemma round53_small (m e : Z) : 0 <= m < 2 ^ 53 -> round53 m e = (m, e).
Proof.
  intros [Hlo Hhi]. unfold round53, round53_pos.
  destruct (Z.ltb_spec m 0) as [Hneg|_]; [lia|].
  assert (Hlog : Z.log2 m + 1 <= 53).
  { destruct (Z.eq_dec m 0) as [->|Hm]; [cbn; lia|].
    assert (Z.log2 m < 53) by (apply Z.log2_lt_pow2; lia). lia. }
  apply Z.leb_le in Hlog. rewrite Hlog. reflexivity.
Qed.

(** X21: up to a limit of [2^50] bytes the binary64 test agrees with the
    test over the rationals: [bytes > 0.8 * limit_bytes] iff
    [5 * bytes > 4 * limit_bytes]. *)
Lemma over_traffic_limit_exact (u : usage_status) :
  0 <= limit_bytes u <= 2 ^ 50 ->
  over_traffic_limit u = Ok (4 * limit_bytes u <? 5 * bytes u).
Proof.
  destruct u as [b l]. cbn [limit_bytes bytes]. intros [Hlo Hhi].
  unfold over_traffic_limit, float_of_int. cbn [limit_bytes bytes].
  assert (Hsmall : (2 ^ 1024 - 2 ^ 970 <=? Z.abs l) = false).
  { apply Z.leb_gt. rewrite Z.abs_eq by exact Hlo.
    apply Z.le_lt_trans with (2 ^ 50); [exact Hhi | reflexivity]. }
  rewrite Hsmall, round53_small
    by (split; [lia|]; apply Z.le_lt_trans with (2 ^ 50); [lia | reflexivity]).
  unfold float_mul, point_eight. cbn [fst snd].
  set (P := 7205759403792794).
  assert (HP : 5 * P = 4 * 2 ^ 53 + 2) by reflexivity.
  assert (H53 : 2 ^ 53 = 9007199254740992) by reflexivity.
  assert (H50 : 2 ^ 50 = 1125899906842624) by reflexivity.
  set (M := P * l).
  assert (HM : 0 <= M) by (unfold M, P; lia).
  unfold round53. destruct (Z.ltb_spec M 0) as [Hneg|_]; [lia|].
  unfold round53_pos.
  destruct (Z.leb_spec (Z.log2 M + 1) 53) as [Hn|Hn].
  - unfold int_gt_float. cbn [Z.leb Z.add Z.compare Z.opp Z.pos_sub].
    change (- (-53 + 0)) with 53.
    destruct (Z.ltb_spec M (b * 2 ^ 53)), (Z.ltb_spec (4 * l) (5 * b));
      try reflexivity; unfold M in *; lia.
  - assert (Hpos : 0 < M).
    { destruct (Z.eq_dec M 0) as [E|E]; [|lia]. rewrite E in Hn. cbn in Hn. lia. }
    destruct (Z.log2_spec M Hpos) as [Hk1 Hk2].
    set (k := Z.log2 M) in *.
    assert (Hk : k < 103).
    { apply Z.log2_lt_pow2; [exact Hpos|].
      apply Z.le_lt_trans with (P * 2 ^ 50); [unfold M, P; lia | reflexivity]. }
    set (sh := k + 1 - 53).
    assert (Hsh : 1 <= sh <= 50) by (unfold sh; lia).
    set (h := 2 ^ (sh - 1)).
    set (T := 2 ^ (53 - sh)).
    assert (Hh : 0 < h) by (apply Z.pow_pos_nonneg; lia).
    assert (HT : 0 < T) by (apply Z.pow_pos_nonneg; lia).
    assert (HX : 2 ^ sh = 2 * h).
    { unfold h. replace sh with (1 + (sh - 1)) at 1 by lia.
      rewrite Z.pow_add_r by lia. reflexivity. }
    assert (HXT : 2 * h * T = 2 ^ 53).
    { rewrite <- HX. unfold T. rewrite <- Z.pow_add_r by lia. f_equal. lia. }
    assert (Hk' : 2 ^ k = 2 ^ 52 * (2 * h)).
    { rewrite <- HX, <- Z.pow_add_r by lia. f_equal. unfold sh. lia. }
    rewrite Z.shiftr_div_pow2, Z.land_ones, Z.shiftl_1_l by lia.
    fold h. rewrite HX.
    pose proof (Z.div_mod M (2 * h) ltac:(lia)) as Hdm.
    pose proof (Z.mod_pos_bound M (2 * h) ltac:(lia)) as Hr.
    set (q := M / (2 * h)) in *. set (r := M mod (2 * h)) in *.
    assert (H52 : 2 ^ 52 = 4503599627370496) by reflexivity.
    (* half the spacing stays below a fifth of the limit *)
    assert (Hhalf : 5 * h <= 4 * l).
    { destruct (Z.le_gt_cases (5 * h) (4 * l)) as [H|H]; [exact H|].
      exfalso. unfold M in Hk1. nia. }
    unfold int_gt_float.
    destruct (Z.leb_spec 0 (-53 + 0 + sh)) as [Habs|_]; [lia|].
    replace (- (-53 + 0 + sh)) with (53 - sh) by lia. fold T.
    assert (HbT : 2 * h * (b * T) = b * 2 ^ 53) by (rewrite <- HXT; ring).
    f_equal.
    destruct (Z.ltb_spec (4 * l) (5 * b)) as [Hlt|Hge].
    + (* bytes above the threshold: the rounded product stays below *)
      apply Z.ltb_lt.
      assert (Hq : q < b * T).
      { apply Z.div_lt_upper_bound; [lia|]. rewrite HbT. unfold M. lia. }
      destruct ((h <? r) || (r =? h) && Z.odd q) eqn:Hup; [|exact Hq].
      assert (Hrh : h <= r).
      { apply Bool.orb_true_iff in Hup as [H|H].
        - apply Z.ltb_lt in H. lia.
        - apply Bool.andb_true_iff in H as [H _]. apply Z.eqb_eq in H. lia. }
      destruct (Z.lt_ge_cases (q + 1) (b * T)) as [H|H]; [exact H|].
      exfalso.
      assert (2 * h * (b * T) <= 2 * h * (q + 1))
        by (apply Z.mul_le_mono_nonneg_l; lia).
      unfold M in *. lia.
    + (* bytes at or below the threshold: the rounded product is not below *)
      apply Z.ltb_ge.
      assert (Hq : b * T <= q).
      { apply Z.div_le_lower_bound; [lia|]. rewrite HbT. unfold M. lia. }
      destruct ((h <? r) || (r =? h) && Z.odd q); lia.
Qed.

(** ** Traces *)

Lemma skipn_length_app {A} (l l' : list A) : skipn (List.length l) (l ++ l') = l'.
Proof.
  induction l as [|x l IH]; simpl; [reflexivity | exact IH].
Qed.

Lemma new_events_app (st st' : state) (evs : list event) :
  trace st' = (trace st ++ evs)%list -> new_events st st' = evs.
Proof.
  intros H. unfold new_events. rewrite H. apply skipn_length_app.
Qed.

(** ** Dictionaries *)

Lemma dict_get_set_eq {V} (d : dict V) (k : string) (v : V) :
  dict_get (dict_set d k v) k = Some v.
Proof.
  induction d as [|[k' v'] d IH]; simpl.
  - rewrite String.eqb_refl. reflexivity.
  - destruct (String.eqb k' k) eqn:E; simpl; rewrite E; [reflexivity | exact IH].
Qed.

Lemma dict_get_set_neq {V} (d : dict V) (k k' : string) (v : V) :
  k <> k' -> dict_get (dict_set d k v) k' = dict_get d k'.
Proof.
  intros Hne. induction d as [|[k0 v0] d IH]; simpl.
  - apply String.eqb_neq in Hne. rewrite Hne. reflexivity.
  - destruct (String.eqb k0 k) eqn:E; simpl.
    + apply String.eqb_eq in E. subst k0.
      apply String.eqb_neq in Hne. rewrite Hne. reflexivity.
    + destruct (String.eqb k0 k'); [reflexivity | exact IH].
Qed.

(** ** Strings *)

Lemma length_append (x y : string) :
  String.length (x ++ y) = (String.length x + String.length y)%nat.
Proof.
  induction x as [|a x IH]; simpl; [reflexivity | now rewrite IH].
Qed.

Lemma append_cancel_r (x y s : string) : x ++ s = y ++ s -> x = y.
Proof.
  revert y. induction x as [|a x IH]; intros [|b y] H; simpl in H.
  - reflexivity.
  - apply (f_equal String.length) in H. simpl in H. rewrite length_append in H. lia.
  - apply (f_equal String.length) in H. simpl in H. rewrite length_append in H. lia.
  - injection H as Ha Hx. subst b. f_equal. now apply IH.
Qed.

Lemma append_market_neq (s : string) : s ++ "_market" <> s.
Proof.
  intros H. apply (f_equal String.length) in H.
  rewrite length_append in H. simpl in H. lia.
Qed.

Lemma append_assoc (x y z : string) : (x ++ y) ++ z = x ++ (y ++ z).
Proof.
  induction x as [|a x IH]; simpl; [reflexivity | now rewrite IH].
Qed.

Lemma append_cancel_l (p x y : string) : p ++ x = p ++ y -> x = y.
Proof.
  induction p as [|a p IH]; simpl; intros H; [exact H|].
  injection H as H. now apply IH.
Qed.

(** ** Runs *)

(** One step of a run. *)
Lemma bind_run {A B} (m : M A) (k : A -> M B) (st : state) :
  bind m k st =
    match m st with
    | (st', Ok a) => k a st'
    | (st', Raise e) => (st', Raise e)
    end.
Proof. reflexivity. Qed.

Lemma call_run {A} (e : event) (r : result A) (st : state) :
  call e r st = (State (api st) (contract_cache st) (trace st ++ [e]), r).
Proof. reflexivity. Qed.

Lemma bind_assoc {A B C} (m : M A) (k : A -> M B) (h : B -> M C) (st : state) :
  bind (bind m k) h st = bind m (fun a => bind (k a) h) st.
Proof.
  unfold bind. destruct (m st) as [st' [a|e]]; reflexivity.
Qed.

Lemma for_each_cons {A} (x : A) (l : list A) (f : A -> M unit) :
  for_each (x :: l) f = bind (f x) (fun _ => for_each l f).
Proof. reflexivity. Qed.

(** ** Footprints of monadic code *)

Section Footprints.
Context {A B : Type}.
Variable I : dict value -> Prop.
Variable P : event -> Prop.

Lemma runs_lift (r : result A) : runs I P (lift r).
Proof.
  intros st HI. exists []. simpl. rewrite app_nil_r. auto.
Qed.

Lemma runs_ret (a : A) : runs I P (ret a).
Proof. apply (runs_lift (Ok a)). Qed.

Lemma runs_raise (e : exn) : runs I P (@raise A e).
Proof. apply (runs_lift (Raise e)). Qed.

Lemma runs_bind (m : M A) (k : A -> M B) :
  runs I P m -> (forall a, runs I P (k a)) -> runs I P (bind m k).
Proof.
  intros Hm Hk st HI. unfold bind.
  destruct (Hm st HI) as (evs & Ht & Hp & Ha & Hc).
  destruct (m st) as [st' [a|e]]; simpl in *.
  - destruct (Hk a st' Hc) as (evs' & Ht' & Hp' & Ha' & Hc').
    exists (evs ++ evs')%list. rewrite Ht', Ht, Ha', Ha, app_assoc.
    repeat split; auto. apply Forall_app; auto.
  - exists evs. auto.
Qed.

Lemma runs_try_except (m : M A) (h : exn -> M A) :
  runs I P m -> (forall e, runs I P (h e)) -> runs I P (try_except m h).
Proof.
  intros Hm Hh st HI. unfold try_except.
  destruct (Hm st HI) as (evs & Ht & Hp & Ha & Hc).
  destruct (m st) as [st' [a|e]]; simpl in *.
  - exists evs. auto.
  - destruct (Hh e st' Hc) as (evs' & Ht' & Hp' & Ha' & Hc').
    exists (evs ++ evs')%list. rewrite Ht', Ht, Ha', Ha, app_assoc.
    repeat split; auto. apply Forall_app; auto.
Qed.

Lemma runs_get_api (k : option session -> M B) :
  (forall a, runs I P (k a)) -> runs I P (bind get_api k).
Proof.
  intros Hk st HI. unfold bind, get_api. apply Hk, HI.
Qed.

(** What [get_cache] hands on satisfies [I]. *)
Lemma runs_get_cache (k : dict value -> M B) :
  (forall cache, I cache -> runs I P (k cache)) -> runs I P (bind get_cache k).
Proof.
  intros Hk st HI. unfold bind, get_cache. apply (Hk _ HI), HI.
Qed.

Lemma runs_modify_cache (f : dict value -> dict value) :
  (forall cache, I cache -> I (f cache)) -> runs I P (modify_cache f).
Proof.
  intros Hf st HI. exists []. simpl. rewrite app_nil_r. auto.
Qed.

Lemma runs_emit (e : event) : P e -> runs I P (emit e).
Proof.
  intros He st HI. exists [e]. simpl. auto.
Qed.

Lemma runs_call (e : event) (r : result A) : P e -> runs I P (call e r).
Proof.
  intros He st HI. exists [e]. unfold call, bind, emit, lift. simpl. auto.
Qed.

(** The continuation of a call runs on what the call returned. *)
Lemma runs_call_bind (e : event) (r : result A) (k : A -> M B) :
  P e -> (forall a, r = Ok a -> runs I P (k a)) -> runs I P (bind (call e r) k).
Proof.
  intros He Hk st HI. rewrite bind_run, call_run.
  destruct r as [a|x].
  - destruct (Hk a eq_refl
                (State (api st) (contract_cache st) (trace st ++ [e])) HI)
      as (evs & Ht & Hp & Ha & Hc).
    exists (e :: evs). cbn [trace api] in Ht, Ha.
    rewrite Ht, Ha, <- app_assoc. auto.
  - exists [e]. simpl. auto.
Qed.

Lemma runs_for_each (l : list A) (f : A -> M unit) :
  (forall x, In x l -> runs I P (f x)) -> runs I P (for_each l f).
Proof.
  clear B. intros Hf. induction l as [|x l IH]; simpl.
  - intros st HI. exists []. simpl. rewrite app_nil_r. auto.
  - intros st HI. unfold bind.
    destruct (Hf x (or_introl eq_refl) st HI) as (evs & Ht & Hp & Ha & Hc).
    destruct (f x st) as [st' [[]|e]]; simpl in *.
    + destruct (IH (fun y Hy => Hf y (or_intror Hy)) st' Hc)
        as (evs' & Ht' & Hp' & Ha' & Hc').
      exists (evs ++ evs')%list. rewrite Ht', Ht, Ha', Ha, app_assoc.
      repeat split; auto. apply Forall_app; auto.
    + exists evs. auto.
Qed.
End Footprints.

Lemma fst_handle (prefix : string) (m : M response) (st : state) :
  fst (handle prefix m st) = fst (m st).
Proof.
  unfold handle. destruct (m st) as [st' [r|e]]; reflexivity.
Qed.

(** The batch loop asks for snapshots and sleeps, nothing else. *)
Lemma runs_batch_loop (I : dict value -> Prop) (P : event -> Prop)
    (w : world) (s : session) (contracts : list value) (starts : list nat)
    (quotes : list snapshot) :
  (forall batch, P (EvSnapshots s batch)) -> P (EvSleep 1) ->
  runs I P (batch_loop w s contracts starts quotes).
Proof.
  intros Hsnap Hsleep. revert quotes.
  induction starts as [|i rest IH]; intros quotes; simpl.
  - apply runs_ret.
  - apply runs_bind.
    + apply runs_try_except.
      * apply runs_bind; [apply runs_call, Hsnap | intro; apply runs_ret].
      * intro. apply runs_ret.
    + intros [qs|]; [|apply IH].
      apply runs_bind; [apply runs_emit, Hsleep | intro; apply IH].
Qed.

(** Population reads directories, nothing else. *)
Lemma runs_populate (P : event -> Prop) (w : world) (s : session) :
  (forall e, is_contracts_access e = true -> P e) ->
  runs (fun _ => True) P (populate w s).
Proof.
  intros HP. unfold populate, stock_containers.
  repeat first
    [ apply runs_bind | apply runs_call, HP; reflexivity | apply runs_ret
    | apply runs_modify_cache | apply runs_for_each
    | match goal with
      | |- runs _ _ (match ?x with _ => _ end) => destruct x
      end
    | intro | exact Logic.I ].
Qed.

Lemma runs_serve (I : dict value -> Prop) (P : event -> Prop)
    (w : world) (s : session) :
  (forall batch, P (EvSnapshots s batch)) -> P (EvSleep 1) ->
  runs I P (serve w s).
Proof.
  intros Hsnap Hsleep. unfold serve.
  apply runs_get_cache. intros cache _.
  apply runs_bind; [apply runs_lift|]. intros markets.
  apply runs_bind; [now apply runs_batch_loop|]. intros quotes.
  apply runs_bind; [apply runs_lift|]. intros result.
  apply runs_ret.
Qed.

(** Before a cache that is not empty, /fetch_all touches no contract
    directory and hands the cache on as it found it. *)
Lemma runs_fetch_all_body_warm (w : world) (cache : dict value) :
  cache <> [] ->
  runs (eq cache) (fun e => is_contracts_access e = false) (fetch_all_body w).
Proof.
  intros Hwarm. unfold fetch_all_body.
  apply runs_get_api. intros [s|]; [|apply runs_ret].
  apply runs_bind; [apply runs_call; reflexivity|]. intros usage.
  apply runs_bind; [apply runs_lift|]. intros [|]; [apply runs_ret|].
  apply runs_bind; [apply runs_call; reflexivity|]. intros rss.
  destruct (over_memory_limit rss); [apply runs_ret|].
  apply runs_get_cache. intros c <-.
  destruct cache as [|kv cache]; [contradiction|].
  apply runs_bind; [apply runs_ret|]. intros _.
  apply runs_serve; reflexivity.
Qed.

Lemma filter_none {A} (f : A -> bool) (l : list A) :
  Forall (fun x => f x = false) l -> filter f l = [].
Proof.
  induction 1 as [|x l Hx _ IH]; simpl; [reflexivity|].
  rewrite Hx. exact IH.
Qed.

(** ** POST /login: validation *)

(** C2, as the claim states it, fails: the body [{}] is falsy, so the
    guard [if not data] answers "Request body is empty" before any
    parameter is looked at. *)
Lemma login_empty_object_not_enumerated :
  snd (login Sample.sdk_450 (Sample.post (JObj [])) Sample.fresh)
    = Response 400 (BError "Request body is empty") /\
  snd (login Sample.sdk_450 (Sample.post (JObj [])) Sample.fresh)
    <> Response 400
         (BError "Missing parameters: api_key, secret_key, ca_password, person_id").
Proof.
  split; [reflexivity | discriminate].
Qed.

(** C2 (amended): posting [{}] is answered 400 "Request body is empty";
    posting a non-empty object in which [api_key], [secret_key],
    [ca_password], [person_id] and [simulation_mode] are all absent or
    falsy is answered 400 with the message that lists the four names in the
    order api_key, secret_key, ca_password, person_id.  The globals and the
    trace are left as they were. *)
Theorem login_missing_parameters (w : world) (st : state) (d : dict json)
    (code type_ : option string) :
  login w (Request (Ok (JObj [])) code type_) st
    = (st, Response 400 (BError "Request body is empty")) /\
  (d <> [] ->
   truthy (get_default d "api_key" JNull) = false ->
   truthy (get_default d "secret_key" JNull) = false ->
   truthy (get_default d "ca_password" JNull) = false ->
   truthy (get_default d "person_id" JNull) = false ->
   truthy (get_default d "simulation_mode" (JBool false)) = false ->
   login w (Request (Ok (JObj d)) code type_) st
     = (st, Response 400
              (BError "Missing parameters: api_key, secret_key, ca_password, person_id"))).
Proof.
  split; [reflexivity|].
  intros Hd Hk Hs Hp Hi Hm.
  unfold login, handle, login_body, bind, lift, missing_params. simpl.
  destruct d as [|kv d]; [contradiction|]. simpl.
  rewrite Hk, Hs, Hp, Hi, Hm. reflexivity.
Qed.

Lemma login_missing_parameters_witness :
  login Sample.sdk_450 (Sample.post (JObj [("simulation_mode", JBool false)]))
        Sample.fresh
    = (Sample.fresh,
       Response 400
         (BError "Missing parameters: api_key, secret_key, ca_password, person_id")).
Proof.
  apply (proj2 (login_missing_parameters Sample.sdk_450 Sample.fresh
                  [("simulation_mode", JBool false)] None None));
    solve [discriminate | reflexivity].
Defined.

(** ** GET /fetch_all: the resource gates *)

(** C5: on an initialised session whose [api.usage()] returns, if
    [usage.bytes > 0.8 * usage.limit_bytes], or if that test is false and
    the resident memory exceeds 12 GiB, the answer is 429, the cache and
    [api] are unchanged, and the only calls made are [api.usage()] and the
    memory reading: no contract directory is touched and no snapshot is
    asked for.  Nothing is assumed of the cache, so the gates also stand
    before a warm cache. *)
Theorem fetch_all_gates (w : world) (st : state) (s : session)
    (u : usage_status) (over : bool) (rss : Z) :
  api st = Some s ->
  w_usage w s = Ok u ->
  over_traffic_limit u = Ok over ->
  over = true \/ (w_rss w = Ok rss /\ 12 * 1024 ^ 3 < rss) ->
  statusCode (snd (fetch_all w st)) = 429 /\
  contract_cache (fst (fetch_all w st)) = contract_cache st /\
  api (fst (fetch_all w st)) = api st /\
  new_events st (fst (fetch_all w st))
    = (if over then [EvUsage s] else [EvUsage s; EvMemoryInfo]) /\
  Forall (fun e => is_contracts_access e = false /\ is_snapshots e = false)
         (new_events st (fst (fetch_all w st))).
Proof.
  intros Hapi Hu Hover Hgate.
  assert (Hrun :
    fetch_all w st =
      if over
      then (State (api st) (contract_cache st) (trace st ++ [EvUsage s]),
            Response 429 (BError "Approaching traffic limit"))
      else (State (api st) (contract_cache st)
                  (trace st ++ [EvUsage s; EvMemoryInfo]),
            Response 429 (BError "High memory usage"))).
  { unfold fetch_all, handle, fetch_all_body, bind, get_api, call, emit, lift, ret.
    simpl. rewrite Hapi. simpl. rewrite Hu, Hover. simpl.
    destruct over; [rewrite Hapi; reflexivity|].
    destruct Hgate as [Habs | [Hrss Hbig]]; [discriminate|].
    rewrite Hrss. unfold over_memory_limit.
    apply Z.ltb_lt in Hbig. rewrite Hbig. simpl.
    rewrite <- app_assoc, Hapi. reflexivity. }
  rewrite Hrun.
  destruct over; simpl;
    (split; [reflexivity|]; split; [reflexivity|]; split; [reflexivity|]);
    (erewrite new_events_app by (simpl; reflexivity); split; [reflexivity|]);
    repeat constructor.
Qed.

(** The spec's example: 81 bytes used of a limit of 100. *)
Lemma fetch_all_gates_witness :
  statusCode (snd (fetch_all
    (Sample.sdk (UsageStatus 81 100) 0 (Sample.numbered 0 3) [] [] [] [])
    Sample.logged_in)) = 429 /\
  new_events Sample.logged_in (fst (fetch_all
    (Sample.sdk (UsageStatus 81 100) 0 (Sample.numbered 0 3) [] [] [] [])
    Sample.logged_in)) = [EvUsage 3%nat].
Proof.
  pose proof (fetch_all_gates
    (Sample.sdk (UsageStatus 81 100) 0 (Sample.numbered 0 3) [] [] [] [])
    Sample.logged_in 3%nat (UsageStatus 81 100) true 0
    eq_refl eq_refl eq_refl (or_introl eq_refl)) as H.
  split; [apply H | apply H].
Defined.

(** ** GET /fetch_all: the cache is populated once *)

Lemma fetch_all_run_warm (ws : list world) (st : state) :
  contract_cache st <> [] ->
  exists evs,
    trace (fetch_all_run ws st) = (trace st ++ evs)%list /\
    Forall (fun e => is_contracts_access e = false) evs /\
    contract_cache (fetch_all_run ws st) = contract_cache st.
Proof.
  revert st. induction ws as [|w ws IH]; intros st Hwarm; simpl.
  - exists []. rewrite app_nil_r. auto.
  - destruct (runs_fetch_all_body_warm w _ Hwarm st eq_refl)
      as (evs & Ht & Hp & _ & Hc).
    unfold fetch_all. rewrite fst_handle.
    assert (Hwarm' : contract_cache (fst (fetch_all_body w st)) <> [])
      by (rewrite <- Hc; exact Hwarm).
    destruct (IH _ Hwarm') as (evs' & Ht' & Hp' & Hc').
    exists (evs ++ evs')%list.
    rewrite Ht', Ht, Hc', <- Hc, app_assoc.
    repeat split; auto. apply Forall_app; auto.
Qed.

(** C6: once the cache is not empty, any further /fetch_all requests of
    the process, whatever the collaborators answer, access no contract
    directory (neither an accessor, nor a listing, nor a lookup) and leave
    the cache exactly as it was: population does not happen again. *)
Theorem fetch_all_population_once (ws : list world) (st : state) :
  contract_cache st <> [] ->
  contract_cache (fetch_all_run ws st) = contract_cache st /\
  filter is_contracts_access (new_events st (fetch_all_run ws st)) = [].
Proof.
  intros Hwarm.
  destruct (fetch_all_run_warm ws st Hwarm) as (evs & Ht & Hp & Hc).
  split; [exact Hc|].
  rewrite (new_events_app _ _ _ Ht). now apply filter_none.
Qed.

(** A first request populates the cache from three stocks; the next two
    requests find it populated. *)
Lemma fetch_all_population_once_witness :
  let w := Sample.sdk Sample.light_usage 0 (Sample.numbered 0 3) [] [] [] [] in
  let st := fst (fetch_all w Sample.logged_in) in
  contract_cache (fetch_all_run [w; w] st) = contract_cache st /\
  filter is_contracts_access (new_events st (fetch_all_run [w; w] st)) = [].
Proof.
  intros w st.
  apply (fetch_all_population_once [w; w] st).
  vm_compute. discriminate.
Defined.

(** ** POST /login: the session handle *)

(** What later handlers find after a login that reached [sj.Shioaji(...)]:
    [api] is the new instance, so /fetch_all starts by calling
    [api.usage()] on it and /quote never answers "not initialized". *)
Lemma session_is_observed (st : state) (s : session) :
  api st = Some s ->
  (forall w, exists evs,
      new_events st (fst (fetch_all w st)) = EvUsage s :: evs) /\
  (forall w q,
      snd (quote w q st) <> Response 500 (BError "Shioaji API not initialized")).
Proof.
  intros Hapi. split.
  - intros w. unfold fetch_all. rewrite fst_handle.
    unfold fetch_all_body, bind at 1, get_api. rewrite Hapi.
    unfold bind at 1, call, bind at 1, emit, lift.
    destruct (w_usage w s) as [usage|e].
    + match goal with
      | |- context [fst (?k ?st')] =>
          assert (Hk : runs (fun _ => True) (fun _ => True) k);
          [| destruct (Hk st' Logic.I) as (evs & Ht & _)]
      end.
      { repeat first
          [ apply runs_populate | apply runs_serve | apply runs_get_cache
          | apply runs_bind | apply runs_call | apply runs_ret | apply runs_lift
          | match goal with
            | |- runs _ _ (match ?x with _ => _ end) => destruct x
            | |- runs _ _ (if ?x then _ else _) => destruct x
            end
          | intro | exact Logic.I ]. }
      exists evs. apply new_events_app. rewrite Ht. simpl.
      rewrite <- app_assoc. reflexivity.
    + exists []. apply new_events_app. reflexivity.
  - intros w q. unfold quote, handle, quote_body.
    destruct (req_code q) as [[|a code]|]; simpl; try discriminate.
    unfold bind at 1, get_api. rewrite Hapi. unfold bind at 1.
    destruct (resolve w s _ _ st) as [st1 [[[[c m]|]|]|e]]; simpl;
      try discriminate.
    unfold bind at 1, call, bind at 1, emit, lift. simpl.
    destruct (w_snapshots w s 0%nat [VContract c]) as [[|q0 qs]|e]; simpl;
      try discriminate.
    unfold bind, attribute.
    destruct (q_close q0); simpl; try discriminate.
    destruct (q_ts q0); simpl; discriminate.
Qed.

(** C7: a /login request that passes validation (non-empty object, no
    parameter missing, certificate file found unless in simulation) and
    whose [sj.Shioaji(...)] returns the instance [s] ends with [api] bound
    to [s], whatever happens next.  In particular the answer is 500 and
    [api] is still [s] when activation answers false, when [api.login]
    raises and when [api.fetch_contracts] raises: the previous handle is
    not put back.  Later /fetch_all requests call [api.usage()] on [s],
    and later /quote requests never answer "not initialized". *)
Theorem login_replaces_session (w : world) (r : request) (st : state)
    (d : dict json) (s : session) :
  let api_key := get_default d "api_key" JNull in
  let secret_key := get_default d "secret_key" JNull in
  let ca_path := get_default d "ca_path" (JStr "/app/Sinopac.pfx") in
  let ca_password := get_default d "ca_password" JNull in
  let person_id := get_default d "person_id" JNull in
  let simulation_mode := get_default d "simulation_mode" (JBool false) in
  let activation :=
    if truthy simulation_mode then Ok true
    else w_activate_ca w s ca_path ca_password person_id in
  req_json r = Ok (JObj d) ->
  d <> [] ->
  missing_params api_key secret_key ca_password person_id simulation_mode = [] ->
  truthy simulation_mode = true \/ w_path_exists w ca_path = Ok true ->
  w_Shioaji w simulation_mode = Ok s ->
  let st' := fst (login w r st) in
  let resp := snd (login w r st) in
  api st' = Some s /\
  contract_cache st' = contract_cache st /\
  (activation = Ok false ->
   resp = Response 500 (BError "Failed to activate CA")) /\
  (forall e, activation = Ok true ->
   w_login w s api_key secret_key = Raise e ->
   resp = Response 500 (BRaised "Error in login: " e)) /\
  (forall e accounts, activation = Ok true ->
   w_login w s api_key secret_key = Ok accounts ->
   w_fetch_contracts w s = Raise e ->
   resp = Response 500 (BRaised "Error in login: " e)) /\
  (forall w', exists evs,
      new_events st' (fst (fetch_all w' st')) = EvUsage s :: evs) /\
  (forall w' q,
      snd (quote w' q st') <> Response 500 (BError "Shioaji API not initialized")).
Proof.
  intros api_key secret_key ca_path ca_password person_id simulation_mode
         activation Hjson Hd Hmissing Hca Hnew st' resp.
  assert (Hrun :
    api st' = Some s /\ contract_cache st' = contract_cache st /\
    resp = match activation with
           | Raise e => Response 500 (BRaised "Error in login: " e)
           | Ok false => Response 500 (BError "Failed to activate CA")
           | Ok true =>
               match w_login w s api_key secret_key with
               | Raise e => Response 500 (BRaised "Error in login: " e)
               | Ok accounts =>
                   match w_fetch_contracts w s with
                   | Raise e => Response 500 (BRaised "Error in login: " e)
                   | Ok _ => Response 200 (BLogin accounts)
                   end
               end
           end).
  { assert (Htruthy : truthy (JObj d) = true)
      by (destruct d; [contradiction | reflexivity]).
    subst st' resp activation.
    remember (login w r st) as out eqn:Hout.
    unfold login, handle, login_body, bind at 1, lift at 1 in Hout.
    rewrite Hjson, Htruthy in Hout.
    cbv beta iota in Hout. change (negb true) with false in Hout.
    cbv iota in Hout.
    unfold bind at 1, lift at 1, as_dict in Hout. cbv beta iota in Hout.
    fold api_key secret_key ca_path ca_password person_id simulation_mode in Hout.
    rewrite Hmissing in Hout.
    unfold bind, call, emit, lift, ret, set_api in Hout.
    destruct (truthy simulation_mode) eqn:Hsim; simpl in Hout.
    - rewrite Hnew in Hout. simpl in Hout.
      destruct (w_login w s api_key secret_key) as [accounts|e];
        simpl in Hout; [|subst out; simpl; auto].
      destruct (w_fetch_contracts w s) as [[]|e];
        simpl in Hout; subst out; simpl; auto.
    - destruct Hca as [Habs | Hexists]; [discriminate|].
      rewrite Hexists in Hout. simpl in Hout. rewrite Hnew in Hout.
      simpl in Hout.
      destruct (w_activate_ca w s ca_path ca_password person_id)
        as [[|]|e]; simpl in Hout; try (subst out; simpl; auto; fail).
      destruct (w_login w s api_key secret_key) as [accounts|e];
        simpl in Hout; [|subst out; simpl; auto].
      destruct (w_fetch_contracts w s) as [[]|e];
        simpl in Hout; subst out; simpl; auto. }
  destruct Hrun as (Hapi & Hcache & Hresp).
  split; [exact Hapi|]. split; [exact Hcache|].
  split; [intros Hact; rewrite Hresp, Hact; reflexivity|].
  split; [intros e Hact Hlogin; rewrite Hresp, Hact, Hlogin; reflexivity|].
  split; [intros e accounts Hact Hlogin Hfetch;
          rewrite Hresp, Hact, Hlogin, Hfetch; reflexivity|].
  apply session_is_observed, Hapi.
Qed.

(** A second login whose certificate activation answers false: the handle
    of the first login (3) is replaced by the new one (8). *)
Lemma login_replaces_session_witness :
  api (fst (login Sample.refusing_sdk (Sample.post Sample.credentials)
                  Sample.logged_in)) = Some 8%nat /\
  snd (login Sample.refusing_sdk (Sample.post Sample.credentials)
             Sample.logged_in)
    = Response 500 (BError "Failed to activate CA").
Proof.
  pose proof (login_replaces_session Sample.refusing_sdk
                (Sample.post Sample.credentials) Sample.logged_in
                Sample.credential_fields 8%nat eq_refl) as H.
  cbv zeta in H.
  specialize (H ltac:(discriminate) eq_refl (or_intror eq_refl) eq_refl).
  destruct H as (Hapi & _ & Hfail & _).
  split; [exact Hapi | exact (Hfail eq_refl)].
Defined.

(** ** GET /quote *)

Lemma nonempty_code (code : string) :
  code <> "" -> exists a rest, code = String a rest.
Proof.
  destruct code as [|a rest]; [contradiction | eauto].
Qed.

(** The three accessors are read in the order TSE, OTC, OES; the first
    that raises ends the reading. *)
Lemma stock_containers_run (w : world) (s : session) (st : state)
    (tse otc : option directory) :
  w_TSE w s = Ok tse -> w_OTC w s = Ok otc ->
  stock_containers w s st =
    (State (api st) (contract_cache st)
           (trace st ++ [EvContracts s TSE; EvContracts s OTC; EvContracts s OES]),
     match w_OES w s with
     | Ok oes => Ok [(TSE, tse); (OTC, otc); (OES, oes)]
     | Raise e => Raise e
     end).
Proof.
  intros Htse Hotc. unfold stock_containers.
  rewrite bind_run, call_run, Htse, bind_run, call_run, Hotc, bind_run, call_run.
  cbn [api contract_cache trace]. repeat rewrite <- app_assoc. cbn [app].
  destruct (w_OES w s); reflexivity.
Qed.

(** The lookup in one venue that is present: a lookup that returns ends
    the loop, [KeyError] moves it on, any other error leaves it. *)
Lemma probe_run (a : accessor) (d : directory)
    (rest : list (accessor * option directory)) (code : string) (st : state) :
  probe ((a, Some d) :: rest) code st =
    let st' := State (api st) (contract_cache st)
                     (trace st ++ [EvGetItem a code]) in
    match d_getitem d code with
    | Ok returned => (st', Ok (found (market_name a) returned))
    | Raise (KeyError _) => probe rest code st'
    | Raise e => (st', Raise e)
    end.
Proof.
  cbn [probe]. rewrite bind_run. unfold try_except.
  rewrite bind_run, call_run.
  destruct (d_getitem d code) as [c|[]]; reflexivity.
Qed.

(** Type stock, a miss in TSE and a hit in OTC. *)
Lemma resolve_stock_otc (w : world) (s : session) (st : state)
    (code k : string) (tse otc : directory) (c : contract) :
  w_TSE w s = Ok (Some tse) ->
  d_getitem tse code = Raise (KeyError k) ->
  w_OTC w s = Ok (Some otc) ->
  d_getitem otc code = Ok (Some c) ->
  resolve w s "stock" code st =
    match w_OES w s with
    | Raise e =>
        (State (api st) (contract_cache st)
               (trace st ++ [EvContracts s TSE; EvContracts s OTC;
                             EvContracts s OES]),
         Raise e)
    | Ok _ =>
        (State (api st) (contract_cache st)
               (trace st ++ [EvContracts s TSE; EvContracts s OTC;
                             EvContracts s OES; EvGetItem TSE code;
                             EvGetItem OTC code]),
         Ok (Some (Some (c, if is_warrant c then "OTC_Warrant" else "OTC"))))
    end.
Proof.
  intros Htse Hmiss Hotc Hhit. unfold resolve.
  cbn [String.eqb Ascii.eqb Bool.eqb].
  rewrite bind_run, (stock_containers_run w s st _ _ Htse Hotc).
  destruct (w_OES w s) as [oes|e]; [|reflexivity].
  rewrite bind_run, probe_run, Hmiss. cbv zeta.
  rewrite probe_run, Hhit. cbv zeta.
  cbn [api contract_cache trace found]. repeat rewrite <- app_assoc. cbn [app].
  unfold ret, relabel. cbn [option_map fst snd market_name].
  destruct (is_warrant c); reflexivity.
Qed.

(** The path on which the loop does go on to the next venue.  On an
    initialised session, for [type=stock] (given or defaulted) and a code
    whose TSE lookup raises [KeyError] and whose OTC lookup returns a
    contract, the resolved market is "OTC_Warrant" when that contract has
    a category equal to "Warrant" and "OTC" otherwise: every answer that
    carries a market field carries that one, and when the OES accessor
    returns and the snapshot call returns a snapshot with a price and a
    time the answer is 200 with it.  The venues are probed in the order
    TSE, OTC and the probing stops at the hit: OES is never looked up. *)
Lemma quote_falls_back_to_otc (w : world) (st : state) (s : session)
    (j : result json) (code : string) (type_ : option string)
    (tse otc : directory) (k : string) (c : contract) :
  code <> "" ->
  type_ = None \/ type_ = Some "stock" ->
  api st = Some s ->
  w_TSE w s = Ok (Some tse) ->
  d_getitem tse code = Raise (KeyError k) ->
  w_OTC w s = Ok (Some otc) ->
  d_getitem otc code = Ok (Some c) ->
  let market :=
    match c_category c with
    | Some category =>
        if String.eqb category "Warrant" then "OTC_Warrant" else "OTC"
    | None => "OTC"
    end in
  let out := quote w (Request j (Some code) type_) st in
  (forall m, response_market (snd out) = Some m -> m = market) /\
  (forall oes q qs price ts,
     w_OES w s = Ok oes ->
     w_snapshots w s 0%nat [VContract c] = Ok (q :: qs) ->
     q_close q = Some price -> q_ts q = Some ts ->
     snd out = Response 200 (BQuote (q_code q) price ts market "stock") /\
     new_events st (fst out)
       = [EvContracts s TSE; EvContracts s OTC; EvContracts s OES;
          EvGetItem TSE code; EvGetItem OTC code; EvSnapshots s [VContract c]]) /\
  ~ In (EvGetItem OES code) (new_events st (fst out)).
Proof.
  intros Hcode Htype Hapi Htse Hmiss Hotc Hhit market out.
  destruct (nonempty_code code Hcode) as (a & rest & Ecode).
  assert (Hmarket : (if is_warrant c then "OTC_Warrant" else "OTC") = market)
    by (unfold is_warrant, market; destruct (c_category c); reflexivity).
  assert (Hout :
    out =
      match w_OES w s with
      | Raise e =>
          (State (api st) (contract_cache st)
             (trace st ++ [EvContracts s TSE; EvContracts s OTC;
                           EvContracts s OES]),
           Response 500 (BRaised "Error in quote: " e))
      | Ok _ =>
          let st' :=
            State (api st) (contract_cache st)
              (trace st ++ [EvContracts s TSE; EvContracts s OTC;
                            EvContracts s OES; EvGetItem TSE code;
                            EvGetItem OTC code; EvSnapshots s [VContract c]]) in
          match w_snapshots w s 0%nat [VContract c] with
          | Raise e => (st', Response 500 (BRaised "Error in quote: " e))
          | Ok [] =>
              (st', Response 500
                      (BRaised "Error in quote: "
                               (IndexError "list index out of range")))
          | Ok (q :: _) =>
              match q_close q, q_ts q with
              | Some price, Some ts =>
                  (st', Response 200 (BQuote (q_code q) price ts market "stock"))
              | None, _ =>
                  (st', Response 500
                          (BRaised "Error in quote: "
                             (AttributeError
                                "'Snapshot' object has no attribute 'close'")))
              | Some _, None =>
                  (st', Response 500
                          (BRaised "Error in quote: "
                             (AttributeError
                                "'Snapshot' object has no attribute 'ts'")))
              end
          end
      end).
  { subst out code. rewrite <- Hmarket.
    assert (Etype : match type_ with Some t => t | None => "stock" end = "stock")
      by (destruct Htype as [-> | ->]; reflexivity).
    unfold quote, handle, quote_body.
    replace (req_type (Request j (Some (String a rest)) type_))
      with type_ by reflexivity.
    rewrite Etype. cbn [req_code].
    rewrite bind_run. unfold get_api at 1. rewrite Hapi.
    rewrite bind_run, (resolve_stock_otc w s st _ k tse otc c Htse Hmiss Hotc Hhit).
    rewrite Hapi.
    destruct (w_OES w s) as [oes|e]; [|reflexivity].
    rewrite bind_run, call_run.
    cbn [api contract_cache trace]. repeat rewrite <- app_assoc. cbn [app].
    destruct (w_snapshots w s 0%nat [VContract c]) as [[|q qs]|e];
      try reflexivity.
    rewrite bind_run. unfold attribute at 1.
    destruct (q_close q) as [price|]; [|reflexivity].
    unfold ret at 1. rewrite bind_run. unfold attribute.
    destruct (q_ts q) as [ts|]; reflexivity. }
  split; [|split].
  - intros m. rewrite Hout.
    destruct (w_OES w s); [|discriminate]. cbv zeta.
    destruct (w_snapshots w s 0%nat [VContract c]) as [[|q qs]|e];
      try discriminate.
    destruct (q_close q), (q_ts q); try discriminate.
    simpl. intros [= <-]. reflexivity.
  - intros oes q qs price ts Hoes Hsnap Hclose Hts.
    rewrite Hout, Hoes. cbv zeta. rewrite Hsnap, Hclose, Hts.
    split; [reflexivity|]. apply new_events_app. reflexivity.
  - rewrite Hout.
    destruct (w_OES w s); cbv zeta.
    + erewrite new_events_app.
      2:{ destruct (w_snapshots w s 0%nat [VContract c]) as [[|q qs]|e];
            [| destruct (q_close q), (q_ts q) |]; reflexivity. }
      simpl. intuition discriminate.
    + erewrite new_events_app by reflexivity. simpl. intuition discriminate.
Qed.

(** A stock and a warrant listed in OTC only, in directories whose lookup
    raises [KeyError] on a miss, are quoted with market "OTC" and
    "OTC_Warrant". *)
Lemma quote_falls_back_to_otc_witness :
  snd (quote Sample.otc_sdk (Sample.quote_request "6488" "stock") Sample.logged_in)
    = Response 200 (BQuote "6488" (Finite 25 (-2)) 5 "OTC" "stock") /\
  snd (quote Sample.otc_sdk (Sample.quote_request "70001" "stock") Sample.logged_in)
    = Response 200 (BQuote "70001" (Finite 25 (-2)) 6 "OTC_Warrant" "stock").
Proof.
  split.
  - pose proof (quote_falls_back_to_otc Sample.otc_sdk Sample.logged_in 3%nat
                  (Ok JNull) "6488" (Some "stock")
                  (Sample.directory_of (Sample.numbered 0 3))
                  (Sample.directory_of [Sample.otc_stock; Sample.otc_warrant])
                  "6488" Sample.otc_stock
                  ltac:(discriminate) (or_intror eq_refl) eq_refl eq_refl eq_refl
                  eq_refl eq_refl) as H.
    cbv zeta in H. destruct H as (_ & H & _).
    exact (proj1 (H None (Sample.snapshot_of (VContract Sample.otc_stock)) []
                    (Finite 25 (-2)) 5 eq_refl eq_refl eq_refl eq_refl)).
  - pose proof (quote_falls_back_to_otc Sample.otc_sdk Sample.logged_in 3%nat
                  (Ok JNull) "70001" (Some "stock")
                  (Sample.directory_of (Sample.numbered 0 3))
                  (Sample.directory_of [Sample.otc_stock; Sample.otc_warrant])
                  "70001" Sample.otc_warrant
                  ltac:(discriminate) (or_intror eq_refl) eq_refl eq_refl eq_refl
                  eq_refl eq_refl) as H.
    cbv zeta in H. destruct H as (_ & H & _).
    exact (proj1 (H None (Sample.snapshot_of (VContract Sample.otc_warrant)) []
                    (Finite 25 (-2)) 6 eq_refl eq_refl eq_refl eq_refl)).
Defined.

(** C9 fails on the code.  TSE lists the stocks 0, 1, 2 and OTC lists the
    stock 6488 and the warrant 70001; the lookup of a code that a container
    does not list returns [None].  The TSE lookup of 6488 returns [None];
    the loop takes the returned value for a hit and stops at TSE
    ([market = m; break]), so OTC is never looked up, no snapshot is asked
    and the answer is 500 "Contract not found for code=6488", with no
    market field, although OTC lists the code.  The same holds of the
    warrant 70001.  Only when the TSE lookup raises [KeyError] does the
    loop go on to OTC. *)
Theorem quote_none_lookup_stops_probe :
  let tse := Cases.container_of (Sample.numbered 0 3) in
  let otc := Cases.container_of [Sample.otc_stock; Sample.otc_warrant] in
  let stock :=
    quote Cases.lenient (Sample.quote_request "6488" "stock") Sample.logged_in in
  let warrant :=
    quote Cases.lenient (Sample.quote_request "70001" "stock") Sample.logged_in in
  w_TSE Cases.lenient 3%nat = Ok (Some tse) /\
  w_OTC Cases.lenient 3%nat = Ok (Some otc) /\
  d_getitem tse "6488" = Ok None /\
  d_getitem otc "6488" = Ok (Some Sample.otc_stock) /\
  d_getitem tse "70001" = Ok None /\
  d_getitem otc "70001" = Ok (Some Sample.otc_warrant) /\
  snd stock = Response 500 (BError "Contract not found for code=6488") /\
  response_market (snd stock) = None /\
  new_events Sample.logged_in (fst stock)
    = [EvContracts 3%nat TSE; EvContracts 3%nat OTC; EvContracts 3%nat OES;
       EvGetItem TSE "6488"] /\
  snd warrant = Response 500 (BError "Contract not found for code=70001") /\
  new_events Sample.logged_in (fst warrant)
    = [EvContracts 3%nat TSE; EvContracts 3%nat OTC; EvContracts 3%nat OES;
       EvGetItem TSE "70001"].
Proof.
  cbv zeta. repeat split; vm_compute; reflexivity.
Qed.




(** ** GET /fetch_all: the batch loop *)

(** One turn of the loop: the snapshot call is recorded; when it returns
    the quotes are appended and the pause follows, when it raises the loop
    moves on at once. *)
Lemma batch_loop_step (w : world) (s : session) (contracts : list value)
    (i : nat) (rest : list nat) (quotes : list snapshot) (st : state) :
  batch_loop w s contracts (i :: rest) quotes st =
    let batch := firstn batch_size (skipn i contracts) in
    let st' := State (api st) (contract_cache st)
                     (trace st ++ [EvSnapshots s batch]) in
    match w_snapshots w s (i / batch_size)%nat batch with
    | Ok batch_quotes =>
        batch_loop w s contracts rest (quotes ++ batch_quotes)%list
          (State (api st) (contract_cache st)
                 (trace st ++ [EvSnapshots s batch; EvSleep 1]))
    | Raise _ => batch_loop w s contracts rest quotes st'
    end.
Proof.
  cbn [batch_loop]. rewrite bind_run. unfold try_except.
  rewrite bind_run, call_run.
  destruct (w_snapshots w s (i / batch_size)%nat
              (firstn batch_size (skipn i contracts))) as [bq|e];
    [|reflexivity].
  unfold ret at 1. rewrite bind_run. unfold emit at 1.
  cbn [api contract_cache trace]. rewrite <- app_assoc. reflexivity.
Qed.

Lemma map_m_length {A B} (f : A -> result B) (l : list A) (l' : list B) :
  map_m f l = Ok l' -> List.length l' = List.length l.
Proof.
  revert l'. induction l as [|x l IH]; intros l' H; simpl in H.
  - injection H as <-. reflexivity.
  - destruct (f x) as [y|e]; [|discriminate].
    destruct (map_m f l) as [ys|e]; [|discriminate].
    injection H as <-. simpl. f_equal. now apply IH.
Qed.

Lemma markets_of_length (cache : dict value) (markets : list value) :
  markets_of cache = Ok markets ->
  List.length markets = List.length (contracts_of cache).
Proof.
  intros H. apply map_m_length in H. unfold contracts_of.
  rewrite length_map. exact H.
Qed.

(** The record of a quote is built from that quote and from the market
    label at the quote's own position in [quotes]. *)
Lemma format_from_total (markets : list value) (quotes : list snapshot) (start : nat) :
  (start + List.length quotes <= List.length markets)%nat ->
  exists records,
    map_m (fun iq =>
             match nth_error markets (fst iq) with
             | None => Raise (IndexError "list index out of range")
             | Some market =>
                 Ok (QuoteRecord (q_code (snd iq)) market
                                 (q_close (snd iq)) (q_ts (snd iq)))
             end)
          (combine (seq start (List.length quotes)) quotes) = Ok records /\
    map record_snapshot records = quotes /\
    forall i r, nth_error records i = Some r ->
                nth_error markets (start + i) = Some (r_market r).
Proof.
  revert start. induction quotes as [|q quotes IH]; intros start Hlen.
  - exists []. repeat split; auto. intros [|i] r H; discriminate.
  - simpl in Hlen. cbn [List.length seq combine map_m fst snd].
    destruct (nth_error markets start) as [m|] eqn:Hm.
    2:{ apply nth_error_None in Hm. lia. }
    destruct (IH (S start)) as (records & Hrec & Hmap & Hnth); [lia|].
    rewrite Hrec. eexists. split; [reflexivity|]. split.
    + simpl. rewrite Hmap. destruct q; reflexivity.
    + intros [|i] r H; simpl in H.
      * injection H as <-. rewrite Nat.add_0_r. exact Hm.
      * rewrite Nat.add_succ_r. apply (Hnth i r H).
Qed.

Lemma format_result_ok (markets : list value) (quotes : list snapshot) :
  (List.length quotes <= List.length markets)%nat ->
  exists records,
    format_result markets quotes = Ok records /\
    map record_snapshot records = quotes /\
    forall i r, nth_error records i = Some r ->
                nth_error markets i = Some (r_market r).
Proof.
  intros Hlen. apply (format_from_total markets quotes 0). exact Hlen.
Qed.

(** With both gates passed, the request goes on from the prepared state. *)
Lemma fetch_all_prepared (w : world) (st st1 : state) (s : session)
    (u : usage_status) (rss : Z) :
  api st = Some s ->
  w_usage w s = Ok u -> over_traffic_limit u = Ok false ->
  w_rss w = Ok rss -> rss <= 12 * 1024 ^ 3 ->
  prepared w s st st1 ->
  fetch_all w st = handle "Error in fetch_all: " (serve w s) st1.
Proof.
  intros Hapi Hu Hover Hrss Hsmall Hprep.
  unfold fetch_all, handle at 1, fetch_all_body.
  rewrite bind_run. unfold get_api at 1. rewrite Hapi.
  rewrite bind_run, call_run, Hu, bind_run. unfold lift at 1. rewrite Hover.
  rewrite bind_run, call_run, Hrss.
  unfold over_memory_limit. apply Z.ltb_ge in Hsmall. rewrite Hsmall.
  cbn [api contract_cache trace]. rewrite <- app_assoc. cbn [app].
  rewrite bind_run. unfold get_cache at 1. cbn [contract_cache].
  unfold prepared in Hprep.
  destruct (contract_cache st) as [|kv cache].
  - rewrite bind_run, Hprep. reflexivity.
  - rewrite bind_run. unfold ret at 1. subst st1. reflexivity.
Qed.

Lemma snapshot_batches_none (evs : list event) :
  Forall (fun e => is_snapshots e = false) evs -> snapshot_batches evs = [].
Proof.
  induction 1 as [|e evs He _ IH]; [reflexivity|].
  unfold snapshot_batches in *. simpl. rewrite IH.
  destruct e; try reflexivity; discriminate.
Qed.

(** Getting prepared asks for no snapshot and keeps [api]. *)
Lemma prepared_trace (w : world) (s : session) (st st1 : state) :
  prepared w s st st1 ->
  api st1 = api st /\
  exists evs, trace st1 = (trace st ++ evs)%list /\ snapshot_batches evs = [].
Proof.
  unfold prepared. intros Hprep.
  destruct (contract_cache st) as [|kv cache].
  - destruct (runs_populate (fun e => is_snapshots e = false) w s) with
      (st := State (api st) [] (trace st ++ [EvUsage s; EvMemoryInfo]))
      as (evs & Ht & Hp & Ha & _).
    + intros [] H; try discriminate; reflexivity.
    + exact Logic.I.
    + rewrite Hprep in Ht, Ha. simpl in Ht, Ha. split; [exact Ha|].
      exists ([EvUsage s; EvMemoryInfo] ++ evs)%list.
      rewrite Ht, <- app_assoc. split; [reflexivity|].
      unfold snapshot_batches. rewrite flat_map_app. simpl.
      now apply snapshot_batches_none.
  - subst st1. split; [reflexivity|].
    exists [EvUsage s; EvMemoryInfo]. split; reflexivity.
Qed.

(** C4: a /fetch_all request that passes both gates and works on a cache
    of 450 instruments, found warm or just populated, asks for exactly
    three snapshots, of the first 200, the next 200 and the last 50
    instruments.  When the second call raises and the other two return one
    quote per instrument, the answer is 200 and its quotes list is made of
    the 200 quotes of the first call followed by the 50 quotes of the
    third, 250 records in all. *)
Theorem fetch_all_450_skips_failed_chunk (w : world) (st st1 : state)
    (s : session) (u : usage_status) (rss : Z) (markets : list value)
    (q1 q3 : list snapshot) (e : exn) :
  api st = Some s ->
  w_usage w s = Ok u -> over_traffic_limit u = Ok false ->
  w_rss w = Ok rss -> rss <= 12 * 1024 ^ 3 ->
  prepared w s st st1 ->
  let contracts := contracts_of (contract_cache st1) in
  let chunk1 := firstn 200 contracts in
  let chunk2 := firstn 200 (skipn 200 contracts) in
  let chunk3 := skipn 400 contracts in
  List.length contracts = 450%nat ->
  markets_of (contract_cache st1) = Ok markets ->
  w_snapshots w s 0%nat chunk1 = Ok q1 -> List.length q1 = 200%nat ->
  w_snapshots w s 1%nat chunk2 = Raise e ->
  w_snapshots w s 2%nat chunk3 = Ok q3 -> List.length q3 = 50%nat ->
  let out := fetch_all w st in
  statusCode (snd out) = 200 /\
  snapshot_batches (new_events st (fst out)) = [chunk1; chunk2; chunk3] /\
  map (@List.length value) [chunk1; chunk2; chunk3] = [200; 200; 50]%nat /\
  exists records,
    response_quotes (snd out) = Some records /\
    map record_snapshot records = (q1 ++ q3)%list /\
    List.length records = 250%nat.
Proof.
  intros Hapi Hu Hover Hrss Hsmall Hprep contracts chunk1 chunk2 chunk3
         Hlen Hmarkets H1 Hq1 H2 H3 Hq3 out.
  assert (Hchunk3 : firstn batch_size (skipn 400 contracts) = chunk3).
  { unfold chunk3. apply firstn_all2.
    rewrite length_skipn, Hlen. unfold batch_size. lia. }
  destruct (format_result_ok markets (q1 ++ q3)) as (records & Hfmt & Hmap & _).
  { rewrite (markets_of_length _ _ Hmarkets). fold contracts.
    rewrite length_app, Hq1, Hq3, Hlen. lia. }
  destruct (prepared_trace w s st st1 Hprep) as (Ha1 & evs & Ht1 & Hquiet).
  assert (Hout :
    out = (State (api st1) (contract_cache st1)
                 (trace st1 ++ [EvSnapshots s chunk1; EvSleep 1;
                                EvSnapshots s chunk2;
                                EvSnapshots s chunk3; EvSleep 1]),
           Response 200 (BQuotes records))).
  { subst out.
    rewrite (fetch_all_prepared w st st1 s u rss Hapi Hu Hover Hrss Hsmall Hprep).
    unfold handle, serve.
    rewrite bind_run. unfold get_cache at 1.
    rewrite bind_run. unfold lift at 1. rewrite Hmarkets.
    fold contracts. rewrite Hlen.
    change (range 0 450 batch_size) with [0; 200; 400]%nat.
    rewrite bind_run.
    rewrite batch_loop_step. cbv zeta.
    change (0 / batch_size)%nat with 0%nat.
    change (firstn batch_size (skipn 0 contracts)) with chunk1.
    rewrite H1.
    rewrite batch_loop_step. cbv zeta.
    change (200 / batch_size)%nat with 1%nat.
    change (firstn batch_size (skipn 200 contracts)) with chunk2.
    rewrite H2.
    rewrite batch_loop_step. cbv zeta.
    change (400 / batch_size)%nat with 2%nat.
    rewrite Hchunk3, H3.
    cbn [batch_loop api contract_cache trace app].
    unfold ret at 1.
    rewrite bind_run. unfold lift at 1. rewrite Hfmt.
    repeat rewrite <- app_assoc. reflexivity. }
  rewrite Hout. cbn [fst snd statusCode].
  split; [reflexivity|]. split; [|split].
  - erewrite new_events_app.
    2:{ cbn [trace]. rewrite Ht1, <- app_assoc. reflexivity. }
    unfold snapshot_batches in *. rewrite flat_map_app, Hquiet. reflexivity.
  - subst chunk1 chunk2 chunk3. cbn [map].
    rewrite !length_firstn, !length_skipn, Hlen. reflexivity.
  - exists records. split; [reflexivity|]. split; [exact Hmap|].
    rewrite <- (length_map record_snapshot), Hmap, length_app, Hq1, Hq3.
    reflexivity.
Qed.

(** A first request on a session whose TSE directory lists 450 stocks and
    whose second snapshot call times out. *)
Lemma fetch_all_450_skips_failed_chunk_witness :
  statusCode (snd (fetch_all Sample.sdk_450 Sample.logged_in)) = 200 /\
  exists records,
    response_quotes (snd (fetch_all Sample.sdk_450 Sample.logged_in))
      = Some records /\
    List.length records = 250%nat.
Proof.
  pose proof (fetch_all_450_skips_failed_chunk
    Sample.sdk_450 Sample.logged_in Sample.populated_450 3%nat
    Sample.light_usage 0 (repeat (VStr "TSE") 450)
    (map Sample.snapshot_of
       (firstn 200 (contracts_of (contract_cache Sample.populated_450))))
    (map Sample.snapshot_of
       (skipn 400 (contracts_of (contract_cache Sample.populated_450))))
    (Raised "snapshot timeout")) as H.
  cbv zeta in H.
  destruct H as (Hstatus & _ & _ & records & Hquotes & _ & Hlen).
  - reflexivity.
  - reflexivity.
  - reflexivity.
  - reflexivity.
  - vm_compute. discriminate.
  - vm_compute. reflexivity.
  - vm_compute. reflexivity.
  - vm_compute. reflexivity.
  - reflexivity.
  - vm_compute. reflexivity.
  - reflexivity.
  - reflexivity.
  - vm_compute. reflexivity.
  - split; [exact Hstatus|]. exists records. split; [exact Hquotes | exact Hlen].
Defined.

(** ** GET /fetch_all: warrants *)

Lemma code_clash_false (x y : string) :
  code_clash x y = false ->
  x <> y /\ x <> y ++ "_market" /\ y <> x ++ "_market".
Proof.
  unfold code_clash. intros H.
  apply Bool.orb_false_iff in H as [H H3].
  apply Bool.orb_false_iff in H as [H1 H2].
  repeat split; now apply String.eqb_neq.
Qed.

(** The entries of a warrant are those its own turn of the loop writes. *)
Lemma cache_stock_aliases (venue : string) (cache : dict value)
    (c : contract) (code : string) :
  c_code c = Some code -> c_category c = Some "Warrant" ->
  warrant_aliased venue (cache_stock venue cache c) c code.
Proof.
  intros Hcode Hcat. unfold warrant_aliased, cache_stock, is_warrant.
  rewrite Hcode, Hcat. cbn [String.eqb Ascii.eqb Bool.eqb].
  repeat split.
  - do 3 (rewrite dict_get_set_neq;
          [| solve [apply append_market_neq | simpl; discriminate]]).
    apply dict_get_set_eq.
  - do 2 (rewrite dict_get_set_neq; [| simpl; discriminate]).
    apply dict_get_set_eq.
  - rewrite dict_get_set_neq; [| apply append_market_neq].
    apply dict_get_set_eq.
  - apply dict_get_set_eq.
Qed.

(** A later stock whose code does not clash leaves them alone. *)
Lemma cache_stock_keeps_aliases (venue venue' : string) (cache : dict value)
    (c d : contract) (code : string) :
  (forall y, c_code d = Some y -> code_clash code y = false) ->
  warrant_aliased venue cache c code ->
  warrant_aliased venue (cache_stock venue' cache d) c code.
Proof.
  intros Hclash (H1 & H2 & H3 & H4). unfold cache_stock.
  destruct (c_code d) as [y|]; [|repeat split; assumption].
  destruct (code_clash_false code y (Hclash y eq_refl)) as (Ne1 & Ne2 & Ne3).
  assert (K1 : "stock_" ++ y <> "stock_" ++ code).
  { intros H. apply append_cancel_l in H. congruence. }
  assert (K2 : ("stock_" ++ y) ++ "_market" <> "stock_" ++ code).
  { rewrite append_assoc. intros H. apply append_cancel_l in H. congruence. }
  assert (K3 : "stock_" ++ y <> ("stock_" ++ code) ++ "_market").
  { rewrite append_assoc. intros H. apply append_cancel_l in H. congruence. }
  assert (K4 : ("stock_" ++ y) ++ "_market" <> ("stock_" ++ code) ++ "_market").
  { intros H. apply append_cancel_r, append_cancel_l in H. congruence. }
  assert (W1 : "warrant_" ++ y <> "warrant_" ++ code).
  { intros H. apply append_cancel_l in H. congruence. }
  assert (W2 : ("warrant_" ++ y) ++ "_market" <> "warrant_" ++ code).
  { rewrite append_assoc. intros H. apply append_cancel_l in H. congruence. }
  assert (W3 : "warrant_" ++ y <> ("warrant_" ++ code) ++ "_market").
  { rewrite append_assoc. intros H. apply append_cancel_l in H. congruence. }
  assert (W4 : ("warrant_" ++ y) ++ "_market"
               <> ("warrant_" ++ code) ++ "_market").
  { intros H. apply append_cancel_r, append_cancel_l in H. congruence. }
  unfold warrant_aliased.
  destruct (is_warrant d);
    repeat split;
    repeat (rewrite dict_get_set_neq;
            [| solve [assumption | simpl; discriminate]]);
    assumption.
Qed.

(** Futures and options are stored under keys of their own. *)
Lemma cache_derivative_keeps_aliases (prefix market venue : string)
    (cache : dict value) (c d : contract) (code : string) :
  prefix = "futures_" \/ prefix = "options_" ->
  warrant_aliased venue cache c code ->
  warrant_aliased venue (cache_derivative prefix market cache d) c code.
Proof.
  intros Hprefix (H1 & H2 & H3 & H4). unfold cache_derivative.
  destruct (c_code d) as [y|]; [|repeat split; assumption].
  unfold warrant_aliased.
  destruct Hprefix as [-> | ->];
    repeat split;
    repeat (rewrite dict_get_set_neq; [| simpl; discriminate]);
    assumption.
Qed.

Lemma fold_left_keeps {A} (I : dict value -> Prop)
    (f : dict value -> A -> dict value) (l : list A) (cache : dict value) :
  (forall cache x, In x l -> I cache -> I (f cache x)) ->
  I cache -> I (fold_left f l cache).
Proof.
  revert cache. induction l as [|x l IH]; intros cache Hf HI; simpl.
  - exact HI.
  - apply IH; [intros; apply Hf; auto; now right|].
    apply Hf; [now left | exact HI].
Qed.

(** C8, as the claim states it, fails.  TSE lists the warrant A and, after
    it, a stock whose code is A_market: two instruments with two codes.
    The instrument key of the stock, [stock_A_market], is the label key of
    the warrant's stock entry, so after population the label of
    [stock_A] is no longer "TSE": it is the later stock itself.  The
    warrant key and its label are as the claim says. *)
Lemma warrant_label_overwritten :
  let cache :=
    contract_cache (fst (fetch_all Cases.suffix_sdk Sample.logged_in)) in
  w_TSE Cases.suffix_sdk 3%nat
    = Ok (Some (Sample.directory_of [Sample.warrant_a; Cases.stock_a_market])) /\
  c_category Sample.warrant_a = Some "Warrant" /\
  c_code Sample.warrant_a = Some "A" /\
  c_code Cases.stock_a_market = Some "A_market" /\
  dict_get cache "stock_A" = Some (VContract Sample.warrant_a) /\
  dict_get cache "stock_A_market" = Some (VContract Cases.stock_a_market) /\
  dict_get cache "warrant_A" = Some (VContract Sample.warrant_a) /\
  dict_get cache "warrant_A_market" = Some (VStr "TSE_Warrant") /\
  ~ warrant_aliased "TSE" cache Sample.warrant_a "A".
Proof.
  cbv zeta. repeat split; try reflexivity.
  intros (_ & H & _). vm_compute in H. discriminate.
Qed.

(** C8 (amended): a contract [c] listed by TSE with a code and with
    category "Warrant" is, when population ends (normally or by an error
    raised after the TSE container), reachable under [stock_<code>] with
    label "TSE" and under [warrant_<code>] with label "TSE_Warrant", both
    keys holding [c] itself, provided that no stock listed after it (later
    in TSE, in OTC or in OES) has a clashing code: a code that differs from
    it by a trailing [_market], or the same code.  The same holds of the
    cache a /fetch_all request leaves when it passed both gates and found
    the cache empty. *)
Theorem populate_warrant_aliases (w : world) (s : session) (st : state)
    (tse : directory) (otc oes : option directory)
    (before after : list contract) (c : contract) (code : string) :
  w_TSE w s = Ok (Some tse) -> w_OTC w s = Ok otc -> w_OES w s = Ok oes ->
  d_list tse = Ok (before ++ c :: after)%list ->
  c_code c = Some code -> c_category c = Some "Warrant" ->
  (forall d y,
     In d (after ++ stock_listing (w_OTC w s) ++ stock_listing (w_OES w s))%list ->
     c_code d = Some y -> code_clash code y = false) ->
  warrant_aliased "TSE" (contract_cache (fst (populate w s st))) c code /\
  (forall u rss,
     api st = Some s -> contract_cache st = [] ->
     w_usage w s = Ok u -> over_traffic_limit u = Ok false ->
     w_rss w = Ok rss -> rss <= 12 * 1024 ^ 3 ->
     warrant_aliased "TSE" (contract_cache (fst (fetch_all w st))) c code).
Proof.
  intros Htse Hotc Hoes Hlist Hcode Hcat Hclash.
  set (I := fun cache => warrant_aliased "TSE" cache c code).
  assert (Hpop : forall st0, I (contract_cache (fst (populate w s st0)))).
  { intros st0. unfold populate.
    rewrite bind_run, (stock_containers_run w s st0 _ _ Htse Hotc), Hoes.
    rewrite for_each_cons, bind_assoc, bind_run.
    cbn [fst snd]. rewrite bind_run, call_run, Hlist.
    unfold modify_cache at 1. cbn [api contract_cache trace market_name].
    match goal with
    | |- I (contract_cache (fst (?m ?st2))) =>
        assert (Hruns : runs I (fun _ => True) m);
        [| destruct (Hruns st2) as (_ & _ & _ & _ & HI); [|exact HI]]
    end.
    - apply runs_bind.
      + apply runs_for_each. intros [a venue] Hin. cbn [fst snd].
        destruct venue as [container|]; [|apply runs_ret].
        apply runs_call_bind; [exact Logic.I|]. intros l Hl.
        apply runs_modify_cache. intros cache HI.
        apply fold_left_keeps; [|exact HI].
        intros cache' d Hd. apply cache_stock_keeps_aliases.
        intros y Hy. apply (Hclash d y); [|exact Hy].
        apply in_or_app. right. apply in_or_app.
        rewrite Hotc, Hoes.
        destruct Hin as [[= <- ->] | [[= <- ->] | []]].
        * left. unfold stock_listing. rewrite Hl. exact Hd.
        * right. unfold stock_listing. rewrite Hl. exact Hd.
      + intros _.
        apply runs_call_bind; [exact Logic.I|]. intros futures _.
        apply runs_call_bind; [exact Logic.I|]. intros l _.
        apply runs_bind.
        * apply runs_modify_cache. intros cache HI.
          apply fold_left_keeps; [|exact HI].
          intros cache' d _. apply cache_derivative_keeps_aliases. now left.
        * intros _.
          apply runs_call_bind; [exact Logic.I|]. intros options _.
          apply runs_call_bind; [exact Logic.I|]. intros l' _.
          apply runs_modify_cache. intros cache HI.
          apply fold_left_keeps; [|exact HI].
          intros cache' d _. apply cache_derivative_keeps_aliases. now right.
    - cbn [contract_cache]. unfold I.
      rewrite fold_left_app. cbn [fold_left].
      apply fold_left_keeps.
      + intros cache' d Hd. apply cache_stock_keeps_aliases.
        intros y Hy. apply (Hclash d y); [|exact Hy].
        apply in_or_app. now left.
      + now apply cache_stock_aliases. }
  split; [apply Hpop|].
  intros u rss Hapi Hcold Hu Hover Hrss Hsmall.
  unfold fetch_all. rewrite fst_handle. unfold fetch_all_body.
  rewrite bind_run. unfold get_api at 1. rewrite Hapi.
  rewrite bind_run, call_run, Hu, bind_run. unfold lift at 1. rewrite Hover.
  rewrite bind_run, call_run, Hrss.
  unfold over_memory_limit. apply Z.ltb_ge in Hsmall. rewrite Hsmall.
  rewrite bind_run. unfold get_cache at 1. cbn [contract_cache].
  rewrite Hcold. rewrite bind_run.
  match goal with
  | |- context [populate w s ?st0] =>
      specialize (Hpop st0); destruct (populate w s st0) as [st1 [[]|e]]
  end; cbn [fst] in Hpop |- *; [|exact Hpop].
  destruct (runs_serve (eq (contract_cache st1)) (fun _ => True) w s
              (fun _ => Logic.I) Logic.I st1 eq_refl) as (_ & _ & _ & _ & <-).
  exact Hpop.
Qed.

(** A warrant of TSE whose code no other stock carries. *)
Lemma populate_warrant_aliases_witness :
  warrant_aliased "TSE"
    (contract_cache (fst (fetch_all Sample.warrant_sdk Sample.logged_in)))
    Sample.warrant_a "A".
Proof.
  refine (proj2 (populate_warrant_aliases Sample.warrant_sdk 3%nat
                   Sample.logged_in
                   (Sample.directory_of [Sample.warrant_a])
                   (Some (Sample.directory_of (Sample.numbered 10 2))) None
                   [] [] Sample.warrant_a "A"
                   eq_refl eq_refl eq_refl eq_refl eq_refl eq_refl _)
                Sample.light_usage 0 eq_refl eq_refl eq_refl eq_refl eq_refl _).
  - intros d y [<- | [<- | []]] [= <-]; reflexivity.
  - discriminate.
Defined.

(** ** GET /fetch_all: what a skipped chunk does *)

(** The calls of the batch loop, as they are traced. *)
Lemma batch_loop_trace (w : world) (s : session) (contracts : list value)
    (starts : list nat) (quotes : list snapshot) (st : state) :
  trace (fst (batch_loop w s contracts starts quotes st))
    = (trace st ++ batch_events w s contracts starts)%list.
Proof.
  revert quotes st. induction starts as [|i rest IH]; intros quotes st.
  - simpl. now rewrite app_nil_r.
  - rewrite batch_loop_step. cbv zeta. cbn [batch_events].
    destruct (w_snapshots w s (i / batch_size)%nat
                (firstn batch_size (skipn i contracts))) as [bq|e];
      rewrite IH; cbn [trace]; rewrite <- app_assoc; reflexivity.
Qed.

(** The quotes of the batch loop, as they are collected. *)
Lemma batch_loop_quotes (w : world) (s : session) (contracts : list value)
    (starts : list nat) (quotes : list snapshot) (st : state) :
  snd (batch_loop w s contracts starts quotes st)
    = Ok (quotes ++ batch_quotes w s contracts starts)%list.
Proof.
  revert quotes st. induction starts as [|i rest IH]; intros quotes st.
  - simpl. now rewrite app_nil_r.
  - rewrite batch_loop_step. cbv zeta. cbn [batch_quotes].
    destruct (w_snapshots w s (i / batch_size)%nat
                (firstn batch_size (skipn i contracts))) as [bq|e];
      rewrite IH; [rewrite <- app_assoc|]; reflexivity.
Qed.

(** The slices [l[i:i+step]] taken at the indices of [range] cover [l]:
    the fuel of [range_from] is enough. *)
Lemma chunks_cover {A} (l : list A) (step fuel start : nat) :
  (0 < step)%nat -> (List.length l - start <= fuel)%nat ->
  flat_map (fun i => firstn step (skipn i l))
           (range_from fuel start (List.length l) step)
    = skipn start l.
Proof.
  intros Hstep. revert start.
  induction fuel as [|fuel IH]; intros start Hfuel; simpl.
  - symmetry. apply skipn_all2. lia.
  - destruct (Nat.ltb_spec start (List.length l)) as [Hlt|Hge]; simpl.
    + rewrite IH by lia.
      rewrite <- (firstn_skipn step (skipn start l)) at 2.
      rewrite skipn_skipn, (Nat.add_comm step start). reflexivity.
    + symmetry. apply skipn_all2. lia.
Qed.

(** When every call returns quotes that match its batch one to one, the
    collected quotes match the instruments visited one to one. *)
Lemma batch_quotes_aligned (R : value -> snapshot -> Prop) (w : world)
    (s : session) (contracts : list value) (starts : list nat) :
  (forall i, In i starts ->
     exists bq, w_snapshots w s (i / batch_size)%nat
                  (firstn batch_size (skipn i contracts)) = Ok bq /\
                Forall2 R (firstn batch_size (skipn i contracts)) bq) ->
  Forall2 R (flat_map (fun i => firstn batch_size (skipn i contracts)) starts)
            (batch_quotes w s contracts starts).
Proof.
  induction starts as [|i rest IH]; intros H; cbn [flat_map batch_quotes].
  - constructor.
  - destruct (H i (or_introl eq_refl)) as (bq & -> & HR).
    apply Forall2_app; [exact HR|]. apply IH. intros j Hj. apply H. now right.
Qed.

(** Where the formatting returns, each record holds its quote and the label
    at the quote's own position in [quotes]. *)
Lemma format_from_sound (markets : list value) (quotes : list snapshot)
    (start : nat) (records : list quote_record) :
  map_m (fun iq =>
           match nth_error markets (fst iq) with
           | None => Raise (IndexError "list index out of range")
           | Some market =>
               Ok (QuoteRecord (q_code (snd iq)) market
                               (q_close (snd iq)) (q_ts (snd iq)))
           end)
        (combine (seq start (List.length quotes)) quotes) = Ok records ->
  map record_snapshot records = quotes /\
  Forall2 (fun r m => r_market r = m) records
          (firstn (List.length quotes) (skipn start markets)).
Proof.
  revert start records.
  induction quotes as [|q quotes IH]; intros start records H.
  - injection H as <-. split; [reflexivity | constructor].
  - cbn [List.length seq combine map_m fst snd] in H.
    destruct (nth_error markets start) as [m|] eqn:Hm; [|discriminate].
    match type of H with
    | match ?x with _ => _ end = _ =>
        destruct x as [rs|e] eqn:Hrs; [|discriminate]
    end.
    injection H as <-. destruct (IH _ _ Hrs) as (Hmap & Hlab).
    split.
    + simpl. rewrite Hmap. destruct q; reflexivity.
    + apply nth_error_split in Hm as (l1 & l2 & -> & <-).
      rewrite skipn_app, skipn_all, Nat.sub_diag.
      cbn [skipn app List.length firstn].
      constructor; [reflexivity|].
      replace l2 with (skipn (S (List.length l1)) (l1 ++ m :: l2)); [exact Hlab|].
      rewrite skipn_app, skipn_all2 by lia.
      replace (S (List.length l1) - List.length l1)%nat with 1%nat by lia.
      reflexivity.
Qed.

(** The whole of [serve]: labels are read, the loop runs, the quotes it
    collected are formatted. *)
Lemma serve_run (w : world) (s : session) (st : state) :
  let contracts := contracts_of (contract_cache st) in
  let starts := range 0 (List.length contracts) batch_size in
  serve w s st =
    match markets_of (contract_cache st) with
    | Raise e => (st, Raise e)
    | Ok markets =>
        (fst (batch_loop w s contracts starts [] st),
         match format_result markets (batch_quotes w s contracts starts) with
         | Ok records => Ok (Response 200 (BQuotes records))
         | Raise e => Raise e
         end)
    end.
Proof.
  cbv zeta. unfold serve.
  rewrite bind_run. unfold get_cache at 1.
  rewrite bind_run. unfold lift at 1.
  destruct (markets_of (contract_cache st)) as [markets|e]; [|reflexivity].
  rewrite bind_run.
  pose proof (batch_loop_quotes w s (contracts_of (contract_cache st))
                (range 0 (List.length (contracts_of (contract_cache st)))
                       batch_size) [] st) as Hq.
  destruct (batch_loop w s (contracts_of (contract_cache st))
              (range 0 (List.length (contracts_of (contract_cache st)))
                     batch_size) [] st) as [st' r].
  cbn [snd app] in Hq. subst r. cbn [fst].
  rewrite bind_run. unfold lift at 1.
  destruct (format_result markets _); reflexivity.
Qed.

(** X22: when no snapshot call raises and each returns quotes that match
    its batch one to one (relation [R]), the answer is 200 and its records
    match the cached instruments one to one: record [i] holds a quote of
    instrument [i] and the label of instrument [i]. *)
Lemma fetch_all_labels_aligned (R : value -> snapshot -> Prop) (w : world)
    (st st1 : state) (s : session) (u : usage_status) (rss : Z)
    (markets : list value) :
  api st = Some s ->
  w_usage w s = Ok u -> over_traffic_limit u = Ok false ->
  w_rss w = Ok rss -> rss <= 12 * 1024 ^ 3 ->
  prepared w s st st1 ->
  let contracts := contracts_of (contract_cache st1) in
  markets_of (contract_cache st1) = Ok markets ->
  (forall i, In i (range 0 (List.length contracts) batch_size) ->
     exists bq, w_snapshots w s (i / batch_size)%nat
                  (firstn batch_size (skipn i contracts)) = Ok bq /\
                Forall2 R (firstn batch_size (skipn i contracts)) bq) ->
  exists records,
    snd (fetch_all w st) = Response 200 (BQuotes records) /\
    Forall2 R contracts (map record_snapshot records) /\
    Forall2 (fun r m => r_market r = m) records markets.
Proof.
  intros Hapi Hu Hover Hrss Hsmall Hprep contracts Hmarkets Hcalls.
  pose proof (batch_quotes_aligned R w s contracts _ Hcalls) as Haligned.
  unfold range in Haligned.
  rewrite chunks_cover in Haligned by (unfold batch_size; lia).
  cbn [skipn] in Haligned. fold (range 0 (List.length contracts) batch_size) in *.
  pose proof (Forall2_length Haligned) as Hlen.
  pose proof (markets_of_length _ _ Hmarkets) as Hmlen. fold contracts in Hmlen.
  destruct (format_result_ok markets
              (batch_quotes w s contracts
                 (range 0 (List.length contracts) batch_size)))
    as (records & Hfmt & Hmap & _); [lia|].
  exists records.
  rewrite (fetch_all_prepared w st st1 s u rss Hapi Hu Hover Hrss Hsmall Hprep).
  unfold handle. rewrite serve_run. cbv zeta. fold contracts.
  rewrite Hmarkets, Hfmt. split; [reflexivity|].
  rewrite Hmap. split; [exact Haligned|].
  destruct (format_from_sound markets _ 0 records Hfmt) as (_ & Hlab).
  cbn [skipn] in Hlab. rewrite <- Hlen, <- Hmlen, firstn_all in Hlab.
  exact Hlab.
Qed.

(** C1 fails on the code.  The session lists 400 stocks of TSE and the
    future TXF; every snapshot call that returns gives one quote per
    instrument, in order, and the second call raises.  The answer is 200;
    the quote of TXF comes from the third chunk and stands at position 200
    of the quotes, where it is given the label of the instrument at
    position 200 of the cache, a TSE stock of the skipped chunk: "TSE",
    while the cache labels TXF "Futures". *)
Theorem fetch_all_mislabels_after_skipped_chunk :
  let out := fetch_all Sample.skipping_sdk Sample.logged_in in
  (forall s n batch, n <> 1%nat ->
     w_snapshots Sample.skipping_sdk s n batch
       = Ok (map Sample.snapshot_of batch)) /\
  statusCode (snd out) = 200 /\
  dict_get (contract_cache (fst out)) "futures_TXF"
    = Some (VContract Sample.txf) /\
  dict_get (contract_cache (fst out)) "futures_TXF_market"
    = Some (VStr "Futures") /\
  exists records,
    response_quotes (snd out) = Some records /\
    List.length records = 201%nat /\
    nth_error records 200
      = Some (QuoteRecord "TXF" (VStr "TSE") (Some (Finite 25 (-2))) (Some 1000)).
Proof.
  cbv zeta. split.
  - intros s n batch Hn. unfold Sample.skipping_sdk, Sample.sdk. cbn [w_snapshots].
    cbn [existsb]. destruct (Nat.eqb_spec n 1); [contradiction | reflexivity].
  - split; [vm_compute; reflexivity|].
    split; [vm_compute; reflexivity|].
    split; [vm_compute; reflexivity|].
    eexists. split; [vm_compute; reflexivity|].
    split; vm_compute; reflexivity.
Qed.

(** C3 fails on the code.  The cache holds one stock and its snapshot call
    raises: the request makes that call and returns, and no pause is
    traced, because [continue] leaves the loop body before
    [time.sleep(1)].  In general the loop pauses after the calls that
    return and only after those. *)
Theorem fetch_all_no_pause_after_failed_chunk :
  let st := Sample.warm (Sample.numbered 0 1) in
  let out := fetch_all Sample.lone_failure st in
  statusCode (snd out) = 200 /\
  new_events st (fst out)
    = [EvUsage 3%nat; EvMemoryInfo;
       EvSnapshots 3%nat [VContract (Contract 0 (Some "0") None)]] /\
  ~ In (EvSleep 1) (new_events st (fst out)) /\
  (forall w s contracts starts quotes st0,
     new_events st0 (fst (batch_loop w s contracts starts quotes st0))
       = batch_events w s contracts starts).
Proof.
  cbv zeta. split; [reflexivity|]. split; [reflexivity|]. split.
  - vm_compute. intuition discriminate.
  - intros w s contracts starts quotes st0.
    apply new_events_app, batch_loop_trace.
Qed.

(** * Further properties of the handlers *)

Lemma login_cache (w : world) (r : request) (st : state) :
  contract_cache (fst (login w r st)) = contract_cache st.
Proof.
  unfold login, handle, login_body, bind, call, emit, lift, ret, set_api.
  destruct (req_json r) as [data|e]; [|reflexivity].
  destruct (negb (truthy data)); [reflexivity|].
  destruct (as_dict data) as [d|e]; [|reflexivity].
  destruct (missing_params _ _ _ _ _); [|reflexivity].
  destruct (truthy (get_default d "simulation_mode" (JBool false))); cbn.
  - destruct (w_Shioaji w _); cbn; [|reflexivity].
    destruct (w_login w _ _ _); cbn; [|reflexivity].
    destruct (w_fetch_contracts w _); reflexivity.
  - destruct (w_path_exists w _) as [[|]|]; cbn; try reflexivity.
    destruct (w_Shioaji w _); cbn; [|reflexivity].
    destruct (w_activate_ca w _ _ _ _) as [[|]|]; cbn; try reflexivity.
    destruct (w_login w _ _ _); cbn; [|reflexivity].
    destruct (w_fetch_contracts w _); reflexivity.
Qed.

(** X1: a login whose body is a non-empty object with truthy [api_key],
    [secret_key] and [simulation_mode] never tests for the certificate file
    and never activates a certificate, whatever [ca_password], [person_id]
    and [ca_path] are; when the constructor, [api.login] and
    [api.fetch_contracts] return, the calls are exactly those three, in that
    order, the answer is 200 with the accounts [api.login] returned, [api]
    is the new instance and the cache is as before. *)
Theorem login_simulation_needs_no_certificate (w : world) (st : state)
    (d : dict json) (code type_ : option string) :
  let api_key := get_default d "api_key" JNull in
  let secret_key := get_default d "secret_key" JNull in
  let simulation_mode := get_default d "simulation_mode" (JBool false) in
  let out := login w (Request (Ok (JObj d)) code type_) st in
  d <> [] ->
  truthy api_key = true -> truthy secret_key = true ->
  truthy simulation_mode = true ->
  Forall (fun e => match e with
                   | EvPathExists _ | EvActivateCa _ => False
                   | _ => True
                   end) (new_events st (fst out)) /\
  (forall s accounts,
     w_Shioaji w simulation_mode = Ok s ->
     w_login w s api_key secret_key = Ok accounts ->
     w_fetch_contracts w s = Ok tt ->
     out = (State (Some s) (contract_cache st)
                  (trace st ++ [EvShioaji simulation_mode; EvLogin s;
                                EvFetchContracts s]),
            Response 200 (BLogin accounts))).
Proof.
  intros api_key secret_key simulation_mode out Hd Hk Hs Hsim.
  assert (Htruthy : truthy (JObj d) = true)
    by (destruct d; [contradiction | reflexivity]).
  assert (Hmissing :
    missing_params api_key secret_key (get_default d "ca_password" JNull)
                   (get_default d "person_id" JNull) simulation_mode = []).
  { unfold missing_params. rewrite Hk, Hs, Hsim. reflexivity. }
  assert (Hout :
    out =
      match w_Shioaji w simulation_mode with
      | Raise e => (State (api st) (contract_cache st)
                          (trace st ++ [EvShioaji simulation_mode]),
                    Response 500 (BRaised "Error in login: " e))
      | Ok s =>
          match w_login w s api_key secret_key with
          | Raise e => (State (Some s) (contract_cache st)
                              (trace st ++ [EvShioaji simulation_mode; EvLogin s]),
                        Response 500 (BRaised "Error in login: " e))
          | Ok accounts =>
              (State (Some s) (contract_cache st)
                     (trace st ++ [EvShioaji simulation_mode; EvLogin s;
                                   EvFetchContracts s]),
               match w_fetch_contracts w s with
               | Raise e => Response 500 (BRaised "Error in login: " e)
               | Ok _ => Response 200 (BLogin accounts)
               end)
          end
      end).
  { subst out. unfold login, handle, login_body.
    rewrite bind_run. unfold lift at 1. cbn [req_json]. rewrite Htruthy.
    cbn [negb]. rewrite bind_run. unfold lift at 1, as_dict.
    fold api_key secret_key simulation_mode. rewrite Hmissing, Hsim.
    rewrite bind_run. unfold ret at 1.
    rewrite bind_run, call_run.
    destruct (w_Shioaji w simulation_mode) as [s|e]; [|reflexivity].
    rewrite bind_run. unfold set_api at 1. cbn [api contract_cache trace].
    rewrite bind_run. unfold ret at 1. cbn [negb].
    rewrite bind_run, call_run. cbn [api contract_cache trace].
    rewrite <- app_assoc. cbn [app].
    destruct (w_login w s api_key secret_key) as [accounts|e]; [|reflexivity].
    rewrite bind_run, call_run. cbn [api contract_cache trace].
    rewrite <- app_assoc. cbn [app].
    destruct (w_fetch_contracts w s) as [[]|e]; reflexivity. }
  split.
  - rewrite Hout.
    destruct (w_Shioaji w simulation_mode) as [s|e];
      [destruct (w_login w s api_key secret_key) as [accounts|e]|];
      cbn [fst]; (erewrite new_events_app by reflexivity);
      repeat constructor.
  - intros s accounts Hnew Hlogin Hfetch.
    rewrite Hout, Hnew, Hlogin, Hfetch. reflexivity.
Qed.

Lemma login_simulation_needs_no_certificate_witness :
  login (Sample.sdk Sample.light_usage 0 [] [] [] [] [])
        (Sample.post (JObj Cases.simulation_fields)) Sample.fresh
    = (State (Some 7%nat) []
             [EvShioaji (JBool true); EvLogin 7%nat; EvFetchContracts 7%nat],
       Response 200 (BLogin (JArr [JStr "account"]))).
Proof.
  exact (proj2 (login_simulation_needs_no_certificate
                  (Sample.sdk Sample.light_usage 0 [] [] [] [] [])
                  Sample.fresh Cases.simulation_fields None None
                  ltac:(discriminate) eq_refl eq_refl eq_refl)
               7%nat (JArr [JStr "account"]) eq_refl eq_refl eq_refl).
Defined.

(** X2: a live login (simulation off, no parameter missing) whose
    certificate file does not exist answers 500 "CA file not found at
    <ca_path>" after the existence test alone: no Shioaji instance is
    constructed, and [api] and the cache are as before. Without a [ca_path]
    field the path tested is "/app/Sinopac.pfx". *)
Theorem login_missing_certificate (w : world) (st : state) (d : dict json)
    (code type_ : option string) :
  let ca_path := get_default d "ca_path" (JStr "/app/Sinopac.pfx") in
  let simulation_mode := get_default d "simulation_mode" (JBool false) in
  d <> [] ->
  missing_params (get_default d "api_key" JNull)
                 (get_default d "secret_key" JNull)
                 (get_default d "ca_password" JNull)
                 (get_default d "person_id" JNull) simulation_mode = [] ->
  truthy simulation_mode = false ->
  w_path_exists w ca_path = Ok false ->
  login w (Request (Ok (JObj d)) code type_) st
    = (State (api st) (contract_cache st) (trace st ++ [EvPathExists ca_path]),
       Response 500 (BCaNotFound ca_path)) /\
  (dict_get d "ca_path" = None -> ca_path = JStr "/app/Sinopac.pfx").
Proof.
  intros ca_path simulation_mode Hd Hmissing Hsim Hexists.
  assert (Htruthy : truthy (JObj d) = true)
    by (destruct d; [contradiction | reflexivity]).
  split.
  - unfold login, handle, login_body.
    rewrite bind_run. unfold lift at 1. cbn [req_json]. rewrite Htruthy.
    cbn [negb]. rewrite bind_run. unfold lift at 1, as_dict.
    fold ca_path simulation_mode. rewrite Hmissing, Hsim.
    rewrite bind_run, bind_run, call_run, Hexists. reflexivity.
  - intros Hnone. unfold ca_path, get_default. rewrite Hnone. reflexivity.
Qed.

Lemma login_missing_certificate_witness :
  login Cases.no_certificate (Sample.post Sample.credentials) Sample.logged_in
    = (State (Some 3%nat) [] [EvPathExists (JStr "/app/Sinopac.pfx")],
       Response 500 (BCaNotFound (JStr "/app/Sinopac.pfx"))).
Proof.
  exact (proj1 (login_missing_certificate Cases.no_certificate Sample.logged_in
                  Sample.credential_fields None None
                  ltac:(discriminate) eq_refl eq_refl eq_refl)).
Defined.

(** X3: whenever /login answers 400 the whole state is unchanged (no
    collaborator was called, [api] and the cache are as before), and the
    message is either "Request body is empty" or "Missing parameters: "
    followed by a non-empty comma-separated list of names. *)
Theorem login_rejection_has_no_effect (w : world) (r : request) (st : state) :
  statusCode (snd (login w r st)) = 400 ->
  fst (login w r st) = st /\
  (resp_body (snd (login w r st)) = BError "Request body is empty" \/
   exists names,
     names <> [] /\
     resp_body (snd (login w r st))
       = BError ("Missing parameters: " ++ String.concat ", " names)).
Proof.
  unfold login, handle, login_body, bind, call, emit, lift, ret, set_api.
  destruct (req_json r) as [data|e]; [|discriminate].
  destruct (negb (truthy data)); [intros _; split; [reflexivity | now left]|].
  destruct (as_dict data) as [d|e]; [|discriminate].
  destruct (missing_params _ _ _ _ _) as [|name names] eqn:Hmissing.
  - destruct (truthy (get_default d "simulation_mode" (JBool false))); cbn.
    + destruct (w_Shioaji w _); cbn; [|discriminate].
      destruct (w_login w _ _ _); cbn; [|discriminate].
      destruct (w_fetch_contracts w _); discriminate.
    + destruct (w_path_exists w _) as [[|]|]; cbn; try discriminate.
      destruct (w_Shioaji w _); cbn; [|discriminate].
      destruct (w_activate_ca w _ _ _ _) as [[|]|]; cbn; try discriminate.
      destruct (w_login w _ _ _); cbn; [|discriminate].
      destruct (w_fetch_contracts w _); discriminate.
  - intros _. split; [reflexivity|]. right. exists (name :: names).
    split; [discriminate | reflexivity].
Qed.

Lemma login_rejection_has_no_effect_witness :
  fst (login Sample.refusing_sdk (Sample.post (JObj [("api_key", JStr "k")]))
             Sample.logged_in) = Sample.logged_in.
Proof.
  exact (proj1 (login_rejection_has_no_effect Sample.refusing_sdk
                  (Sample.post (JObj [("api_key", JStr "k")]))
                  Sample.logged_in eq_refl)).
Defined.

(** X4: when validation passes and [sj.Shioaji(...)] itself raises, the
    answer is 500 "Error in login: <e>", the previous session stays in
    [api], the cache is untouched and no [api.login] is attempted. *)
Theorem login_failed_constructor_keeps_session (w : world) (st : state)
    (d : dict json) (code type_ : option string) (e : exn) :
  let ca_path := get_default d "ca_path" (JStr "/app/Sinopac.pfx") in
  let simulation_mode := get_default d "simulation_mode" (JBool false) in
  let out := login w (Request (Ok (JObj d)) code type_) st in
  d <> [] ->
  missing_params (get_default d "api_key" JNull)
                 (get_default d "secret_key" JNull)
                 (get_default d "ca_password" JNull)
                 (get_default d "person_id" JNull) simulation_mode = [] ->
  truthy simulation_mode = true \/ w_path_exists w ca_path = Ok true ->
  w_Shioaji w simulation_mode = Raise e ->
  api (fst out) = api st /\
  contract_cache (fst out) = contract_cache st /\
  snd out = Response 500 (BRaised "Error in login: " e) /\
  forall s, ~ In (EvLogin s) (new_events st (fst out)).
Proof.
  intros ca_path simulation_mode out Hd Hmissing Hca Hnew.
  assert (Htruthy : truthy (JObj d) = true)
    by (destruct d; [contradiction | reflexivity]).
  assert (Hout :
    out = (State (api st) (contract_cache st)
             (trace st ++ (if truthy simulation_mode then []
                           else [EvPathExists ca_path])
                       ++ [EvShioaji simulation_mode]),
           Response 500 (BRaised "Error in login: " e))).
  { subst out. unfold login, handle, login_body.
    rewrite bind_run. unfold lift at 1. cbn [req_json]. rewrite Htruthy.
    cbn [negb]. rewrite bind_run. unfold lift at 1, as_dict.
    fold ca_path simulation_mode. rewrite Hmissing.
    destruct (truthy simulation_mode) eqn:Hsim.
    - rewrite bind_run. unfold ret at 1.
      rewrite bind_run, call_run, Hnew. reflexivity.
    - destruct Hca as [Habs | Hexists]; [discriminate|].
      rewrite bind_run, bind_run, call_run, Hexists. unfold ret at 1.
      cbn [negb]. rewrite bind_run, call_run, Hnew.
      cbn [api contract_cache trace]. rewrite <- app_assoc. reflexivity. }
  rewrite Hout. cbn [fst snd api contract_cache].
  split; [reflexivity|]. split; [reflexivity|]. split; [reflexivity|].
  intros s. erewrite new_events_app by reflexivity.
  destruct (truthy simulation_mode); simpl; intuition discriminate.
Qed.

Lemma login_failed_constructor_keeps_session_witness :
  api (fst (login Cases.broken_constructor (Sample.post Sample.credentials)
                  Sample.logged_in)) = Some 3%nat /\
  snd (login Cases.broken_constructor (Sample.post Sample.credentials)
             Sample.logged_in)
    = Response 500 (BRaised "Error in login: " (Raised "no network")).
Proof.
  pose proof (login_failed_constructor_keeps_session Cases.broken_constructor
                Sample.logged_in Sample.credential_fields None None
                (Raised "no network")) as H.
  cbv zeta in H.
  specialize (H ltac:(discriminate) eq_refl (or_intror eq_refl) eq_refl).
  destruct H as (Hapi & _ & Hresp & _).
  split; [exact Hapi | exact Hresp].
Defined.

(** X5: what /login does with bodies that are no usable object, with
    the state unchanged in each case: a body [get_json] fails on gives
    500 with that error; any falsy JSON value (null, false, 0, 0.0, "",
    [[]], {}) gives 400 "Request body is empty"; a truthy value that is no
    object (a list, a string, a number, true) gives 500 from the
    [AttributeError] of [data.get]. *)
Theorem login_body_shapes (w : world) (st : state) (code type_ : option string) :
  (forall e,
     login w (Request (Raise e) code type_) st
       = (st, Response 500 (BRaised "Error in login: " e))) /\
  (forall data,
     truthy data = false ->
     login w (Request (Ok data) code type_) st
       = (st, Response 400 (BError "Request body is empty"))) /\
  (forall data,
     truthy data = true -> is_object data = false ->
     login w (Request (Ok data) code type_) st
       = (st, Response 500
                (BRaised "Error in login: "
                   (AttributeError
                      ("'" ++ type_name data
                           ++ "' object has no attribute 'get'"))))).
Proof.
  split; [|split].
  - reflexivity.
  - intros data Hfalsy. unfold login, handle, login_body.
    rewrite bind_run. unfold lift at 1. cbn [req_json]. rewrite Hfalsy.
    reflexivity.
  - intros data Htruthy Hshape. unfold login, handle, login_body.
    rewrite bind_run. unfold lift at 1. cbn [req_json]. rewrite Htruthy.
    cbn [negb]. rewrite bind_run. unfold lift at 1.
    destruct data; try discriminate; reflexivity.
Qed.

Lemma login_body_shapes_witness :
  login Sample.refusing_sdk (Sample.post (JArr [JInt 1])) Sample.fresh
    = (Sample.fresh,
       Response 500
         (BRaised "Error in login: "
            (AttributeError "'list' object has no attribute 'get'"))).
Proof.
  exact (proj2 (proj2 (login_body_shapes Sample.refusing_sdk Sample.fresh
                         None None))
               (JArr [JInt 1]) eq_refl eq_refl).
Defined.

(** X6: /login never touches the contract cache, whatever its outcome;
    so after a login that finds the cache non-empty (a second login, a
    login with other credentials), every later /fetch_all still serves the
    cache of the earlier session and reads no contract directory of the new
    one. *)
Theorem relogin_keeps_cache (w : world) (r : request) (ws : list world)
    (st : state) :
  let st1 := fst (login w r st) in
  contract_cache st1 = contract_cache st /\
  (contract_cache st <> [] ->
   contract_cache (fetch_all_run ws st1) = contract_cache st /\
   filter is_contracts_access (new_events st1 (fetch_all_run ws st1)) = []).
Proof.
  cbv zeta. split; [apply login_cache|].
  intros Hwarm.
  assert (Hwarm1 : contract_cache (fst (login w r st)) <> [])
    by (rewrite login_cache; exact Hwarm).
  destruct (fetch_all_run_warm ws _ Hwarm1) as (evs & Ht & Hp & Hc).
  split; [rewrite Hc; apply login_cache|].
  rewrite (new_events_app _ _ _ Ht). now apply filter_none.
Qed.


Lemma relogin_keeps_cache_witness :
  let st := Sample.warm (Sample.numbered 0 2) in
  let st1 := fst (login Sample.refusing_sdk (Sample.post Sample.credentials) st) in
  let w := Sample.sdk Sample.light_usage 0 [] [] [] [] [] in
  api st1 = Some 8%nat /\
  contract_cache (fetch_all_run [w; w] st1) = contract_cache st /\
  filter is_contracts_access (new_events st1 (fetch_all_run [w; w] st1)) = [].
Proof.
  intros st st1 w. split; [reflexivity|].
  apply (proj2 (relogin_keeps_cache Sample.refusing_sdk
                  (Sample.post Sample.credentials) [w; w] st)).
  vm_compute. discriminate.
Defined.

(** X7: before any login ([api] is [None]), /fetch_all and a /quote that
    names a code both answer 500 "Shioaji API not initialized" and leave
    the state unchanged: no collaborator is called. *)
Theorem requests_before_login (w : world) (st : state) (j : result json)
    (code : string) (type_ : option string) :
  api st = None ->
  fetch_all w st = (st, Response 500 (BError "Shioaji API not initialized")) /\
  (code <> "" ->
   quote w (Request j (Some code) type_) st
     = (st, Response 500 (BError "Shioaji API not initialized"))).
Proof.
  intros Hapi. split.
  - unfold fetch_all, handle, fetch_all_body.
    rewrite bind_run. unfold get_api at 1. rewrite Hapi. reflexivity.
  - intros Hcode. destruct (nonempty_code code Hcode) as (a & rest & ->).
    unfold quote, handle, quote_body. cbn [req_code].
    rewrite bind_run. unfold get_api at 1. rewrite Hapi. reflexivity.
Qed.

Lemma requests_before_login_witness :
  fetch_all Sample.sdk_450 Sample.fresh
    = (Sample.fresh, Response 500 (BError "Shioaji API not initialized")) /\
  quote Sample.otc_sdk (Sample.quote_request "6488" "bond") Sample.fresh
    = (Sample.fresh, Response 500 (BError "Shioaji API not initialized")).
Proof.
  split.
  - exact (proj1 (requests_before_login Sample.sdk_450 Sample.fresh
                    (Ok JNull) "6488" None eq_refl)).
  - exact (proj2 (requests_before_login Sample.otc_sdk Sample.fresh
                    (Ok JNull) "6488" (Some "bond") eq_refl)
                 ltac:(discriminate)).
Defined.

(** X8: /quote validates in this order. A missing or empty [code] gives
    400 "Missing parameter: code", also before login and whatever [type]
    is; with a code and a session, a [type] other than stock, futures and
    options gives 400 "Unsupported type: <type>". Neither calls a
    collaborator or changes the state. *)
Theorem quote_validation (w : world) (st : state) :
  (forall r,
     req_code r = None \/ req_code r = Some "" ->
     quote w r st = (st, Response 400 (BError "Missing parameter: code"))) /\
  (forall s j code type_,
     code <> "" -> api st = Some s ->
     type_ <> "stock" -> type_ <> "futures" -> type_ <> "options" ->
     quote w (Request j (Some code) (Some type_)) st
       = (st, Response 400 (BError ("Unsupported type: " ++ type_)))).
Proof.
  split.
  - intros r [H | H]; unfold quote, handle, quote_body; rewrite H; reflexivity.
  - intros s j code type_ Hcode Hapi Hs Hf Ho.
    destruct (nonempty_code code Hcode) as (a & rest & ->).
    apply String.eqb_neq in Hs, Hf, Ho.
    unfold quote, handle, quote_body. cbn [req_code req_type].
    rewrite bind_run. unfold get_api at 1. rewrite Hapi.
    rewrite bind_run. unfold resolve. rewrite Hs, Hf, Ho. reflexivity.
Qed.

Lemma quote_validation_witness :
  quote Sample.otc_sdk (Request (Ok JNull) (Some "") (Some "bond")) Sample.fresh
    = (Sample.fresh, Response 400 (BError "Missing parameter: code")) /\
  quote Sample.otc_sdk (Sample.quote_request "6488" "bond") Sample.logged_in
    = (Sample.logged_in, Response 400 (BError "Unsupported type: bond")).
Proof.
  split.
  - exact (proj1 (quote_validation Sample.otc_sdk Sample.fresh)
                 (Request (Ok JNull) (Some "") (Some "bond"))
                 (or_intror eq_refl)).
  - apply (proj2 (quote_validation Sample.otc_sdk Sample.logged_in) 3%nat);
      solve [discriminate | reflexivity].
Defined.

Lemma runs_probe (I : dict value -> Prop) (P : event -> Prop)
    (venues : list (accessor * option directory)) (code : string) :
  (forall a, P (EvGetItem a code)) -> runs I P (probe venues code).
Proof.
  intros HP. induction venues as [|[a [d|]] venues IH]; cbn [probe].
  - apply runs_ret.
  - apply runs_bind.
    + apply runs_try_except.
      * apply runs_bind; [apply runs_call, HP | intro; apply runs_ret].
      * intros []; first [apply runs_ret | apply runs_raise].
    + intros [c|]; [apply runs_ret | exact IH].
  - exact IH.
Qed.

Lemma runs_resolve (I : dict value -> Prop) (P : event -> Prop) (w : world)
    (s : session) (type_ code : string) :
  (forall a, P (EvContracts s a)) -> (forall a, P (EvGetItem a code)) ->
  runs I P (resolve w s type_ code).
Proof.
  intros HC HG. unfold resolve, stock_containers.
  destruct (String.eqb type_ "stock");
    [|destruct (String.eqb type_ "futures");
      [|destruct (String.eqb type_ "options")]];
    repeat first
      [ apply runs_probe, HG | apply runs_bind | apply runs_call
      | apply runs_ret | apply HC | apply HG | intro ].
Qed.

(** What /quote leaves behind: [api] and the cache as they were, and events
    that satisfy any [P] the events of a quote satisfy. *)
Lemma quote_footprint (w : world) (r : request) (st : state)
    (P : event -> Prop) :
  (forall s code, api st = Some s -> req_code r = Some code ->
     forall e, quote_event s code e -> P e) ->
  exists evs,
    trace (fst (quote w r st)) = (trace st ++ evs)%list /\
    Forall P evs /\ api (fst (quote w r st)) = api st /\
    contract_cache (fst (quote w r st)) = contract_cache st.
Proof.
  unfold quote. rewrite fst_handle.
  intros HP. remember (quote_body w r st) as out eqn:E.
  unfold quote_body in E.
  destruct (req_code r) as [[|a code]|] eqn:Hcode;
    try solve [subst out; exists []; cbn; rewrite app_nil_r; auto].
  rewrite bind_run in E. unfold get_api at 1 in E.
  destruct (api st) as [s|] eqn:Hapi;
    [|solve [subst out; exists []; cbn; rewrite app_nil_r; auto]].
  specialize (HP s (String a code) eq_refl eq_refl).
  match type of E with
  | out = ?m st =>
      assert (Hm : runs (eq (contract_cache st)) P m);
      [| destruct (Hm st eq_refl) as (evs & Ht & Hp & Ha & Hc);
         subst out; exists evs; rewrite <- Hc, Ha, Hapi; auto]
  end.
  apply runs_bind.
  - apply runs_resolve; intros; apply HP; exact eq_refl.
  - intros [[[c m]|]|]; try apply runs_ret.
    apply runs_bind; [apply runs_call, HP; exact eq_refl|].
    intros [|q qs]; [apply runs_raise|].
    unfold attribute.
    repeat first
      [ apply runs_ret | apply runs_raise | apply runs_bind
      | match goal with
        | |- runs _ _ (match ?x with _ => _ end) => destruct x
        | |- forall _, _ => intro
        end ].
Qed.



(** The venue loop stops at the first lookup that returns: venues that
    are [None] are passed over, venues that raise [KeyError] are looked up
    once each. *)
Lemma probe_returned (before after : list (accessor * option directory))
    (a : accessor) (d : directory) (code : string) (returned : option contract)
    (st : state) :
  Forall (fun v => absent_from code (snd v)) before ->
  d_getitem d code = Ok returned ->
  probe (before ++ (a, Some d) :: after) code st
    = (State (api st) (contract_cache st)
             (trace st ++ lookups code before ++ [EvGetItem a code]),
       Ok (found (market_name a) returned)).
Proof.
  intros Habsent Hhit. revert st.
  induction Habsent as [|[a' [d'|]] before Hd _ IH]; intros st.
  - cbn [app lookups flat_map]. rewrite probe_run, Hhit. reflexivity.
  - destruct Hd as [k Hk]. cbn [snd] in Hk.
    change (((a', Some d') :: before) ++ (a, Some d) :: after)%list
      with ((a', Some d') :: (before ++ (a, Some d) :: after))%list.
    rewrite probe_run, Hk. cbv zeta. rewrite IH.
    cbn [api contract_cache trace lookups flat_map fst snd app].
    rewrite <- app_assoc. reflexivity.
  - apply IH.
Qed.

(** X11: only [KeyError] moves the stock lookup on to the next venue.
    When the TSE lookup raises anything else, /quote answers 500 "Error in
    quote: <e>" at once: OTC and OES are not looked up although their
    directories were read, and no snapshot is asked. *)
Theorem quote_lookup_error_aborts (w : world) (st : state) (s : session)
    (j : result json) (code : string) (type_ : option string)
    (tse : directory) (otc : option directory) (e : exn) :
  code <> "" ->
  type_ = None \/ type_ = Some "stock" ->
  api st = Some s ->
  w_TSE w s = Ok (Some tse) -> w_OTC w s = Ok otc ->
  (exists oes, w_OES w s = Ok oes) ->
  d_getitem tse code = Raise e -> is_key_error e = false ->
  quote w (Request j (Some code) type_) st
    = (State (api st) (contract_cache st)
             (trace st ++ [EvContracts s TSE; EvContracts s OTC;
                           EvContracts s OES; EvGetItem TSE code]),
       Response 500 (BRaised "Error in quote: " e)).
Proof.
  intros Hcode Htype Hapi Htse Hotc [oes Hoes] Hraise Hkind.
  destruct (nonempty_code code Hcode) as (a & rest & ->).
  assert (Etype : match type_ with Some t => t | None => "stock" end = "stock")
    by (destruct Htype as [-> | ->]; reflexivity).
  unfold quote, handle, quote_body. cbn [req_code req_type]. rewrite Etype.
  rewrite bind_run. unfold get_api at 1. rewrite Hapi.
  rewrite bind_run. unfold resolve. cbn [String.eqb Ascii.eqb Bool.eqb].
  rewrite bind_run, (stock_containers_run w s st _ _ Htse Hotc), Hoes.
  rewrite bind_run, probe_run, Hraise. cbv zeta.
  cbn [api contract_cache trace]. rewrite <- app_assoc. cbn [app].
  rewrite Hapi. destruct e; try discriminate; reflexivity.
Qed.

Lemma quote_lookup_error_aborts_witness :
  snd (quote Cases.tse_down (Sample.quote_request "6488" "stock") Sample.logged_in)
    = Response 500 (BRaised "Error in quote: " (Raised "timeout")).
Proof.
  refine (f_equal snd
    (quote_lookup_error_aborts Cases.tse_down Sample.logged_in 3%nat (Ok JNull)
       "6488" (Some "stock")
       (Directory (Ok []) (fun _ => Raise (Raised "timeout")))
       (Some (Sample.directory_of [Sample.otc_stock])) (Raised "timeout")
       _ (or_intror eq_refl) eq_refl eq_refl eq_refl _ eq_refl eq_refl)).
  - discriminate.
  - exists None. reflexivity.
Defined.

Lemma quote_snapshot_run (w : world) (s : session) (c : contract)
    (market type_ : string) (st : state) :
  handle "Error in quote: "
    (quotes <- call (EvSnapshots s [VContract c])
                    (w_snapshots w s 0%nat [VContract c]) ;;
     match quotes with
     | [] => raise (IndexError "list index out of range")
     | quote :: _ =>
         price <- attribute "close" (q_close quote) ;;
         ts <- attribute "ts" (q_ts quote) ;;
         ret (Response 200 (BQuote (q_code quote) price ts market type_))
     end) st
  = (State (api st) (contract_cache st)
           (trace st ++ [EvSnapshots s [VContract c]]),
     quote_answer w s c market type_).
Proof.
  unfold handle, quote_answer. rewrite bind_run, call_run.
  destruct (w_snapshots w s 0%nat [VContract c]) as [[|q qs]|e];
    try reflexivity.
  rewrite bind_run. unfold attribute at 1.
  destruct (q_close q) as [price|]; [|reflexivity].
  unfold ret at 1. rewrite bind_run. unfold attribute.
  destruct (q_ts q) as [ts|]; reflexivity.
Qed.

(** X12: a futures (options) quote looks the code up in
    [api.Contracts.Futures] ([api.Contracts.Options]) only; on a hit the
    calls are the accessor, the lookup and one snapshot call on that
    contract, and the answer is [quote_answer]: 200 with market "Futures"
    ("Options"), also for a contract of category "Warrant", or 500 when the
    snapshot call raises, returns no quote, or the quote lacks [close] or
    [ts]. *)
Theorem quote_direct_lookup (w : world) (st : state) (s : session)
    (j : result json) (code : string) (c : contract) :
  code <> "" -> api st = Some s ->
  (forall d,
     w_Futures w s = Ok d -> d_getitem d code = Ok (Some c) ->
     quote w (Request j (Some code) (Some "futures")) st
       = (State (api st) (contract_cache st)
                (trace st ++ [EvContracts s Futures; EvGetItem Futures code;
                              EvSnapshots s [VContract c]]),
          quote_answer w s c "Futures" "futures")) /\
  (forall d,
     w_Options w s = Ok d -> d_getitem d code = Ok (Some c) ->
     quote w (Request j (Some code) (Some "options")) st
       = (State (api st) (contract_cache st)
                (trace st ++ [EvContracts s Options; EvGetItem Options code;
                              EvSnapshots s [VContract c]]),
          quote_answer w s c "Options" "options")).
Proof.
  intros Hcode Hapi.
  destruct (nonempty_code code Hcode) as (a & rest & ->).
  split; intros d Hd Hhit.
  - pose proof (quote_snapshot_run w s c "Futures" "futures"
                  (State (api st) (contract_cache st)
                     (trace st ++ [EvContracts s Futures;
                                   EvGetItem Futures (String a rest)]))) as Hs.
    cbn [api contract_cache trace] in Hs. rewrite <- app_assoc in Hs.
    cbn [app] in Hs. rewrite <- Hs. clear Hs.
    unfold quote, handle, quote_body. cbn [req_code req_type].
    rewrite bind_run. unfold get_api at 1. rewrite Hapi.
    rewrite bind_run. unfold resolve. cbn [String.eqb Ascii.eqb Bool.eqb].
    rewrite bind_run, call_run, Hd, bind_run, call_run, Hhit.
    cbn [api contract_cache trace]. rewrite <- app_assoc. cbn [app].
    rewrite Hapi. reflexivity.
  - pose proof (quote_snapshot_run w s c "Options" "options"
                  (State (api st) (contract_cache st)
                     (trace st ++ [EvContracts s Options;
                                   EvGetItem Options (String a rest)]))) as Hs.
    cbn [api contract_cache trace] in Hs. rewrite <- app_assoc in Hs.
    cbn [app] in Hs. rewrite <- Hs. clear Hs.
    unfold quote, handle, quote_body. cbn [req_code req_type].
    rewrite bind_run. unfold get_api at 1. rewrite Hapi.
    rewrite bind_run. unfold resolve. cbn [String.eqb Ascii.eqb Bool.eqb].
    rewrite bind_run, call_run, Hd, bind_run, call_run, Hhit.
    cbn [api contract_cache trace]. rewrite <- app_assoc. cbn [app].
    rewrite Hapi. reflexivity.
Qed.

Lemma quote_direct_lookup_witness :
  snd (quote Cases.priceless (Sample.quote_request "TXFA" "futures")
             Sample.logged_in)
    = Response 500
        (BRaised "Error in quote: "
           (AttributeError "'Snapshot' object has no attribute 'close'")).
Proof.
  exact (f_equal snd
    (proj1 (quote_direct_lookup Cases.priceless Sample.logged_in 3%nat
              (Ok JNull) "TXFA" Cases.odd_future ltac:(discriminate) eq_refl)
           (Sample.directory_of [Cases.odd_future]) eq_refl eq_refl)).
Defined.

(** X10: a stock quote (type stock, given or defaulted) reads the three
    venue accessors TSE, OTC, OES, then looks the code up venue by venue
    and stops at the first hit: venues that are [None] are passed over
    without a lookup, venues whose lookup raises [KeyError] are looked up
    once each, and no venue after the hit is looked up. One snapshot is
    then asked for that contract, and the answer carries the name of the
    venue of the hit as market, with "_Warrant" appended exactly when the
    contract's category is "Warrant". *)
Theorem quote_stock_first_venue (w : world) (st : state) (s : session)
    (j : result json) (code : string) (type_ : option string)
    (tse otc oes : option directory)
    (before after : list (accessor * option directory))
    (a : accessor) (d : directory) (c : contract) :
  code <> "" ->
  type_ = None \/ type_ = Some "stock" ->
  api st = Some s ->
  w_TSE w s = Ok tse -> w_OTC w s = Ok otc -> w_OES w s = Ok oes ->
  [(TSE, tse); (OTC, otc); (OES, oes)] = (before ++ (a, Some d) :: after)%list ->
  Forall (fun v => absent_from code (snd v)) before ->
  d_getitem d code = Ok (Some c) ->
  quote w (Request j (Some code) type_) st
    = (State (api st) (contract_cache st)
             (trace st ++ [EvContracts s TSE; EvContracts s OTC;
                           EvContracts s OES]
                       ++ lookups code before
                       ++ [EvGetItem a code; EvSnapshots s [VContract c]]),
       quote_answer w s c
         (if is_warrant c then market_name a ++ "_Warrant" else market_name a)
         "stock").
Proof.
  intros Hcode Htype Hapi Htse Hotc Hoes Hvenues Habsent Hhit.
  destruct (nonempty_code code Hcode) as (x & rest & ->).
  assert (Etype : match type_ with Some t => t | None => "stock" end = "stock")
    by (destruct Htype as [-> | ->]; reflexivity).
  pose proof (quote_snapshot_run w s c
                (if is_warrant c then market_name a ++ "_Warrant"
                 else market_name a) "stock"
                (State (api st) (contract_cache st)
                   (trace st ++ [EvContracts s TSE; EvContracts s OTC;
                                 EvContracts s OES]
                             ++ lookups (String x rest) before
                             ++ [EvGetItem a (String x rest)]))) as Hs.
  cbn [api contract_cache trace] in Hs.
  repeat rewrite <- app_assoc in Hs. cbn [app] in Hs.
  repeat rewrite <- app_assoc. cbn [app].
  rewrite <- Hs. clear Hs.
  unfold quote, handle, quote_body. cbn [req_code req_type]. rewrite Etype.
  rewrite bind_run. unfold get_api at 1. rewrite Hapi.
  rewrite bind_run. unfold resolve. cbn [String.eqb Ascii.eqb Bool.eqb].
  rewrite bind_run, (stock_containers_run w s st _ _ Htse Hotc), Hoes.
  rewrite Hvenues.
  rewrite bind_run, (probe_returned before after a d _ _ _ Habsent Hhit).
  cbn [found].
  cbn [api contract_cache trace option_map]. unfold ret at 1.
  unfold relabel. cbn [fst snd].
  repeat rewrite <- app_assoc. cbn [app]. rewrite Hapi.
  destruct (is_warrant c); reflexivity.
Qed.

Lemma quote_stock_first_venue_witness :
  quote Cases.emerging (Sample.quote_request "7001W" "stock") Sample.logged_in
    = (State (Some 3%nat) []
             [EvContracts 3%nat TSE; EvContracts 3%nat OTC; EvContracts 3%nat OES;
              EvGetItem OTC "7001W"; EvGetItem OES "7001W";
              EvSnapshots 3%nat [VContract Cases.oes_warrant]],
       Response 200 (BQuote "7001W" (Finite 25 (-2)) 30 "OES_Warrant" "stock")).
Proof.
  apply (quote_stock_first_venue Cases.emerging Sample.logged_in 3%nat (Ok JNull)
           "7001W" (Some "stock") None
           (Some (Sample.directory_of (Sample.numbered 0 3)))
           (Some (Sample.directory_of [Cases.oes_warrant]))
           [(TSE, None); (OTC, Some (Sample.directory_of (Sample.numbered 0 3)))]
           [] OES (Sample.directory_of [Cases.oes_warrant]) Cases.oes_warrant).
  - discriminate.
  - right. reflexivity.
  - reflexivity.
  - reflexivity.
  - reflexivity.
  - reflexivity.
  - reflexivity.
  - repeat constructor. exists "7001W". reflexivity.
  - reflexivity.
Defined.

(** X23: a lookup that returns [None] is a miss that ends the search.  For
    a stock quote, when the venues before it are [None] or raise
    [KeyError] and the lookup in a venue returns [None], the loop stops
    there: no later venue is looked up, no snapshot is asked, and the
    answer is 500 "Contract not found for code=<code>".  For a futures or
    options quote whose lookup returns [None] the answer is the same 500,
    after the accessor and the lookup.  The state is otherwise as it
    was. *)
Theorem quote_none_lookup_is_miss (w : world) (st : state) (s : session)
    (j : result json) (code : string) :
  code <> "" -> api st = Some s ->
  (forall type_ tse otc oes before after a d,
     type_ = None \/ type_ = Some "stock" ->
     w_TSE w s = Ok tse -> w_OTC w s = Ok otc -> w_OES w s = Ok oes ->
     [(TSE, tse); (OTC, otc); (OES, oes)]
       = (before ++ (a, Some d) :: after)%list ->
     Forall (fun v => absent_from code (snd v)) before ->
     d_getitem d code = Ok None ->
     quote w (Request j (Some code) type_) st
       = (State (api st) (contract_cache st)
                (trace st ++ [EvContracts s TSE; EvContracts s OTC;
                              EvContracts s OES]
                          ++ lookups code before ++ [EvGetItem a code]),
          Response 500 (BError ("Contract not found for code=" ++ code)))) /\
  (forall d,
     w_Futures w s = Ok d -> d_getitem d code = Ok None ->
     quote w (Request j (Some code) (Some "futures")) st
       = (State (api st) (contract_cache st)
                (trace st ++ [EvContracts s Futures; EvGetItem Futures code]),
          Response 500 (BError ("Contract not found for code=" ++ code)))) /\
  (forall d,
     w_Options w s = Ok d -> d_getitem d code = Ok None ->
     quote w (Request j (Some code) (Some "options")) st
       = (State (api st) (contract_cache st)
                (trace st ++ [EvContracts s Options; EvGetItem Options code]),
          Response 500 (BError ("Contract not found for code=" ++ code)))).
Proof.
  intros Hcode Hapi.
  destruct (nonempty_code code Hcode) as (x & rest & ->).
  split; [|split].
  - intros type_ tse otc oes before after a d Htype Htse Hotc Hoes Hvenues
           Habsent Hnone.
    assert (Etype : match type_ with Some t => t | None => "stock" end = "stock")
      by (destruct Htype as [-> | ->]; reflexivity).
    unfold quote, handle, quote_body. cbn [req_code req_type]. rewrite Etype.
    rewrite bind_run. unfold get_api at 1. rewrite Hapi.
    rewrite bind_run. unfold resolve. cbn [String.eqb Ascii.eqb Bool.eqb].
    rewrite bind_run, (stock_containers_run w s st _ _ Htse Hotc), Hoes.
    rewrite Hvenues.
    rewrite bind_run, (probe_returned before after a d _ _ _ Habsent Hnone).
    cbn [api contract_cache trace found option_map]. unfold ret.
    repeat rewrite <- app_assoc. cbn [app]. rewrite Hapi. reflexivity.
  - intros d Hd Hnone.
    unfold quote, handle, quote_body. cbn [req_code req_type].
    rewrite bind_run. unfold get_api at 1. rewrite Hapi.
    rewrite bind_run. unfold resolve. cbn [String.eqb Ascii.eqb Bool.eqb].
    rewrite bind_run, call_run, Hd, bind_run, call_run, Hnone.
    cbn [api contract_cache trace found]. rewrite <- app_assoc. cbn [app].
    rewrite Hapi. reflexivity.
  - intros d Hd Hnone.
    unfold quote, handle, quote_body. cbn [req_code req_type].
    rewrite bind_run. unfold get_api at 1. rewrite Hapi.
    rewrite bind_run. unfold resolve. cbn [String.eqb Ascii.eqb Bool.eqb].
    rewrite bind_run, call_run, Hd, bind_run, call_run, Hnone.
    cbn [api contract_cache trace found]. rewrite <- app_assoc. cbn [app].
    rewrite Hapi. reflexivity.
Qed.

(** On containers that return [None] for a code they do not list, a code
    no venue lists stops the stock search at TSE, and the same code asked
    as a future is answered "Contract not found" as well. *)
Lemma quote_none_lookup_is_miss_witness :
  quote Cases.lenient (Sample.quote_request "9999" "stock") Sample.logged_in
    = (State (Some 3%nat) []
             [EvContracts 3%nat TSE; EvContracts 3%nat OTC; EvContracts 3%nat OES;
              EvGetItem TSE "9999"],
       Response 500 (BError "Contract not found for code=9999")) /\
  quote Cases.lenient (Sample.quote_request "9999" "futures") Sample.logged_in
    = (State (Some 3%nat) []
             [EvContracts 3%nat Futures; EvGetItem Futures "9999"],
       Response 500 (BError "Contract not found for code=9999")).
Proof.
  pose proof (quote_none_lookup_is_miss Cases.lenient Sample.logged_in 3%nat
                (Ok JNull) "9999" ltac:(discriminate) eq_refl)
    as (Hstock & Hfutures & _).
  split.
  - apply (Hstock (Some "stock")
             (Some (Cases.container_of (Sample.numbered 0 3)))
             (Some (Cases.container_of [Sample.otc_stock; Sample.otc_warrant]))
             None []
             [(OTC, Some (Cases.container_of [Sample.otc_stock; Sample.otc_warrant]));
              (OES, None)]
             TSE (Cases.container_of (Sample.numbered 0 3)));
      solve [reflexivity | now right | constructor].
  - apply (Hfutures (Cases.container_of [Sample.txf])); reflexivity.
Defined.





Lemma format_from_overflow (markets : list value) (quotes : list snapshot)
    (start : nat) :
  (start <= List.length markets < start + List.length quotes)%nat ->
  map_m (fun iq =>
           match nth_error markets (fst iq) with
           | None => Raise (IndexError "list index out of range")
           | Some market =>
               Ok (QuoteRecord (q_code (snd iq)) market
                               (q_close (snd iq)) (q_ts (snd iq)))
           end)
        (combine (seq start (List.length quotes)) quotes)
    = Raise (IndexError "list index out of range").
Proof.
  revert start. induction quotes as [|q quotes IH]; intros start Hlen.
  - simpl in Hlen. lia.
  - cbn [List.length seq combine map_m fst snd].
    destruct (nth_error markets start) as [m|] eqn:Hm; [|reflexivity].
    rewrite IH; [reflexivity|].
    assert (start < List.length markets)%nat
      by (apply nth_error_Some; congruence).
    simpl in Hlen. lia.
Qed.

(** X14: the answer of a /fetch_all that passes both gates. Its quotes
    are those the snapshot calls returned, in call order, skipping the
    calls that raised. When there are no more quotes than cached
    instruments the answer is 200, with one record per quote, in that
    order, labelled by position. When the calls return more quotes than
    there are instruments, [markets[i]] runs off the list and the answer
    is 500 "Error in fetch_all: list index out of range". *)
Theorem fetch_all_answer (w : world) (st st1 : state) (s : session)
    (u : usage_status) (rss : Z) (markets : list value) :
  api st = Some s ->
  w_usage w s = Ok u -> over_traffic_limit u = Ok false ->
  w_rss w = Ok rss -> rss <= 12 * 1024 ^ 3 ->
  prepared w s st st1 ->
  markets_of (contract_cache st1) = Ok markets ->
  let contracts := contracts_of (contract_cache st1) in
  let quotes :=
    batch_quotes w s contracts (range 0 (List.length contracts) batch_size) in
  ((List.length quotes <= List.length markets)%nat ->
   exists records,
     snd (fetch_all w st) = Response 200 (BQuotes records) /\
     map record_snapshot records = quotes /\
     Forall2 (fun r m => r_market r = m) records
             (firstn (List.length quotes) markets)) /\
  ((List.length markets < List.length quotes)%nat ->
   snd (fetch_all w st)
     = Response 500 (BRaised "Error in fetch_all: "
                       (IndexError "list index out of range"))).
Proof.
  intros Hapi Hu Hover Hrss Hsmall Hprep Hmarkets contracts quotes.
  rewrite (fetch_all_prepared w st st1 s u rss Hapi Hu Hover Hrss Hsmall Hprep).
  unfold handle. rewrite serve_run. cbv zeta. rewrite Hmarkets.
  fold contracts quotes. split.
  - intros Hfits.
    destruct (format_result_ok markets quotes Hfits) as (records & Hfmt & _).
    destruct (format_from_sound markets quotes 0 records Hfmt) as (Hmap & Hlab).
    rewrite Hfmt. exists records. auto.
  - intros Hlong. unfold format_result, enumerate.
    rewrite format_from_overflow by lia. reflexivity.
Qed.

Lemma fetch_all_answer_witness :
  snd (fetch_all Cases.talkative Sample.logged_in)
    = Response 500 (BRaised "Error in fetch_all: "
                      (IndexError "list index out of range")).
Proof.
  refine (proj2 (fetch_all_answer Cases.talkative Sample.logged_in
                   Cases.talkative_populated 3%nat Sample.light_usage 0
                   (repeat (VStr "TSE") 2) eq_refl eq_refl eq_refl eq_refl
                   ltac:(discriminate) ltac:(vm_compute; reflexivity)
                   ltac:(vm_compute; reflexivity)) _).
  vm_compute. lia.
Defined.

Lemma fetch_all_labels_aligned_witness :
  exists records,
    snd (fetch_all Cases.small_sdk Sample.logged_in) = Response 200 (BQuotes records) /\
    Forall2 (fun v q => q = Sample.snapshot_of v)
            (contracts_of (contract_cache Cases.small_populated))
            (map record_snapshot records) /\
    Forall2 (fun r m => r_market r = m) records (repeat (VStr "TSE") 3).
Proof.
  apply (fetch_all_labels_aligned (fun v q => q = Sample.snapshot_of v)
           Cases.small_sdk Sample.logged_in Cases.small_populated 3%nat
           Sample.light_usage 0 (repeat (VStr "TSE") 3)
           eq_refl eq_refl eq_refl eq_refl ltac:(discriminate)
           ltac:(vm_compute; reflexivity) ltac:(vm_compute; reflexivity)).
  intros i Hi. vm_compute in Hi. destruct Hi as [<- | []].
  eexists. split; [vm_compute; reflexivity|].
  vm_compute. repeat constructor.
Defined.

Lemma over_traffic_limit_exact_witness :
  over_traffic_limit (UsageStatus 400000000 500000000) = Ok false /\
  over_traffic_limit (UsageStatus 400000001 500000000) = Ok true.
Proof.
  split.
  - exact (over_traffic_limit_exact (UsageStatus 400000000 500000000)
             ltac:(cbn; lia)).
  - exact (over_traffic_limit_exact (UsageStatus 400000001 500000000)
             ltac:(cbn; lia)).
Defined.

(** ** Labels *)

Lemma substring_append_r (s t : string) :
  String.substring (String.length s) (String.length t) (s ++ t) = t.
Proof.
  induction s as [|a s IH]; simpl; [|exact IH].
  induction t as [|b t IHt]; simpl; [reflexivity|].
  now rewrite IHt.
Qed.

Lemma endswith_append (s suffix : string) : endswith (s ++ suffix) suffix = true.
Proof.
  unfold endswith. rewrite length_append.
  replace (String.length s + String.length suffix - String.length suffix)%nat
    with (String.length s) by lia.
  rewrite substring_append_r, String.eqb_refl.
  apply Bool.andb_true_iff. split; [apply Nat.leb_le; lia | reflexivity].
Qed.

Lemma dict_set_keeps_key {V} (d : dict V) (k k' : string) (v : V) :
  dict_get d k' <> None -> dict_get (dict_set d k v) k' <> None.
Proof.
  intros H. destruct (String.eqb_spec k k') as [->|Hne].
  - rewrite dict_get_set_eq. discriminate.
  - now rewrite dict_get_set_neq.
Qed.

(** Storing an instrument and then its label keeps the cache labelled. *)
Lemma labelled_set_pair (cache : dict value) (key : string) (v v' : value) :
  labelled cache ->
  labelled (dict_set (dict_set cache key v) (key ++ "_market") v').
Proof.
  intros Hlab k Hk Hend.
  destruct (String.eqb_spec (key ++ "_market") k) as [<-|Hne1].
  - rewrite endswith_append in Hend. discriminate.
  - rewrite dict_get_set_neq in Hk by exact Hne1.
    destruct (String.eqb_spec key k) as [<-|Hne2].
    + rewrite dict_get_set_eq. discriminate.
    + rewrite dict_get_set_neq in Hk by exact Hne2.
      apply dict_set_keeps_key, dict_set_keeps_key, Hlab; assumption.
Qed.

Lemma labelled_cache_stock (market : string) (cache : dict value) (c : contract) :
  labelled cache -> labelled (cache_stock market cache c).
Proof.
  intros Hlab. unfold cache_stock.
  destruct (c_code c) as [code|]; [|exact Hlab].
  destruct (is_warrant c); repeat apply labelled_set_pair; exact Hlab.
Qed.

Lemma labelled_cache_derivative (prefix market : string) (cache : dict value)
    (c : contract) :
  labelled cache -> labelled (cache_derivative prefix market cache c).
Proof.
  intros Hlab. unfold cache_derivative.
  destruct (c_code c) as [code|]; [|exact Hlab].
  now apply labelled_set_pair.
Qed.

Lemma runs_populate_keeps (I : dict value -> Prop) (w : world) (s : session) :
  (forall market cache c, I cache -> I (cache_stock market cache c)) ->
  (forall prefix market cache c,
     I cache -> I (cache_derivative prefix market cache c)) ->
  runs I (fun _ => True) (populate w s).
Proof.
  intros Hstock Hderivative. unfold populate, stock_containers.
  repeat first
    [ apply runs_bind | apply runs_call | apply runs_ret | apply runs_for_each
    | apply runs_modify_cache; intros cache HI;
      apply fold_left_keeps; [intros; first [apply Hstock | apply Hderivative]; assumption | exact HI]
    | match goal with
      | |- runs _ _ (match ?x with _ => _ end) => destruct x
      | |- forall _, _ => intro
      end
    | exact Logic.I ].
Qed.

Lemma fetch_all_keeps (I : dict value -> Prop) (w : world) (st : state) :
  (forall market cache c, I cache -> I (cache_stock market cache c)) ->
  (forall prefix market cache c,
     I cache -> I (cache_derivative prefix market cache c)) ->
  I (contract_cache st) -> I (contract_cache (fst (fetch_all w st))).
Proof.
  intros Hstock Hderivative HI. unfold fetch_all. rewrite fst_handle.
  assert (Hruns : runs I (fun _ => True) (fetch_all_body w)).
  { unfold fetch_all_body.
    apply runs_get_api. intros [s|]; [|apply runs_ret].
    apply runs_bind; [apply runs_call; exact Logic.I|]. intros usage.
    apply runs_bind; [apply runs_lift|]. intros [|]; [apply runs_ret|].
    apply runs_bind; [apply runs_call; exact Logic.I|]. intros rss.
    destruct (over_memory_limit rss); [apply runs_ret|].
    apply runs_get_cache. intros cache _.
    apply runs_bind.
    - destruct cache; [now apply runs_populate_keeps | apply runs_ret].
    - intros _. apply runs_serve; [intro; exact Logic.I | exact Logic.I]. }
  destruct (Hruns st HI) as (_ & _ & _ & _ & H). exact H.
Qed.

Lemma in_dict_get {V} (d : dict V) (k : string) (v : V) :
  In (k, v) d -> dict_get d k <> None.
Proof.
  induction d as [|[k' v'] d IH]; simpl; [tauto|].
  intros [[= -> ->] | Hin].
  - rewrite String.eqb_refl. discriminate.
  - destruct (String.eqb k' k); [discriminate | now apply IH].
Qed.

Lemma map_m_ok {A B} (f : A -> result B) (l : list A) :
  (forall x, In x l -> exists y, f x = Ok y) -> exists l', map_m f l = Ok l'.
Proof.
  induction l as [|x l IH]; intros H; simpl; [eauto|].
  destruct (H x (or_introl eq_refl)) as [y ->].
  destruct IH as [ys ->]; [intros; apply H; now right|]. eauto.
Qed.

Lemma labelled_markets (cache : dict value) :
  labelled cache ->
  exists markets,
    markets_of cache = Ok markets /\
    List.length markets = List.length (contracts_of cache).
Proof.
  intros Hlab.
  destruct (map_m_ok
              (fun kv => match dict_get cache (fst kv ++ "_market") with
                         | Some v => Ok v
                         | None => Raise (KeyError (fst kv ++ "_market"))
                         end)
              (filter is_instrument_key cache)) as [markets Hm].
  - intros [k v] Hin. apply filter_In in Hin as [Hin Hkey]. cbn [fst].
    unfold is_instrument_key in Hkey. cbn [fst] in Hkey.
    apply Bool.negb_true_iff in Hkey.
    pose proof (Hlab k (in_dict_get _ _ _ Hin) Hkey) as Hc.
    destruct (dict_get cache (k ++ "_market")); [eauto | contradiction].
  - exists markets. split; [exact Hm | now apply markets_of_length].
Qed.

Lemma quote_cache (w : world) (r : request) (st : state) :
  contract_cache (fst (quote w r st)) = contract_cache st.
Proof.
  destruct (quote_footprint w r st (fun _ => True)
              (fun _ _ _ _ _ _ => Logic.I)) as (_ & _ & _ & _ & Hc).
  exact Hc.
Qed.

Lemma in_dict_set {V} (d : dict V) (key k : string) (v v' : V) :
  In (k, v') (dict_set d key v) -> (k = key /\ v' = v) \/ In (k, v') d.
Proof.
  induction d as [|[k0 v0] d IH]; simpl.
  - intros [[= <- <-] | []]. now left.
  - destruct (String.eqb_spec k0 key) as [->|Hne]; simpl.
    + intros [[= <- <-] | Hin]; [now left | right; now right].
    + intros [Heq | Hin]; [right; now left|].
      destruct (IH Hin) as [H | H]; [now left | right; now right].
Qed.

Lemma typed_set_pair (cache : dict value) (key : string) (c : contract)
    (v' : value) :
  typed cache ->
  typed (dict_set (dict_set cache key (VContract c)) (key ++ "_market") v').
Proof.
  intros Htyped k v Hin Hend.
  apply in_dict_set in Hin as [[-> _] | Hin].
  - rewrite endswith_append in Hend. discriminate.
  - apply in_dict_set in Hin as [[_ ->] | Hin]; [eauto|].
    now apply (Htyped k v).
Qed.

Lemma typed_cache_stock (market : string) (cache : dict value) (c : contract) :
  typed cache -> typed (cache_stock market cache c).
Proof.
  intros Htyped. unfold cache_stock.
  destruct (c_code c) as [code|]; [|exact Htyped].
  destruct (is_warrant c); repeat apply typed_set_pair; exact Htyped.
Qed.

Lemma typed_cache_derivative (prefix market : string) (cache : dict value)
    (c : contract) :
  typed cache -> typed (cache_derivative prefix market cache c).
Proof.
  intros Htyped. unfold cache_derivative.
  destruct (c_code c) as [code|]; [|exact Htyped].
  now apply typed_set_pair.
Qed.

Lemma typed_contracts (cache : dict value) :
  typed cache ->
  Forall (fun v => exists c, v = VContract c) (contracts_of cache).
Proof.
  intros Htyped. apply Forall_forall. intros v Hin.
  unfold contracts_of in Hin. apply in_map_iff in Hin as ([k v'] & <- & Hin).
  apply filter_In in Hin as [Hin Hkey].
  unfold is_instrument_key in Hkey. cbn [fst] in Hkey.
  apply Bool.negb_true_iff in Hkey. apply (Htyped k v' Hin Hkey).
Qed.

(** The cache of a fresh process. *)
Lemma fresh_cache : labelled [] /\ typed [].
Proof.
  split; [intros k Hk; contradiction | intros k v []].
Qed.

(** X15: an invariant of the cache over any sequence of /login,
    /fetch_all and /quote requests, with any collaborator answers, from
    the empty cache of a fresh process (or any cache of this shape): every
    instrument key has its "_market" key beside it, and every instrument
    key holds a contract. Hence the label collection of /fetch_all never
    raises [KeyError], gives one label per contract, and only contracts
    are sent to [api.snapshots]. *)
Theorem process_keeps_cache_shape (qs : list http) (st : state) :
  labelled (contract_cache st) -> typed (contract_cache st) ->
  let cache := contract_cache (process qs st) in
  labelled cache /\ typed cache /\
  Forall (fun v => exists c, v = VContract c) (contracts_of cache) /\
  exists markets,
    markets_of cache = Ok markets /\
    List.length markets = List.length (contracts_of cache).
Proof.
  intros Hlab Htyped cache.
  assert (H : labelled cache /\ typed cache).
  { subst cache. revert st Hlab Htyped.
    induction qs as [|q qs IH]; intros st Hlab Htyped; [now split|].
    cbn [process].
    destruct q as [w r | w | w r]; cbn [dispatch]; apply IH.
    - rewrite login_cache. exact Hlab.
    - rewrite login_cache. exact Htyped.
    - apply fetch_all_keeps; auto using labelled_cache_stock,
        labelled_cache_derivative.
    - apply fetch_all_keeps; auto using typed_cache_stock,
        typed_cache_derivative.
    - rewrite quote_cache. exact Hlab.
    - rewrite quote_cache. exact Htyped. }
  destruct H as [Hl Ht].
  split; [exact Hl|]. split; [exact Ht|].
  split; [now apply typed_contracts | now apply labelled_markets].
Qed.

Lemma process_keeps_cache_shape_witness :
  exists markets,
    markets_of
      (contract_cache
         (process [PostLogin Sample.refusing_sdk (Sample.post Sample.credentials);
                   GetFetchAll Cases.interrupted;
                   GetQuote Sample.otc_sdk (Sample.quote_request "6488" "stock");
                   GetFetchAll Sample.clashing_sdk]
                  Sample.fresh)) = Ok markets /\
    List.length markets = 2%nat.
Proof.
  destruct (process_keeps_cache_shape
              [PostLogin Sample.refusing_sdk (Sample.post Sample.credentials);
               GetFetchAll Cases.interrupted;
               GetQuote Sample.otc_sdk (Sample.quote_request "6488" "stock");
               GetFetchAll Sample.clashing_sdk]
              Sample.fresh (proj1 fresh_cache) (proj2 fresh_cache))
    as (_ & _ & _ & markets & Hm & Hlen).
  exists markets. split; [exact Hm|]. rewrite Hlen. vm_compute. reflexivity.
Defined.

(** X16: when population raises part-way (a directory accessor or
    listing fails), /fetch_all answers 500 "Error in fetch_all: <e>" and
    keeps the entries written so far; if there are any, the cache is no
    longer empty, so no later /fetch_all resumes population: the partial
    cache is served from then on. *)
Theorem fetch_all_interrupted_population (w : world) (st st1 : state)
    (s : session) (u : usage_status) (rss : Z) (e : exn) :
  api st = Some s -> contract_cache st = [] ->
  w_usage w s = Ok u -> over_traffic_limit u = Ok false ->
  w_rss w = Ok rss -> rss <= 12 * 1024 ^ 3 ->
  populate w s (State (api st) [] (trace st ++ [EvUsage s; EvMemoryInfo]))
    = (st1, Raise e) ->
  fetch_all w st = (st1, Response 500 (BRaised "Error in fetch_all: " e)) /\
  (contract_cache st1 <> [] ->
   forall ws,
     contract_cache (fetch_all_run ws st1) = contract_cache st1 /\
     filter is_contracts_access (new_events st1 (fetch_all_run ws st1)) = []).
Proof.
  intros Hapi Hcold Hu Hover Hrss Hsmall Hpop. split.
  - unfold fetch_all, handle, fetch_all_body.
    rewrite bind_run. unfold get_api at 1. rewrite Hapi.
    rewrite bind_run, call_run, Hu, bind_run. unfold lift at 1. rewrite Hover.
    rewrite bind_run, call_run, Hrss.
    unfold over_memory_limit. apply Z.ltb_ge in Hsmall. rewrite Hsmall.
    cbn [api contract_cache trace]. rewrite <- app_assoc. cbn [app].
    rewrite bind_run. unfold get_cache at 1. cbn [contract_cache].
    rewrite Hcold in *. rewrite bind_run, Hpop. reflexivity.
  - intros Hwarm ws.
    destruct (fetch_all_run_warm ws st1 Hwarm) as (evs & Ht & Hp & Hc).
    split; [exact Hc|].
    rewrite (new_events_app _ _ _ Ht). now apply filter_none.
Qed.

Lemma fetch_all_interrupted_population_witness :
  let st1 := fst (fetch_all Cases.interrupted Sample.logged_in) in
  snd (fetch_all Cases.interrupted Sample.logged_in)
    = Response 500 (BRaised "Error in fetch_all: " (Raised "futures not loaded")) /\
  contract_cache (fetch_all_run [Sample.skipping_sdk] st1) = contract_cache st1 /\
  dict_get (contract_cache (fetch_all_run [Sample.skipping_sdk] st1)) "futures_TXF"
    = None.
Proof.
  intros st1.
  pose proof (fetch_all_interrupted_population Cases.interrupted
                Sample.logged_in st1 3%nat Sample.light_usage 0
                (Raised "futures not loaded") eq_refl eq_refl eq_refl eq_refl
                eq_refl ltac:(discriminate) ltac:(vm_compute; reflexivity))
    as (Hout & Hlater).
  split; [rewrite Hout; reflexivity|].
  destruct (Hlater ltac:(vm_compute; discriminate) [Sample.skipping_sdk])
    as (Hc & _).
  split; [exact Hc|]. rewrite Hc. vm_compute. reflexivity.
Defined.

(** A request that finds the cache empty and passes the gates starts to
    populate: its first directory access is [api.Contracts.Stocks.TSE]. *)
Lemma fetch_all_cold_start (w : world) (st : state) (s : session)
    (u : usage_status) (rss : Z) :
  api st = Some s -> contract_cache st = [] ->
  w_usage w s = Ok u -> over_traffic_limit u = Ok false ->
  w_rss w = Ok rss -> rss <= 12 * 1024 ^ 3 ->
  exists evs,
    new_events st (fst (fetch_all w st))
      = EvUsage s :: EvMemoryInfo :: EvContracts s TSE :: evs.
Proof.
  intros Hapi Hcold Hu Hover Hrss Hsmall.
  unfold fetch_all. rewrite fst_handle. unfold fetch_all_body.
  rewrite bind_run. unfold get_api at 1. rewrite Hapi.
  rewrite bind_run, call_run, Hu, bind_run. unfold lift at 1. rewrite Hover.
  rewrite bind_run, call_run, Hrss.
  unfold over_memory_limit. apply Z.ltb_ge in Hsmall. rewrite Hsmall.
  cbn [api contract_cache trace]. rewrite <- app_assoc. cbn [app].
  rewrite bind_run. unfold get_cache at 1. cbn [contract_cache].
  rewrite Hcold. unfold populate, stock_containers.
  rewrite !bind_assoc, bind_run, call_run.
  destruct (w_TSE w s) as [tse|e].
  - match goal with
    | |- context [fst (?k ?st')] =>
        assert (Hk : runs (fun _ => True) (fun _ => True) k);
        [| destruct (Hk st' Logic.I) as (evs & Ht & _)]
    end.
    { repeat first
        [ apply runs_serve | apply runs_bind | apply runs_call | apply runs_ret
        | apply runs_modify_cache | apply runs_for_each
        | match goal with
          | |- runs _ _ (match ?x with _ => _ end) => destruct x
          | |- forall _, _ => intro
          end
        | exact Logic.I ]. }
    exists evs. apply new_events_app. rewrite Ht. cbn [trace].
    rewrite <- !app_assoc. reflexivity.
  - exists []. apply new_events_app. cbn [fst trace].
    rewrite <- app_assoc. reflexivity.
Qed.

(** X17: when population ends with an empty cache (no venue lists a
    contract with a code), /fetch_all answers 200 with no quotes and calls
    no snapshot; the cache is still empty, so the next /fetch_all that
    passes the gates populates again, starting with
    [api.Contracts.Stocks.TSE]. *)
Theorem fetch_all_empty_population (w : world) (st st1 : state)
    (s : session) (u : usage_status) (rss : Z) :
  api st = Some s -> contract_cache st = [] ->
  w_usage w s = Ok u -> over_traffic_limit u = Ok false ->
  w_rss w = Ok rss -> rss <= 12 * 1024 ^ 3 ->
  populate w s (State (api st) [] (trace st ++ [EvUsage s; EvMemoryInfo]))
    = (st1, Ok tt) ->
  contract_cache st1 = [] ->
  fetch_all w st = (st1, Response 200 (BQuotes [])) /\
  forall w' u' rss',
    w_usage w' s = Ok u' -> over_traffic_limit u' = Ok false ->
    w_rss w' = Ok rss' -> rss' <= 12 * 1024 ^ 3 ->
    exists evs,
      new_events st1 (fst (fetch_all w' st1))
        = EvUsage s :: EvMemoryInfo :: EvContracts s TSE :: evs.
Proof.
  intros Hapi Hcold Hu Hover Hrss Hsmall Hpop Hempty.
  assert (Hprep : prepared w s st st1)
    by (unfold prepared; rewrite Hcold; exact Hpop).
  split.
  - rewrite (fetch_all_prepared w st st1 s u rss Hapi Hu Hover Hrss Hsmall Hprep).
    unfold handle. rewrite serve_run. cbv zeta. rewrite Hempty.
    cbn. destruct st1; reflexivity.
  - intros w' u' rss' Hu' Hover' Hrss' Hsmall'.
    destruct (prepared_trace w s st st1 Hprep) as (Ha1 & _).
    apply (fetch_all_cold_start w' st1 s u' rss'); auto. congruence.
Qed.

Lemma fetch_all_empty_population_witness :
  let w := Sample.sdk Sample.light_usage 0 [] [] [] [] [] in
  snd (fetch_all w Sample.logged_in) = Response 200 (BQuotes []) /\
  exists evs,
    new_events (fst (fetch_all w Sample.logged_in))
               (fst (fetch_all w (fst (fetch_all w Sample.logged_in))))
      = EvUsage 3%nat :: EvMemoryInfo :: EvContracts 3%nat TSE :: evs.
Proof.
  intros w.
  pose proof (fetch_all_empty_population w Sample.logged_in
                (fst (fetch_all w Sample.logged_in)) 3%nat Sample.light_usage 0
                eq_refl eq_refl eq_refl eq_refl eq_refl ltac:(discriminate)
                eq_refl eq_refl) as (Hout & Hnext).
  split; [rewrite Hout; reflexivity|].
  exact (Hnext w Sample.light_usage 0 eq_refl eq_refl eq_refl
               ltac:(discriminate)).
Defined.

(** X18: /login answers 200 only when it logged in: [api] then holds a
    session whose [api.login] returned the accounts in the body and whose
    [api.fetch_contracts] returned, and these two are the last calls made,
    in that order. *)
Theorem login_success_means_logged_in (w : world) (r : request) (st : state) :
  statusCode (snd (login w r st)) = 200 ->
  exists s accounts evs,
    api (fst (login w r st)) = Some s /\
    snd (login w r st) = Response 200 (BLogin accounts) /\
    new_events st (fst (login w r st))
      = (evs ++ [EvLogin s; EvFetchContracts s])%list /\
    w_fetch_contracts w s = Ok tt /\
    exists api_key secret_key, w_login w s api_key secret_key = Ok accounts.
Proof.
  remember (login w r st) as out eqn:E.
  unfold login, handle, login_body, bind, call, emit, lift, ret, set_api in E.
  destruct (req_json r) as [data|e]; [|subst out; discriminate].
  destruct (negb (truthy data)); [subst out; discriminate|].
  destruct (as_dict data) as [d|e]; [|subst out; discriminate].
  destruct (missing_params _ _ _ _ _); [|subst out; discriminate].
  destruct (truthy (get_default d "simulation_mode" (JBool false))); cbn in E.
  - destruct (w_Shioaji w _) as [s|e]; cbn in E; [|subst out; discriminate].
    destruct (w_login w s _ _) as [accounts|e] eqn:Hlogin; cbn in E;
      [|subst out; discriminate].
    destruct (w_fetch_contracts w s) as [[]|e] eqn:Hfetch; cbn in E;
      [|subst out; discriminate].
    intros _. subst out. cbn [fst snd api].
    exists s, accounts, [EvShioaji (get_default d "simulation_mode" (JBool false))].
    split; [reflexivity|]. split; [reflexivity|]. split.
    + apply new_events_app. cbn [trace]. rewrite <- !app_assoc. reflexivity.
    + split; [exact Hfetch | eauto].
  - destruct (w_path_exists w _) as [[|]|]; cbn in E; try (subst out; discriminate).
    destruct (w_Shioaji w _) as [s|e]; cbn in E; [|subst out; discriminate].
    destruct (w_activate_ca w s _ _ _) as [[|]|]; cbn in E;
      try (subst out; discriminate).
    destruct (w_login w s _ _) as [accounts|e] eqn:Hlogin; cbn in E;
      [|subst out; discriminate].
    destruct (w_fetch_contracts w s) as [[]|e] eqn:Hfetch; cbn in E;
      [|subst out; discriminate].
    intros _. subst out. cbn [fst snd api].
    exists s, accounts,
      [EvPathExists (get_default d "ca_path" (JStr "/app/Sinopac.pfx"));
       EvShioaji (get_default d "simulation_mode" (JBool false));
       EvActivateCa s].
    split; [reflexivity|]. split; [reflexivity|]. split.
    + apply new_events_app. cbn [trace]. rewrite <- !app_assoc. reflexivity.
    + split; [exact Hfetch | eauto].
Qed.

Lemma login_success_means_logged_in_witness :
  exists s accounts evs,
    api (fst (login (Sample.sdk Sample.light_usage 0 [] [] [] [] [])
                    (Sample.post Sample.credentials) Sample.fresh)) = Some s /\
    snd (login (Sample.sdk Sample.light_usage 0 [] [] [] [] [])
               (Sample.post Sample.credentials) Sample.fresh)
      = Response 200 (BLogin accounts) /\
    new_events Sample.fresh
      (fst (login (Sample.sdk Sample.light_usage 0 [] [] [] [] [])
                  (Sample.post Sample.credentials) Sample.fresh))
      = (evs ++ [EvLogin s; EvFetchContracts s])%list.
Proof.
  destruct (login_success_means_logged_in
              (Sample.sdk Sample.light_usage 0 [] [] [] [] [])
              (Sample.post Sample.credentials) Sample.fresh eq_refl)
    as (s & accounts & evs & Ha & Hr & He & _).
  exists s, accounts, evs. auto.
Defined.

(** X19: errors inside the gates of /fetch_all give 500 "Error in
    fetch_all: <e>" and leave [api] and the cache alone: [api.usage()]
    raising, the traffic comparison raising ([OverflowError] when
    [limit_bytes] is too large for a float), and the memory reading
    raising; nothing is called after the failing step. *)
Theorem fetch_all_gate_errors (w : world) (st : state) (s : session) :
  api st = Some s ->
  (forall e,
     w_usage w s = Raise e ->
     fetch_all w st
       = (State (api st) (contract_cache st) (trace st ++ [EvUsage s]),
          Response 500 (BRaised "Error in fetch_all: " e))) /\
  (forall u e,
     w_usage w s = Ok u -> over_traffic_limit u = Raise e ->
     fetch_all w st
       = (State (api st) (contract_cache st) (trace st ++ [EvUsage s]),
          Response 500 (BRaised "Error in fetch_all: " e))) /\
  (forall u e,
     w_usage w s = Ok u -> over_traffic_limit u = Ok false ->
     w_rss w = Raise e ->
     fetch_all w st
       = (State (api st) (contract_cache st)
                (trace st ++ [EvUsage s; EvMemoryInfo]),
          Response 500 (BRaised "Error in fetch_all: " e))).
Proof.
  intros Hapi. split; [|split].
  - intros e Hu. unfold fetch_all, handle, fetch_all_body.
    rewrite bind_run. unfold get_api at 1. rewrite Hapi.
    rewrite bind_run, call_run, Hu, Hapi. reflexivity.
  - intros u e Hu Hover. unfold fetch_all, handle, fetch_all_body.
    rewrite bind_run. unfold get_api at 1. rewrite Hapi.
    rewrite bind_run, call_run, Hu, bind_run. unfold lift at 1.
    rewrite Hover, Hapi. reflexivity.
  - intros u e Hu Hover Hrss. unfold fetch_all, handle, fetch_all_body.
    rewrite bind_run. unfold get_api at 1. rewrite Hapi.
    rewrite bind_run, call_run, Hu, bind_run. unfold lift at 1.
    rewrite Hover. rewrite bind_run, call_run, Hrss.
    cbn [api contract_cache trace]. rewrite <- app_assoc, Hapi. reflexivity.
Qed.

Lemma fetch_all_gate_errors_witness :
  fetch_all (Sample.sdk (UsageStatus 0 (2 ^ 1024)) 0 [] [] [] [] [])
            Sample.logged_in
    = (State (Some 3%nat) [] [EvUsage 3%nat],
       Response 500
         (BRaised "Error in fetch_all: "
            (OverflowError "int too large to convert to float"))).
Proof.
  exact (proj1 (proj2 (fetch_all_gate_errors
                         (Sample.sdk (UsageStatus 0 (2 ^ 1024)) 0 [] [] [] [] [])
                         Sample.logged_in 3%nat eq_refl))
               (UsageStatus 0 (2 ^ 1024))
               (OverflowError "int too large to convert to float")
               eq_refl eq_refl).
Defined.

(** ** Status codes *)

Lemma answers_ret (Q : response -> Prop) (r : response) : Q r -> answers Q (ret r).
Proof. intros H st. exact H. Qed.

Lemma answers_bind {A} (Q : response -> Prop) (m : M A) (k : A -> M response) :
  (forall a, answers Q (k a)) -> answers Q (bind m k).
Proof.
  intros Hk st. unfold bind. destruct (m st) as [st' [a|e]]; [apply Hk | exact Logic.I].
Qed.

Lemma answers_raise (Q : response -> Prop) (e : exn) : answers Q (raise e).
Proof. intros st. exact Logic.I. Qed.

Lemma answers_handle (Q : response -> Prop) (prefix : string) (m : M response)
    (st : state) :
  answers Q m -> (forall e, Q (Response 500 (BRaised prefix e))) ->
  Q (snd (handle prefix m st)).
Proof.
  intros Hm He. unfold handle. specialize (Hm st).
  destruct (m st) as [st' [r|e]]; [exact Hm | apply He].
Qed.

(** X20: the status codes each route can answer, for every request,
    state and collaborator behaviour. /login: 200 with accounts, 400 with
    a message, or 500 (activation failed, certificate not found, or an
    exception). /fetch_all: 200 with records, 429 from one of the two
    gates, or 500 (not initialized, or an exception); never 400. /quote:
    200 with a quote, 400, or 500; never 429. *)
Theorem answer_shapes :
  (forall w r st, login_answer (snd (login w r st))) /\
  (forall w st, fetch_all_answer_shape (snd (fetch_all w st))) /\
  (forall w r st, quote_answer_shape (snd (quote w r st))).
Proof.
  split; [|split].
  - intros w r st. unfold login. apply answers_handle.
    + unfold login_body.
      repeat first
        [ apply answers_bind | apply answers_raise
        | match goal with
          | |- answers _ (ret _) => apply answers_ret; unfold login_answer; cbn; eauto 10
          | |- answers _ (match ?x with _ => _ end) => destruct x
          | |- answers _ (if ?x then _ else _) => destruct x
          | |- forall _, _ => intro
          end ].
    + intros e. unfold login_answer. cbn. eauto 10.
  - intros w st. unfold fetch_all. apply answers_handle.
    + unfold fetch_all_body, serve.
      repeat first
        [ apply answers_bind | apply answers_raise
        | match goal with
          | |- answers _ (ret _) => apply answers_ret; unfold fetch_all_answer_shape; cbn; eauto 10
          | |- answers _ (match ?x with _ => _ end) => destruct x
          | |- answers _ (if ?x then _ else _) => destruct x
          | |- forall _, _ => intro
          end ].
    + intros e. unfold fetch_all_answer_shape. cbn. eauto 10.
  - intros w r st. unfold quote. apply answers_handle.
    + unfold quote_body.
      repeat first
        [ apply answers_bind | apply answers_raise
        | match goal with
          | |- answers _ (ret _) => apply answers_ret; unfold quote_answer_shape; cbn; eauto 12
          | |- answers _ (match ?x with _ => _ end) => destruct x
          | |- answers _ (if ?x then _ else _) => destruct x
          | |- forall _, _ => intro
          end ].
    + intros e. unfold quote_answer_shape. cbn. eauto 10.
Qed.
